(** * Ideal-function selection and test-point mapping

    A shallow embedding of [src/application/IdealFunctionsManager.py] and of
    the part of [src/application/DataManager.py] it relies on.

    - Python floats are IEEE binary64 numbers: they are modelled by Rocq's
      primitive floats, so that [float('inf')], [np.nan], [<], [<=] and
      [2**0.5] behave exactly as in the program.
    - [sklearn.linear_model.LinearRegression] is an external library.  It is
      a parameter of the development (record [Regressor]); a call that
      raises is a call that returns [None].
    - A [pandas.DataFrame] read from a CSV file is an [x] column followed by
      labelled value columns of numbers; column labels are looked up as the
      program does ([df[label]]).  The test table is a list of rows
      [(x, y)].
    - The attributes of [IdealFunctionsManager] that the two operations read
      and write are the fields of the record [Manager], together with the
      table [TestDataMapping] of the results database; every operation
      takes the manager before the call and returns the manager after it,
      with the way the call ended ([Returned] or [Raised]).
    - What a call finds outside the process (the CSV files, a database that
      accepts a write or not) is the record [World].
    - [Series.sum] is pandas over numpy: the order in which numpy adds the
      entries of an array is part of the model (module [Numpy]).
    - Of the logger calls, those of lines 204, 214, 262, 264, 266 and 294
      are recorded (field [log]); the others, the print of the first
      records at line 267 among them, change nothing and are left out, and
      so are the calls to the [Visualizer] inside the two operations, which
      the program wraps in [try/except Exception]. *)

From Stdlib Require Import Floats ZArith Lia Bool List String Permutation.
Import ListNotations.

Local Open Scope string_scope.
Local Open Scope list_scope.

(* ================================================================== *)
(** * Python values used by the program *)

(** [2**0.5] evaluates to the binary64 number nearest to the square root
    of two. *)
Definition SQRT2 : float := 0x1.6a09e667f3bcdp+0%float.

(** ** Insertion-ordered dictionaries with string keys

    The loop of line 227 visits the items of a dictionary in the order in
    which its keys were first stored, and that order decides between two
    pairs of equal deviation: a dictionary is a list of items. *)

Module PyDict.

Definition dict (V : Type) : Type := list (string * V).

Fixpoint get {V} (d : dict V) (k : string) : option V :=
  match d with
  | [] => None
  | (k', v) :: rest => if String.eqb k' k then Some v else get rest k
  end.

(** [d[k] = v]: an existing key keeps its position, a new key is
    appended. *)
Fixpoint set {V} (d : dict V) (k : string) (v : V) : dict V :=
  match d with
  | [] => [(k, v)]
  | (k', v') :: rest =>
      if String.eqb k' k then (k', v) :: rest else (k', v') :: set rest k v
  end.

Definition keys {V} (d : dict V) : list string := map fst d.

(** [dict(zip(ks, vs))] *)
Definition of_zip {V} (ks : list string) (vs : list V) : dict V :=
  fold_left (fun d kv => set d (fst kv) (snd kv)) (combine ks vs) [].

(** A loop that stores [f c] under every key [c] of a list. *)
Definition store_all {V} (f : string -> V) (cols : list string) (d : dict V) :=
  fold_left (fun d c => set d c (f c)) cols d.

End PyDict.

(** ** pandas Series and DataFrame *)

Definition Series : Type := list float.

(** ** numpy: the sum of an array of floats

    [ndarray.sum()] adds the entries of a float64 array in the order of
    numpy's pairwise summation.  An array of fewer than 8 entries is added
    entry after entry.  An array of 8 to 128 entries is added with 8
    running sums, the entry of index [i] going to the sum of index
    [i mod 8]; the 8 sums are then added as a balanced tree, and the
    entries after the last complete group of 8 are added to the result one
    after the other.  A longer array is cut in two, the first part of a
    length that is a multiple of 8, the two parts are summed in the same
    way and the two sums are added.  The reduction then adds the result to
    its initial value.

    The additions start from zero.  The sign of that zero shows only on an
    array whose entries are all negative zeros; the program sums squares,
    which never are. *)
Module Numpy.

Definition PW_BLOCKSIZE : nat := 128.

(** [r[j] += a[i + j]] for [j] from 0 to 7, over the next [k] groups of 8
    entries of [a]; the result is [r] and the entries not yet added. *)
Fixpoint add_groups (k : nat) (r a : Series) : Series * Series :=
  match k with
  | O => (r, a)
  | S k' =>
      add_groups k'
        (map (fun p => (fst p + snd p)%float) (combine r (firstn 8 a)))
        (skipn 8 a)
  end.

(** An array of 8 to 128 entries. *)
Definition block_sum (a : Series) : float :=
  let n := List.length a in
  let '(r, rest) := add_groups (n / 8 - 1) (firstn 8 a) (skipn 8 a) in
  let r_ := fun j => nth j r 0%float in
  let res := (((r_ 0%nat + r_ 1%nat) + (r_ 2%nat + r_ 3%nat))
              + ((r_ 4%nat + r_ 5%nat) + (r_ 6%nat + r_ 7%nat)))%float in
  fold_left PrimFloat.add rest res.

(** An array of at most 128 entries. *)
Definition short_sum (a : Series) : float :=
  if (List.length a <? 8)%nat then fold_left PrimFloat.add a 0%float
  else block_sum a.

(** [pairwise_sum]; the recursion of the source is on the length of the
    array, which every call more than halves: [fuel] bounds its depth, and
    the length of the array is enough of it ([pairwise_sum_fuel]). *)
Fixpoint pairwise_sum (fuel : nat) (a : Series) : float :=
  match fuel with
  | O => short_sum a
  | S fuel' =>
      let n := List.length a in
      if (n <=? PW_BLOCKSIZE)%nat then short_sum a
      else
        let n2 := (n / 2 - (n / 2) mod 8)%nat in
        (pairwise_sum fuel' (firstn n2 a) + pairwise_sum fuel' (skipn n2 a))%float
  end.

(** [a.sum()] *)
Definition sum (a : Series) : float :=
  (0 + pairwise_sum (List.length a) a)%float.

End Numpy.

(** Not below zero. *)
Definition not_negative (v : float) : Prop := (0 <=? v)%float = true.

Module Pandas.

(** [a - b] for a Series and an array: element by element; operands of
    different lengths raise. *)
Fixpoint sub (a b : Series) : option Series :=
  match a, b with
  | [], [] => Some []
  | u :: a', v :: b' =>
      match sub a' b' with
      | Some r => Some ((u - v)%float :: r)
      | None => None
      end
  | _, _ => None
  end.

(** [s ** 2] *)
Definition pow2 (s : Series) : Series := map (fun v => (v * v)%float) s.

(** [abs(s)] *)
Definition abs (s : Series) : Series := map PrimFloat.abs s.

(** [s.sum()] for a Series of floats: pandas puts 0 in the place of every
    NaN entry ([skipna=True]) and sums the resulting array with numpy. *)
Definition sum (s : Series) : float :=
  Numpy.sum (map (fun v => if is_nan v then 0%float else v) s).

(** The builtin [max(s)]: the first element is kept until a strictly
    greater one is met; an empty argument raises [ValueError]. *)
Definition max (s : Series) : option float :=
  match s with
  | [] => None
  | v :: rest => Some (fold_left (fun m u => if (m <? u)%float then u else m) rest v)
  end.

Record DataFrame : Type := {
  df_x : Series;                       (* the first column, labelled x *)
  df_cols : list (string * Series)     (* the other columns, in order  *)
}.

(** [df.columns[1:]] *)
Definition columns_from_1 (df : DataFrame) : list string := map fst (df_cols df).

(** [df[label]]; [None] stands for [KeyError]. *)
Definition getitem (df : DataFrame) (label : string) : option Series :=
  if String.eqb label "x" then Some (df_x df)
  else PyDict.get (df_cols df) label.

(** [df[label]] for a label that may be the Python value [None], which is
    no column label. *)
Definition getitem_opt (df : DataFrame) (label : option string) : option Series :=
  match label with
  | Some l => getitem df l
  | None => None
  end.

(** [df.empty]: no row. *)
Definition empty (df : DataFrame) : bool :=
  match df_x df with [] => true | _ => false end.

(** [pd.DataFrame(d)] for a dictionary whose values are Series or [None]:
    pandas raises [ValueError] ("If using all scalar values, you must
    pass an index") when the dictionary is not empty and no value is a
    Series. *)
Definition of_dict (d : PyDict.dict (option Series)) :
    option (PyDict.dict (option Series)) :=
  match d with
  | [] => Some []
  | _ :: _ =>
      if forallb (fun kv => match snd kv with None => true | Some _ => false end) d
      then None
      else Some d
  end.

End Pandas.

Import Pandas.

(** The test table: one row per observation, columns [x] and [y]. *)
Definition TestFrame : Type := list (float * float).

Definition test_empty (t : TestFrame) : bool :=
  match t with [] => true | _ => false end.

(** ** The regression library *)

(** [LinearRegression()]: [fit X y] returns the fitted model or raises
    ([None]); [predict m X] returns one prediction per query point or
    raises.  The program always calls [predict] right after a successful
    [fit] on the same object, so the fitted model is passed explicitly. *)
Record Regressor : Type := {
  model : Type;
  fit : Series -> Series -> option model;
  predict : model -> Series -> option Series
}.

(* ================================================================== *)
(** * DataManager *)

(** What [DataManager] finds outside the process during one call: the three
    CSV files ([None]: missing or unreadable file, or a failing database)
    and whether the results database accepts a write. *)
Record World : Type := {
  train_csv : option DataFrame;
  ideal_csv : option DataFrame;
  test_csv : option TestFrame;
  results_writable : bool
}.

(** A row of the table [TestDataMapping]. *)
Record StoredRow : Type := {
  row_x : float;
  row_y : float;
  row_delta_y : float;           (* 'Delta Y' *)
  row_ideal_func : string        (* 'No. of ideal func' *)
}.

(** [save_data]: [data.to_sql(table_name, engine, if_exists='replace')].
    The result is the table after a successful write, [None] when
    [CustomError] is raised. *)
Definition save_data (writable : bool) (table : option (list StoredRow))
    (data : list StoredRow) : option (option (list StoredRow)) :=
  if writable then Some (Some data) else None.

(* ================================================================== *)
(** * IdealFunctionsManager *)

(** The attributes of the manager. *)
Record Manager : Type := {
  ideal_functions_selection : PyDict.dict (option string);
  ideal_functions_data : PyDict.dict (option Series);
  training_data_max_deviations : PyDict.dict float;
  results_db : option (list StoredRow)     (* table TestDataMapping *)
}.

(** [__init__] *)
Definition init : Manager := {|
  ideal_functions_selection := [];
  ideal_functions_data := [];
  training_data_max_deviations := [];
  results_db := None
|}.

Inductive exn : Type := KeyError | ValueError.

Inductive outcome : Type :=
| Returned
| Raised (e : exn).

Inductive level : Type := INFO | WARNING | ERROR.

Definition LogRecord : Type := (level * string)%type.

(** [_load_data]: the loaded frame, or [None] when an exception is raised
    (also for a frame without rows). *)
Definition _load_data {A} (is_empty : A -> bool) (loaded : option A) : option A :=
  match loaded with
  | Some data => if is_empty data then None else Some data
  | None => None
  end.

Section WithRegressor.

Variable reg : Regressor.

(** [_calculate_squared_deviation]; [None] when it raises. *)
Definition _calculate_squared_deviation
    (train_y ideal_func_y x : Series) : option float :=
  match fit reg x ideal_func_y with
  | None => None
  | Some m =>
      match predict reg m x with
      | None => None
      | Some y_predicted_ideal =>
          match sub train_y y_predicted_ideal with
          | None => None
          | Some diff => Some (sum (pow2 diff))
          end
      end
  end.

(** ** get_ideal_functions *)

(** The three variables of the inner loop (lines 135-137). *)
Record Best : Type := {
  min_sum_squared_deviation : float;
  best_ideal_func_name : option string;
  best_ideal_func_data : option Series
}.

Definition no_best : Best := {|
  min_sum_squared_deviation := infinity;
  best_ideal_func_name := None;
  best_ideal_func_data := None
|}.

(** The sum of squared deviations of a training column and a column of the
    ideal table, as line 142 computes it; [None] when the [except] branch
    of lines 143-145 is taken. *)
Definition deviation (train ideal : DataFrame) (x_values : Series)
    (train_col ideal_col : string) : option float :=
  match getitem train train_col, getitem ideal ideal_col with
  | Some train_y, Some ideal_y =>
      _calculate_squared_deviation train_y ideal_y x_values
  | _, _ => None
  end.

(** One iteration of the loop over the ideal columns (lines 139-150). *)
Definition consider (train ideal : DataFrame) (x_values : Series)
    (train_col : string) (b : Best) (ideal_col : string) : Best :=
  match deviation train ideal x_values train_col ideal_col with
  | None => b
  | Some sum_squared_deviation =>
      if (sum_squared_deviation <? min_sum_squared_deviation b)%float
      then {| min_sum_squared_deviation := sum_squared_deviation;
              best_ideal_func_name := Some ideal_col;
              best_ideal_func_data := getitem ideal ideal_col |}
      else b
  end.

(** The loop over the ideal columns for one training column. *)
Definition best_match (train ideal : DataFrame) (x_values : Series)
    (train_col : string) : Best :=
  fold_left (consider train ideal x_values train_col)
            (columns_from_1 ideal) no_best.

(** The body of the [try] of lines 155-161; [None] when the [except]
    branch is taken. *)
Definition max_deviation_train (train ideal : DataFrame) (x_values : Series)
    (train_col : string) (best_name : option string) : option float :=
  match getitem_opt ideal best_name with
  | None => None
  | Some ideal_y =>
      match fit reg x_values ideal_y with
      | None => None
      | Some m =>
          match predict reg m x_values with
          | None => None
          | Some y_predicted_ideal_for_train =>
              match getitem train train_col with
              | None => None
              | Some train_y =>
                  match sub train_y y_predicted_ideal_for_train with
                  | None => None
                  | Some diff => max (abs diff)
                  end
              end
          end
      end
  end.

(** What the loop over the training columns holds: the local dictionary
    [best_ideal_functions_selection], the local list
    [ideal_functions_data_temp], and the attribute
    [training_data_max_deviations], which the loop updates in place. *)
Record Sweep : Type := {
  best_ideal_functions_selection : PyDict.dict (option string);
  ideal_functions_data_temp : list (option Series);
  max_deviations : PyDict.dict float
}.

(** One iteration of the loop over the training columns
    (lines 134-164). *)
Definition select_column (train ideal : DataFrame) (x_values : Series)
    (s : Sweep) (train_col : string) : Sweep :=
  let b := best_match train ideal x_values train_col in
  {| best_ideal_functions_selection :=
       PyDict.set (best_ideal_functions_selection s) train_col
                  (best_ideal_func_name b);
     ideal_functions_data_temp :=
       ideal_functions_data_temp s ++ [best_ideal_func_data b];
     max_deviations :=
       PyDict.set (max_deviations s) train_col
         match max_deviation_train train ideal x_values train_col
                 (best_ideal_func_name b) with
         | Some max_deviation_train => max_deviation_train
         | None => nan
         end |}.

(** What an iteration of that loop stores for a training column: the name
    under [best_ideal_functions_selection[train_col]] and the number under
    [training_data_max_deviations[train_col]]. *)
Definition choice_of (train ideal : DataFrame) (x_values : Series)
    (train_col : string) : option string :=
  best_ideal_func_name (best_match train ideal x_values train_col).

Definition bound_of (train ideal : DataFrame) (x_values : Series)
    (train_col : string) : float :=
  match max_deviation_train train ideal x_values train_col
          (choice_of train ideal x_values train_col) with
  | Some max_deviation_train => max_deviation_train
  | None => nan
  end.

Definition select_columns (train ideal : DataFrame) (self : Manager) : Sweep :=
  fold_left (select_column train ideal (df_x train))
            (columns_from_1 train)
            {| best_ideal_functions_selection := [];
               ideal_functions_data_temp := [];
               max_deviations := training_data_max_deviations self |}.

(** [get_ideal_functions]: the manager after the call and how the call
    ended. *)
Definition get_ideal_functions (w : World) (self : Manager) : Manager * outcome :=
  match _load_data empty (train_csv w), _load_data empty (ideal_csv w) with
  | Some train_data, Some ideal_data =>
      let s := select_columns train_data ideal_data self in
      let selection := best_ideal_functions_selection s in
      (* line 166 *)
      let self1 := {| ideal_functions_selection := selection;
                      ideal_functions_data := ideal_functions_data self;
                      training_data_max_deviations := max_deviations s;
                      results_db := results_db self |} in
      (* line 168 *)
      match of_dict (PyDict.of_zip (PyDict.keys selection)
                                   (ideal_functions_data_temp s)) with
      | None => (self1, Raised ValueError)
      | Some frame =>
          ({| ideal_functions_selection := selection;
              ideal_functions_data := frame;
              training_data_max_deviations := max_deviations s;
              results_db := results_db self |}, Returned)
      end
  | _, _ => (self, Returned)      (* lines 121-123 *)
  end.

(** ** map_test_data_to_ideal_functions *)

(** [_store_results]: the manager after a successful write, [None] when
    the exception of [save_data] is raised again. *)
Definition _store_results (w : World) (self : Manager)
    (results_to_save : list StoredRow) : option Manager :=
  match save_data (results_writable w) (results_db self) results_to_save with
  | Some table =>
      Some {| ideal_functions_selection := ideal_functions_selection self;
              ideal_functions_data := ideal_functions_data self;
              training_data_max_deviations := training_data_max_deviations self;
              results_db := table |}
  | None => None
  end.

(** What the [try] of lines 230-242 does with one selected pair:
    an exception is caught ([MappingError]), or the test of line 237
    fails ([Rejected]) or holds ([Accepted], with the deviation). *)
Inductive PairEval : Type :=
| MappingError
| Rejected
| Accepted (deviation_test_point : float).

Definition evaluate_pair (self : Manager) (ideal_data : DataFrame)
    (x_test y_test : float) (train_col_name : string)
    (ideal_func_y_data : Series) : PairEval :=
  match fit reg (df_x ideal_data) ideal_func_y_data with
  | None => MappingError
  | Some m =>
      match predict reg m [x_test] with
      | None | Some [] => MappingError
      | Some (y_predicted :: _) =>
          let deviation_test_point := PrimFloat.abs (y_test - y_predicted) in
          match PyDict.get (training_data_max_deviations self) train_col_name with
          | None => MappingError
          | Some max_train_deviation_for_func =>
              if (deviation_test_point <=? max_train_deviation_for_func * SQRT2)%float
              then Accepted deviation_test_point
              else Rejected
          end
      end
  end.

(** The variables of the loop over the selected pairs (lines 222-225);
    the two names are always assigned together. *)
Record PointBest : Type := {
  min_deviation_test_point : float;
  best_for_test_point : option (string * string)  (* ideal function, training column *)
}.

Definition no_point : PointBest :=
  {| min_deviation_test_point := infinity; best_for_test_point := None |}.

(** The loop of lines 227-246 over the items of the selection.  Line 228
    is outside the [try]: a selected name that is no column of the ideal
    table raises [KeyError] ([None]). *)
Fixpoint map_point (self : Manager) (ideal_data : DataFrame)
    (x_test y_test : float) (items : list (string * option string))
    (b : PointBest) : option PointBest :=
  match items with
  | [] => Some b
  | (train_col_name, ideal_func_name) :: rest =>
      match ideal_func_name, getitem_opt ideal_data ideal_func_name with
      | Some name, Some ideal_func_y_data =>
          let b' :=
            match evaluate_pair self ideal_data x_test y_test
                    train_col_name ideal_func_y_data with
            | Accepted d =>
                if (d <? min_deviation_test_point b)%float
                then {| min_deviation_test_point := d;
                        best_for_test_point := Some (name, train_col_name) |}
                else b
            | _ => b
            end in
          map_point self ideal_data x_test y_test rest b'
      | _, _ => None
      end
  end.


Record MappingRecord : Type := {
  rec_x : float;
  rec_y : float;
  rec_delta_y : float;
  rec_ideal_func : string;
  rec_training_data_column : string
}.

(** Lines 248-255: [if best_ideal_func_name_for_test_point:] holds for a
    name that is neither [None] nor the empty string. *)
Definition emit (x_test y_test : float) (b : PointBest) : list MappingRecord :=
  match best_for_test_point b with
  | Some (name, train_col) =>
      if String.eqb name EmptyString then []
      else [ {| rec_x := x_test; rec_y := y_test;
                rec_delta_y := min_deviation_test_point b;
                rec_ideal_func := name;
                rec_training_data_column := train_col |} ]
  | None => []
  end.

(** The loop over the test rows (lines 217-255): the list
    [mapping_results], or [None] when [KeyError] is raised. *)
Fixpoint classify (self : Manager) (ideal_data : DataFrame)
    (test_data : TestFrame) : option (list MappingRecord) :=
  match test_data with
  | [] => Some []
  | (x_test, y_test) :: rest =>
      match map_point self ideal_data x_test y_test
              (ideal_functions_selection self) no_point with
      | None => None
      | Some b =>
          match classify self ideal_data rest with
          | None => None
          | Some results => Some (emit x_test y_test b ++ results)
          end
      end
  end.

(** [results_df.drop('training_data_column', axis=1)] *)
Definition drop_training_data_column (r : MappingRecord) : StoredRow :=
  {| row_x := rec_x r; row_y := rec_y r;
     row_delta_y := rec_delta_y r; row_ideal_func := rec_ideal_func r |}.

(** Lines 257-262.  A frame built from no record has no column, so
    [drop] raises [KeyError] before [_store_results] is called; the
    [except] of line 261 catches it, as it catches a failing write. *)
Definition persist (w : World) (self : Manager)
    (mapping_results : list MappingRecord) : Manager * list LogRecord :=
  match mapping_results with
  | [] => (self, [(WARNING, "Error saving test data mapping results")])
  | _ :: _ =>
      match _store_results w self
              (map drop_training_data_column mapping_results) with
      | Some self' => (self', [])
      | None => (self, [(ERROR, "Error storing results to database");
                        (WARNING, "Error saving test data mapping results")])
      end
  end.

Record MapRun : Type := {
  manager_after : Manager;
  how : outcome;
  mapped : list MappingRecord;      (* the rows of results_df *)
  log : list LogRecord              (* records logged outside the loop *)
}.

(** [map_test_data_to_ideal_functions] *)
Definition map_test_data_to_ideal_functions (w : World) (self : Manager) : MapRun :=
  match _load_data test_empty (test_csv w), _load_data empty (ideal_csv w) with
  | Some test_data, Some ideal_data =>
      match classify self ideal_data test_data with
      | None =>
          {| manager_after := self; how := Raised KeyError;
             mapped := []; log := [] |}
      | Some mapping_results =>
          let '(self', store_log) := persist w self mapping_results in
          {| manager_after := self'; how := Returned;
             mapped := mapping_results;
             log := store_log
                    ++ [(INFO, "test points mapped to ideal functions.")]
                    ++ match mapping_results with
                       | [] => [(ERROR, "No test points could be mapped to ideal functions.")]
                       | _ :: _ => [(INFO, "First mappings:")]
                       end |}
      end
  | _, _ =>
      {| manager_after := self; how := Returned; mapped := [];
         log := [(ERROR, "Data loading failed in map_test_data_to_ideal_functions")] |}
  end.

End WithRegressor.

(** The managers a process can hold: the one [__init__] builds, and those
    left by a call of one of the two operations, with any regressor and any
    files. *)
Inductive Reachable : Manager -> Prop :=
| reach_init : Reachable init
| reach_select (reg : Regressor) (w : World) (self : Manager) :
    Reachable self -> Reachable (fst (get_ideal_functions reg w self))
| reach_map (reg : Regressor) (w : World) (self : Manager) :
    Reachable self ->
    Reachable (manager_after (map_test_data_to_ideal_functions reg w self)).

(* ================================================================== *)
(** * Visualizer *)

(** [create_combined_plot] draws with Bokeh, an external library.  What
    the function itself decides is which columns of which frame become a
    glyph, under which legend label and in which colour of the palette
    [Category20[20]]; that is what is modelled.  A frame is given by its
    column labels ([df.columns]). *)
Module Visualizer.

Record Glyph : Type := {
  glyph_label : string;      (* f"{df_name} - {y_col}" *)
  glyph_y : string;          (* the column drawn *)
  glyph_color : nat          (* index into default_colors *)
}.

Definition palette_size : nat := 20.       (* len(Category20[20]) *)

(** Lines 87-91: the labels of [df.columns[1:]] that are in [y_cols]. *)
Definition y_cols_for_df (columns y_cols : list string) : list string :=
  filter (fun df_col_name => existsb (String.eqb df_col_name) y_cols)
         (tl columns).

(** Lines 94-99, on the variables [items] and [color_index]. *)
Definition add_glyphs (df_name : string) (cols : list string)
    (st : list Glyph * nat) : list Glyph * nat :=
  fold_left
    (fun st y_col =>
       (fst st ++ [ {| glyph_label := df_name ++ " - " ++ y_col;
                       glyph_y := y_col;
                       glyph_color := snd st mod palette_size |} ],
        S (snd st)))
    cols st.

(** The loop of lines 84-99 from the frame of index [i] on;
    [dataframe_names[i]] raises [IndexError] ([None]) when there is no
    name of that index. *)
Fixpoint plot_frames (dataframe_names y_cols : list string) (i : nat)
    (dataframes : list (list string)) (st : list Glyph * nat) :
    option (list Glyph * nat) :=
  match dataframes with
  | [] => Some st
  | df :: rest =>
      match nth_error dataframe_names i with
      | None => None
      | Some df_name =>
          plot_frames dataframe_names y_cols (S i) rest
            (add_glyphs df_name (y_cols_for_df df y_cols) st)
      end
  end.

(** [create_combined_plot]: the items of the legend, in order. *)
Definition create_combined_plot (dataframes : list (list string))
    (dataframe_names y_cols : list string) : option (list Glyph) :=
  match plot_frames dataframe_names y_cols 0 dataframes ([], 0) with
  | Some st => Some (fst st)
  | None => None
  end.

End Visualizer.

(** [df.columns] *)
Definition columns (df : DataFrame) : list string := "x" :: columns_from_1 df.

(** [get_all_functions_visualized] (lines 87-107): the glyphs of the plot
    of the initial data; [None] when a table fails to load and the
    function returns without plotting.  The three names are those of
    line 99, and [y_cols] is built as in line 101. *)
Definition get_all_functions_visualized (w : World) :
    option (option (list Visualizer.Glyph)) :=
  match _load_data empty (train_csv w),
        _load_data test_empty (test_csv w),
        _load_data empty (ideal_csv w) with
  | Some train_data, Some test_data, Some ideal_data =>
      Some (Visualizer.create_combined_plot
              [columns train_data; ["x"; "y"]; columns ideal_data]
              ["Training Data"; "Test Data"; "Ideal Functions"]
              (columns_from_1 train_data ++ ["y"] ++ columns_from_1 ideal_data))
  | _, _, _ => None
  end.

(* ================================================================== *)
(** * DataManager, table by table *)

(** The database behind a [DataManager] is a dictionary from table names
    to frames.  [to_sql(..., if_exists='replace')] stores a frame under a
    name, [SELECT * FROM name] reads it back; a write that fails leaves
    the database as it was. *)
Module DataManager.

Inductive DatasetType : Type := TRAIN | TEST | IDEAL.

(** Lines 79-84. *)
Definition table_name_of (dataset_type : DatasetType) : string :=
  match dataset_type with
  | TRAIN => "TrainingData"
  | IDEAL => "IdealFunctions"
  | TEST => "TestData"
  end.

Inductive error : Type :=
| FileNotFoundError
| ParserError
| CustomError
| DatabaseError          (* pandas.errors.DatabaseError *)
| PlainException.        (* raise Exception(...): the manager's wrapper *)

Inductive result (A : Type) : Type :=
| Ok (a : A)
| Err (e : error).

Arguments Ok {A} a.
Arguments Err {A} e.

Section WithFrames.

Variable Frame : Type.

(** What [pd.read_csv] finds. *)
Inductive csv : Type :=
| Missing                  (* FileNotFoundError *)
| Malformed                (* pd.errors.ParserError *)
| Parsed (df : Frame).

Definition Database : Type := PyDict.dict Frame.

(** [load_data]: the database after the call and what the call returns
    or raises. *)
Definition load_data (file : DatasetType -> csv) (writable : bool)
    (db : Database) (dataset_type : DatasetType) : Database * result Frame :=
  match file dataset_type with
  | Missing => (db, Err FileNotFoundError)
  | Malformed => (db, Err ParserError)
  | Parsed df =>
      if writable
      then (PyDict.set db (table_name_of dataset_type) df, Ok df)
      else (db, Err CustomError)
  end.

(** [read_data_from_table].  For a table that does not exist
    [pd.read_sql_query] raises [pandas.errors.DatabaseError], in which
    pandas has wrapped the error of the database; the [except] of line 115
    catches [exc.SQLAlchemyError] only, so that exception leaves the
    function as it is, not as a [CustomError]. *)
Definition read_data_from_table (db : Database) (table_name : string) :
    result Frame :=
  match PyDict.get db table_name with
  | Some df => Ok df
  | None => Err DatabaseError
  end.

(** [save_data] *)
Definition save_data (writable : bool) (db : Database)
    (table_name : string) (data : Frame) : Database * result unit :=
  if writable then (PyDict.set db table_name data, Ok tt)
  else (db, Err CustomError).

(** [IdealFunctionsManager._load_data] with the classes of the exceptions
    it raises (lines 47-55): [FileNotFoundError] is raised again as such,
    everything else, the [ValueError] for a frame without rows included,
    as a plain [Exception]. *)
Definition _load_data_raising (is_empty : Frame -> bool)
    (file : DatasetType -> csv) (writable : bool) (db : Database)
    (data_type : DatasetType) : Database * result Frame :=
  match load_data file writable db data_type with
  | (db', Ok data) =>
      if is_empty data then (db', Err PlainException) else (db', Ok data)
  | (db', Err FileNotFoundError) => (db', Err FileNotFoundError)
  | (db', Err _) => (db', Err PlainException)
  end.

End WithFrames.

Arguments Missing {Frame}.
Arguments Malformed {Frame}.
Arguments Parsed {Frame} df.
Arguments load_data {Frame} file writable db dataset_type.
Arguments read_data_from_table {Frame} db table_name.
Arguments save_data {Frame} writable db table_name data.
Arguments _load_data_raising {Frame} is_empty file writable db data_type.

End DataManager.

(* ================================================================== *)
(** * The two endpoints that call the manager *)

(** [rest/ideal_functions_API.py], lines 77-114: an endpoint answers 200
    with a content, or 500 when the call it wraps raises. *)
Module API.

Inductive Response (A : Type) : Type :=
| OK_200 (content : A)
| Error_500.

Arguments OK_200 {A} content.
Arguments Error_500 {A}.

(** [select_ideal_functions]: the content is the selection of the manager
    after the call. *)
Definition select_ideal_functions (reg : Regressor) (w : World)
    (manager : Manager) : Manager * Response (PyDict.dict (option string)) :=
  match get_ideal_functions reg w manager with
  | (manager', Returned) =>
      (manager', OK_200 (ideal_functions_selection manager'))
  | (manager', Raised _) => (manager', Error_500)
  end.

(** [map_test_data]: the content is the number in the summary, the length
    of the table [TestDataMapping] read back from the database; reading a
    table that does not exist raises. *)
Definition map_test_data (reg : Regressor) (w : World)
    (manager : Manager) : Manager * Response nat :=
  let run := map_test_data_to_ideal_functions reg w manager in
  match how run with
  | Raised _ => (manager_after run, Error_500)
  | Returned =>
      match results_db (manager_after run) with
      | Some table => (manager_after run, OK_200 (List.length table))
      | None => (manager_after run, Error_500)
      end
  end.

End API.

(* ================================================================== *)
(** * A regressor to run the model on concrete tables *)

(** Ordinary least squares for one feature in closed form, with the input
    validation of the library (no sample, operands of different lengths
    and values that are not finite are refused).  It stands for the
    library in the examples below; the theorems hold for every
    [Regressor]. *)
Module Reference.

Definition of_nat (n : nat) : float := of_uint63 (Uint63.of_Z (Z.of_nat n)).

Definition total (s : Series) : float := fold_left PrimFloat.add s 0%float.

Definition mean (s : Series) : float := (total s / of_nat (List.length s))%float.

Definition finite (s : Series) : bool := forallb is_finite s.

Definition ols_fit (X y : Series) : option (float * float) :=
  if negb (Nat.eqb (List.length X) 0) && Nat.eqb (List.length X) (List.length y)
     && finite X && finite y
  then
    let mx := mean X in
    let my := mean y in
    let xc := map (fun v => (v - mx)%float) X in
    let yc := map (fun v => (v - my)%float) y in
    let sxx := total (map (fun v => (v * v)%float) xc) in
    let sxy := total (map (fun p => (fst p * snd p)%float) (combine xc yc)) in
    let coef := if (sxx =? 0)%float then 0%float else (sxy / sxx)%float in
    Some (coef, (my - coef * mx)%float)
  else None.

Definition ols_predict (m : float * float) (X : Series) : option Series :=
  if finite X then Some (map (fun v => (v * fst m + snd m)%float) X) else None.

Definition ols : Regressor :=
  {| model := (float * float)%type; fit := ols_fit; predict := ols_predict |}.

End Reference.

(** Concrete tables and calls. *)
Module Examples.

Import Reference.
Local Open Scope float_scope.

Definition train_two : DataFrame :=
  {| df_x := [1; 2; 3];
     df_cols := [("train_y1", [2; 4; 6]); ("train_y2", [1; 1; 1.5])] |}.

Definition train_one : DataFrame :=
  {| df_x := [1; 2; 3]; df_cols := [("train_y1", [2; 4; 6])] |}.

(** [ideal_y2] and [ideal_y3] hold the same values. *)
Definition ideal_pool : DataFrame :=
  {| df_x := [1; 2; 3];
     df_cols := [("ideal_y1", [1; 1; 1]); ("ideal_y2", [2; 4; 6]);
                 ("ideal_y3", [2; 4; 6])] |}.

(** The same columns, [ideal_y3] before [ideal_y2]. *)
Definition ideal_pool_shuffled : DataFrame :=
  {| df_x := [1; 2; 3];
     df_cols := [("ideal_y1", [1; 1; 1]); ("ideal_y3", [2; 4; 6]);
                 ("ideal_y2", [2; 4; 6])] |}.

(** An ideal table with an empty cell in every column: the library refuses
    to fit a column that holds NaN. *)
Definition ideal_missing_cells : DataFrame :=
  {| df_x := [1; 2; 3];
     df_cols := [("ideal_y1", [1; nan; 1]); ("ideal_y2", [nan; 4; 6])] |}.

(** The first value of [train_y2] is 2^700: the squares of its residuals
    overflow, and every sum of squared deviations of that column is
    [+inf]. *)
Definition train_overflow : DataFrame :=
  {| df_x := [1; 2; 3];
     df_cols := [("train_y1", [2; 4; 6]); ("train_y2", [0x1p+700; 1; 1])] |}.

Definition test_points : TestFrame := [(1.5, 3); (2, 9); (2, 1.25)].

Definition world (train ideal : DataFrame) (test : option TestFrame) : World :=
  {| train_csv := Some train; ideal_csv := Some ideal;
     test_csv := test; results_writable := true |}.

(** A manager right after a selection over [train_two] and [ideal_pool]. *)
Definition selected : Manager :=
  fst (get_ideal_functions ols (world train_two ideal_pool (Some test_points)) init).

(** Scenario B of the specification: one selected pair whose maximal
    training deviation is 1, and an ideal column that is 0 everywhere. *)
Definition ideal_flat : DataFrame :=
  {| df_x := [1; 2; 3]; df_cols := [("ideal_y1", [0; 0; 0])] |}.

Definition bounded_by_one : Manager :=
  {| ideal_functions_selection := [("train_y1", Some "ideal_y1")];
     ideal_functions_data := [("train_y1", Some [0; 0; 0])];
     training_data_max_deviations := [("train_y1", 1)];
     results_db := None |}.

End Examples.

(* ================================================================== *)
(** * Facts about binary64 comparisons *)

Section Binary64.

Local Open Scope float_scope.

Local Ltac split_signs :=
  repeat match goal with s : bool |- _ => destruct s end.

Local Ltac by_exponent e1 e2 :=
  destruct (Z.compare_spec e1 e2); try discriminate; subst.

Local Ltac by_mantissa m1 m2 :=
  change (PosDef.Pos.compare_cont Eq m1 m2) with (Pos.compare m1 m2) in *;
  destruct (Pos.compare_spec m1 m2); simpl in *; try discriminate; subst.

Local Ltac settle :=
  simpl; repeat rewrite Z.compare_refl;
  repeat match goal with
    | |- context [ PosDef.Pos.compare_cont Eq ?m ?n ] =>
        change (PosDef.Pos.compare_cont Eq m n) with (Pos.compare m n)
    end;
  repeat rewrite Pos.compare_refl;
  try reflexivity;
  try (rewrite (proj2 (Z.compare_lt_iff _ _)) by lia; reflexivity);
  try (rewrite (proj2 (Z.compare_gt_iff _ _)) by lia; reflexivity);
  try (rewrite (proj2 (Pos.compare_lt_iff _ _)) by lia; reflexivity);
  try (rewrite (proj2 (Pos.compare_gt_iff _ _)) by lia; reflexivity).

Lemma SFcompare_Lt_trans a b c :
  SFcompare a b = Some Lt -> SFcompare b c = Some Lt ->
  SFcompare a c = Some Lt.
Proof.
  destruct a as [sa|sa| |sa ma ea], b as [sb|sb| |sb mb eb],
           c as [sc|sc| |sc mc ec]; simpl;
    try discriminate; try reflexivity; split_signs; simpl;
    try discriminate; try reflexivity; intros H1 H2.
  all: by_exponent ea eb; by_exponent eb ec; settle.
  all: by_mantissa ma mb; by_mantissa mb mc; settle.
Qed.

Lemma SFcompare_Eq_Lt_trans a b c :
  SFcompare a b = Some Eq -> SFcompare b c = Some Lt ->
  SFcompare a c = Some Lt.
Proof.
  destruct a as [sa|sa| |sa ma ea], b as [sb|sb| |sb mb eb],
           c as [sc|sc| |sc mc ec]; simpl;
    try discriminate; try reflexivity; split_signs; simpl;
    try discriminate; try reflexivity; intros H1 H2.
  all: by_exponent ea eb; by_exponent eb ec; settle.
  all: by_mantissa ma mb; by_mantissa mb mc; settle.
Qed.

Lemma SFcompare_Lt_Gt a b :
  SFcompare a b = Some Lt -> SFcompare b a = Some Gt.
Proof.
  destruct a as [sa|sa| |sa ma ea], b as [sb|sb| |sb mb eb]; simpl;
    try discriminate; try reflexivity; split_signs; simpl;
    try discriminate; try reflexivity; intros H1.
  all: by_exponent ea eb; settle.
  all: by_mantissa ma mb; settle.
Qed.

Lemma SFcompare_refl a : a <> S754_nan -> SFcompare a a = Some Eq.
Proof.
  destruct a as [s|s| |s m e]; simpl; try congruence; intros _;
    destruct s; settle.
Qed.

Lemma ltb_trans a b c : (a <? b) = true -> (b <? c) = true -> (a <? c) = true.
Proof.
  rewrite !ltb_spec. unfold SFltb. intros H1 H2.
  destruct (SFcompare (Prim2SF a) (Prim2SF b)) as [[]|] eqn:E1; try discriminate.
  destruct (SFcompare (Prim2SF b) (Prim2SF c)) as [[]|] eqn:E2; try discriminate.
  now rewrite (SFcompare_Lt_trans _ _ _ E1 E2).
Qed.

Lemma leb_ltb_trans a b c : (a <=? b) = true -> (b <? c) = true -> (a <? c) = true.
Proof.
  rewrite leb_spec, !ltb_spec. unfold SFleb, SFltb. intros H1 H2.
  destruct (SFcompare (Prim2SF b) (Prim2SF c)) as [[]|] eqn:E2; try discriminate.
  destruct (SFcompare (Prim2SF a) (Prim2SF b)) as [[]|] eqn:E1; try discriminate.
  - now rewrite (SFcompare_Eq_Lt_trans _ _ _ E1 E2).
  - now rewrite (SFcompare_Lt_trans _ _ _ E1 E2).
Qed.

Lemma ltb_not_leb a b : (a <? b) = true -> (b <=? a) = false.
Proof.
  rewrite leb_spec, ltb_spec. unfold SFleb, SFltb. intros H.
  destruct (SFcompare (Prim2SF a) (Prim2SF b)) as [[]|] eqn:E; try discriminate.
  now rewrite (SFcompare_Lt_Gt _ _ E).
Qed.

Lemma ltb_leb a b : (a <? b) = true -> (a <=? b) = true.
Proof.
  rewrite leb_spec, ltb_spec. unfold SFleb, SFltb.
  now destruct (SFcompare (Prim2SF a) (Prim2SF b)) as [[]|].
Qed.

Lemma ltb_irrefl a : (a <? a) = false.
Proof.
  destruct (a <? a) eqn:E; [|reflexivity].
  pose proof (ltb_not_leb _ _ E) as H. apply ltb_leb in E. congruence.
Qed.

Lemma is_nan_spec a : is_nan a = true <-> Prim2SF a = S754_nan.
Proof.
  unfold is_nan. rewrite FloatAxioms.eqb_spec. unfold SFeqb. split.
  - intros H. destruct (Prim2SF a) eqn:E; try reflexivity;
      rewrite SFcompare_refl in H by discriminate; discriminate.
  - intros ->. reflexivity.
Qed.


Lemma leb_refl d : is_nan d = false -> (d <=? d) = true.
Proof.
  intros H. rewrite leb_spec. unfold SFleb.
  rewrite SFcompare_refl; [reflexivity|].
  intros E. apply is_nan_spec in E. congruence.
Qed.

Lemma leb_is_nan_l d b : (d <=? b) = true -> is_nan d = false.
Proof.
  rewrite leb_spec. unfold SFleb. intros H.
  destruct (is_nan d) eqn:E; [|reflexivity].
  apply is_nan_spec in E. rewrite E in H. discriminate.
Qed.


(** Two numbers are ordered one way or the other. *)
Lemma SFcompare_opp a b :
  SFcompare b a = match SFcompare a b with
                  | Some c => Some (CompOpp c)
                  | None => None
                  end.
Proof.
  destruct a as [sa|sa| |sa ma ea], b as [sb|sb| |sb mb eb]; simpl;
    split_signs; try reflexivity.
  - rewrite (Z.compare_antisym ea eb).
    destruct (Z.compare ea eb); simpl; try reflexivity.
    change (PosDef.Pos.compare_cont Eq mb ma) with (Pos.compare mb ma).
    change (PosDef.Pos.compare_cont Eq ma mb) with (Pos.compare ma mb).
    rewrite (Pos.compare_antisym ma mb). now destruct (Pos.compare ma mb).
  - rewrite (Z.compare_antisym ea eb).
    destruct (Z.compare ea eb); simpl; try reflexivity.
    change (PosDef.Pos.compare_cont Eq mb ma) with (Pos.compare mb ma).
    change (PosDef.Pos.compare_cont Eq ma mb) with (Pos.compare ma mb).
    rewrite (Pos.compare_antisym ma mb). now destruct (Pos.compare ma mb).
Qed.

Lemma SFcompare_number a b :
  is_nan a = false -> is_nan b = false ->
  SFcompare (Prim2SF a) (Prim2SF b) <> None.
Proof.
  intros Ha Hb.
  assert (Ha' : Prim2SF a <> S754_nan)
    by (intros E; apply is_nan_spec in E; congruence).
  assert (Hb' : Prim2SF b <> S754_nan)
    by (intros E; apply is_nan_spec in E; congruence).
  destruct (Prim2SF a) as [sa|sa| |sa ma ea], (Prim2SF b) as [sb|sb| |sb mb eb];
    simpl; split_signs; try discriminate; try congruence.
Qed.

Lemma leb_false_ltb a b :
  is_nan a = false -> is_nan b = false ->
  (a <=? b) = false -> (b <? a) = true.
Proof.
  intros Ha Hb. pose proof (SFcompare_number a b Ha Hb) as Hn.
  rewrite leb_spec, ltb_spec. unfold SFleb, SFltb.
  rewrite (SFcompare_opp (Prim2SF a) (Prim2SF b)).
  now destruct (SFcompare (Prim2SF a) (Prim2SF b)) as [[]|].
Qed.

Lemma ltb_false_leb a b :
  is_nan a = false -> is_nan b = false ->
  (a <? b) = false -> (b <=? a) = true.
Proof.
  intros Ha Hb. pose proof (SFcompare_number a b Ha Hb) as Hn.
  rewrite leb_spec, ltb_spec. unfold SFleb, SFltb.
  rewrite (SFcompare_opp (Prim2SF a) (Prim2SF b)).
  now destruct (SFcompare (Prim2SF a) (Prim2SF b)) as [[]|].
Qed.

Lemma not_ltb_eqb a b :
  is_nan a = false -> is_nan b = false ->
  (a <? b) = false -> (b <? a) = false -> (a =? b) = true.
Proof.
  intros Ha Hb. pose proof (SFcompare_number a b Ha Hb) as Hn.
  rewrite FloatAxioms.eqb_spec, !ltb_spec. unfold SFeqb, SFltb.
  rewrite (SFcompare_opp (Prim2SF a) (Prim2SF b)).
  now destruct (SFcompare (Prim2SF a) (Prim2SF b)) as [[]|].
Qed.

End Binary64.

(* ================================================================== *)
(** * Facts about the sum of an array *)

Section NumpyFacts.

Import Numpy.

Local Open Scope float_scope.

(** Where a long array is cut. *)
Lemma split_point n :
  (PW_BLOCKSIZE < n)%nat ->
  (0 < n / 2 - (n / 2) mod 8 < n)%nat.
Proof.
  unfold PW_BLOCKSIZE. intros H.
  pose proof (Nat.div_mod_eq n 2) as H2.
  pose proof (Nat.mod_upper_bound n 2 ltac:(lia)) as H3.
  pose proof (Nat.mod_upper_bound (n / 2) 8 ltac:(lia)) as H4.
  lia.
Qed.

(** The length of the array is enough fuel. *)
Lemma pairwise_sum_fuel fuel fuel' a :
  (List.length a <= fuel)%nat -> (List.length a <= fuel')%nat ->
  pairwise_sum fuel a = pairwise_sum fuel' a.
Proof.
  revert fuel' a. induction fuel as [|fuel IH]; intros fuel' a H H'.
  - destruct a; [|simpl in H; lia].
    destruct fuel'; reflexivity.
  - destruct fuel' as [|fuel'].
    + destruct a; [|simpl in H'; lia]. reflexivity.
    + cbn [pairwise_sum].
      destruct (List.length a <=? PW_BLOCKSIZE)%nat eqn:E; [reflexivity|].
      apply Nat.leb_gt in E. pose proof (split_point _ E) as Hs.
      f_equal; apply IH;
        rewrite ?length_firstn, ?length_skipn; lia.
Qed.

(** Rounding keeps the sign: the operations of binary64 on operands that
    are not below zero. *)
Lemma shr_1_nonneg mrs : (0 <= shr_m mrs)%Z -> (0 <= shr_m (shr_1 mrs))%Z.
Proof.
  destruct mrs as [m r s]. simpl.
  destruct m as [|[p|p|]|p]; simpl; lia.
Qed.

Lemma iter_pos_inv {A} (P : A -> Prop) (f : A -> A) :
  (forall x, P x -> P (f x)) -> forall n x, P x -> P (SpecFloat.iter_pos f n x).
Proof.
  intros Hf. induction n as [n IH|n IH|]; simpl; intros x Hx; auto.
Qed.

Lemma shr_nonneg mrs e n :
  (0 <= shr_m mrs)%Z -> (0 <= shr_m (fst (shr mrs e n)))%Z.
Proof.
  intros H. unfold shr. destruct n as [|p|p]; simpl; try assumption.
  apply (iter_pos_inv (fun x => (0 <= shr_m x)%Z)); [apply shr_1_nonneg|assumption].
Qed.

Lemma shr_fexp_nonneg prec emax m e l :
  (0 <= m)%Z -> (0 <= shr_m (fst (shr_fexp prec emax m e l)))%Z.
Proof.
  intros H. unfold shr_fexp. apply shr_nonneg.
  destruct l as [|[]]; simpl; assumption.
Qed.

Lemma round_nearest_even_nonneg m l :
  (0 <= m)%Z -> (0 <= round_nearest_even m l)%Z.
Proof.
  intros H. destruct l as [|[]]; simpl; try destruct (Z.even m); lia.
Qed.

Lemma binary_round_aux_sign prec emax mx ex lx :
  (0 <= mx)%Z ->
  SFleb (S754_zero false) (binary_round_aux prec emax false mx ex lx) = true.
Proof.
  intros H. unfold binary_round_aux.
  pose proof (shr_fexp_nonneg prec emax mx ex lx H) as H1.
  destruct (shr_fexp prec emax mx ex lx) as [mrs' e'].
  simpl in H1.
  pose proof (shr_fexp_nonneg prec emax
                (round_nearest_even (shr_m mrs') (loc_of_shr_record mrs'))
                e' loc_Exact
                (round_nearest_even_nonneg _ _ H1)) as H2.
  destruct (shr_fexp prec emax _ e' loc_Exact) as [mrs'' e''].
  simpl in H2.
  destruct (shr_m mrs'') as [|m|m]; [reflexivity| |lia].
  destruct (Z.leb e'' (emax - prec)); reflexivity.
Qed.

Lemma SFadd_nonneg prec emax a b :
  SFleb (S754_zero false) a = true -> SFleb (S754_zero false) b = true ->
  SFleb (S754_zero false) (SFadd prec emax a b) = true.
Proof.
  destruct a as [sa|sa| |sa ma ea], b as [sb|sb| |sb mb eb];
    try destruct sa; try destruct sb; try discriminate; try reflexivity;
    intros _ _.
  unfold SFadd, binary_normalize, binary_round. simpl cond_Zopp.
  destruct (shl_align ma ea (Z.min ea eb)) as [ma' ea'].
  destruct (shl_align mb eb (Z.min ea eb)) as [mb' eb']. simpl.
  destruct (shl_align _ _ _) as [mz ez].
  apply binary_round_aux_sign; lia.
Qed.

Lemma SFmul_square_nonneg prec emax a :
  a <> S754_nan -> SFleb (S754_zero false) (SFmul prec emax a a) = true.
Proof.
  destruct a as [sa|sa| |sa ma ea]; try destruct sa; try congruence;
    try reflexivity; intros _; simpl; apply binary_round_aux_sign; lia.
Qed.

Lemma zero_spec : Prim2SF 0 = S754_zero false.
Proof. reflexivity. Qed.

Lemma add_nonneg a b :
  (0 <=? a) = true -> (0 <=? b) = true -> (0 <=? a + b) = true.
Proof.
  rewrite !leb_spec, add_spec, zero_spec. apply SFadd_nonneg.
Qed.


Lemma square_nonneg v : is_nan (v * v) = true \/ (0 <=? v * v) = true.
Proof.
  destruct (is_nan v) eqn:E.
  - left. apply is_nan_spec in E. apply is_nan_spec.
    rewrite mul_spec, E. reflexivity.
  - right. rewrite leb_spec, mul_spec, zero_spec.
    apply SFmul_square_nonneg. intros H. apply is_nan_spec in H. congruence.
Qed.

Lemma leb_is_nan_r a b : (a <=? b) = true -> is_nan b = false.
Proof.
  intros H. destruct (is_nan b) eqn:E; [|reflexivity].
  apply is_nan_spec in E. rewrite leb_spec, E in H. unfold SFleb in H.
  now destruct (Prim2SF a) as [[]|[]| |[] m e].
Qed.

(** A number that is not below infinity is infinity. *)
Lemma not_below_infinity d :
  is_nan d = false -> (d <? infinity) = false -> d = infinity.
Proof.
  intros Hn Hlt. apply Prim2SF_inj.
  rewrite ltb_spec in Hlt. unfold SFltb in Hlt.
  change (Prim2SF infinity) with (S754_infinity false) in *.
  destruct (Prim2SF d) as [[]|[]| |[] m e] eqn:E; simpl in Hlt;
    try discriminate; try reflexivity.
  apply is_nan_spec in E. congruence.
Qed.

Lemma fold_add_nonneg a acc :
  Forall not_negative a -> not_negative acc ->
  not_negative (fold_left PrimFloat.add a acc).
Proof.
  revert acc. induction a as [|v a IH]; intros acc Ha Hacc; [exact Hacc|].
  inversion Ha as [|? ? Hv Ha']; subst. cbn [fold_left].
  apply IH; [assumption|]. now apply add_nonneg.
Qed.

Lemma Forall_firstn {A} (P : A -> Prop) n l : Forall P l -> Forall P (firstn n l).
Proof.
  intros H. apply Forall_forall. intros x Hx.
  rewrite Forall_forall in H. apply H. rewrite <- (firstn_skipn n l).
  apply in_or_app. now left.
Qed.

Lemma Forall_skipn {A} (P : A -> Prop) n l : Forall P l -> Forall P (skipn n l).
Proof.
  intros H. apply Forall_forall. intros x Hx.
  rewrite Forall_forall in H. apply H. rewrite <- (firstn_skipn n l).
  apply in_or_app. now right.
Qed.

Lemma add_groups_nonneg k r a :
  Forall not_negative r -> Forall not_negative a ->
  Forall not_negative (fst (add_groups k r a)) /\
  Forall not_negative (snd (add_groups k r a)).
Proof.
  revert r a. induction k as [|k IH]; intros r a Hr Ha; [now split|].
  cbn [add_groups]. apply IH; [|now apply Forall_skipn].
  apply Forall_forall. intros v Hv. apply in_map_iff in Hv.
  destruct Hv as ([u1 u2] & <- & Hin). cbn [fst snd].
  rewrite Forall_forall in Hr.
  pose proof (Forall_firstn not_negative 8 a Ha) as Hg.
  rewrite Forall_forall in Hg.
  apply add_nonneg; [apply Hr|apply Hg].
  - eapply in_combine_l; eassumption.
  - eapply in_combine_r; eassumption.
Qed.

Lemma nth_nonneg j r : Forall not_negative r -> not_negative (nth j r 0).
Proof.
  intros Hr. destruct (nth_in_or_default j r 0) as [H| ->].
  - rewrite Forall_forall in Hr. now apply Hr.
  - reflexivity.
Qed.

Lemma block_sum_nonneg a : Forall not_negative a -> not_negative (block_sum a).
Proof.
  intros Ha. unfold block_sum.
  destruct (add_groups_nonneg (List.length a / 8 - 1) (firstn 8 a) (skipn 8 a)
              (Forall_firstn _ 8 a Ha) (Forall_skipn _ 8 a Ha)) as [Hr Hrest].
  destruct (add_groups _ _ _) as [r rest]. cbn [fst snd] in Hr, Hrest.
  apply fold_add_nonneg; [assumption|].
  repeat apply add_nonneg; now apply nth_nonneg.
Qed.

Lemma short_sum_nonneg a : Forall not_negative a -> not_negative (short_sum a).
Proof.
  intros Ha. unfold short_sum. destruct (_ <? _)%nat.
  - apply fold_add_nonneg; [assumption|reflexivity].
  - now apply block_sum_nonneg.
Qed.

Lemma pairwise_sum_nonneg fuel a :
  Forall not_negative a -> not_negative (pairwise_sum fuel a).
Proof.
  revert a. induction fuel as [|fuel IH]; intros a Ha; cbn [pairwise_sum].
  - now apply short_sum_nonneg.
  - destruct (_ <=? _)%nat; [now apply short_sum_nonneg|].
    apply add_nonneg; apply IH; [now apply Forall_firstn|now apply Forall_skipn].
Qed.

(** The sum of an array whose entries are NaN or not below zero is a number
    and is not below zero. *)
Lemma sum_nonneg (s : Series) :
  (forall v, In v s -> is_nan v = true \/ (0 <=? v) = true) ->
  (0 <=? Pandas.sum s) = true.
Proof.
  intros Hs. unfold Pandas.sum, Numpy.sum.
  apply add_nonneg; [reflexivity|]. apply pairwise_sum_nonneg.
  apply Forall_forall. intros v Hv. apply in_map_iff in Hv.
  destruct Hv as (u & <- & Hu).
  destruct (is_nan u) eqn:E; [reflexivity|].
  destruct (Hs u Hu) as [H|H]; [congruence|exact H].
Qed.

Lemma sum_of_squares_nonneg (diff : Series) :
  (0 <=? Pandas.sum (Pandas.pow2 diff)) = true.
Proof.
  apply sum_nonneg. intros v Hv. unfold Pandas.pow2 in Hv.
  apply in_map_iff in Hv. destruct Hv as (u & <- & _).
  apply square_nonneg.
Qed.

(** An array of fewer than 8 entries is added from left to right. *)
Lemma sum_short (s : Series) :
  (List.length s < 8)%nat ->
  Pandas.sum s
  = 0 + fold_left PrimFloat.add
          (map (fun v => if is_nan v then 0 else v) s) 0.
Proof.
  intros H. unfold Pandas.sum, Numpy.sum. f_equal.
  assert (Hshort : forall fuel a, (List.length a < 8)%nat ->
            pairwise_sum fuel a = fold_left PrimFloat.add a 0).
  { intros fuel a Ha.
    assert (E1 : (List.length a <? 8)%nat = true) by (apply Nat.ltb_lt; lia).
    assert (E2 : (List.length a <=? PW_BLOCKSIZE)%nat = true)
      by (apply Nat.leb_le; unfold PW_BLOCKSIZE; lia).
    destruct fuel; cbn [pairwise_sum]; rewrite ?E2; unfold short_sum;
      now rewrite E1. }
  apply Hshort. now rewrite length_map.
Qed.

End NumpyFacts.


(** Eight entries are not added from left to right: the seven ones are
    lost one by one in that order, and kept by the running sums. *)
Example sum_of_eight_entries :
  Pandas.sum [1e16; 1; 1; 1; 1; 1; 1; 1]%float = 10000000000000006%float.
Proof. vm_compute. reflexivity. Qed.

Example sum_of_two_hundred_entries :
  Pandas.sum (repeat 1%float 200) = 200%float.
Proof. vm_compute. reflexivity. Qed.

(** An entry that is NaN counts for zero. *)
Example sum_skips_nan : Pandas.sum [nan; 1; 2]%float = 3%float.
Proof. vm_compute. reflexivity. Qed.

(** Eight squares whose sum overflows in the order of numpy, and would not
    if they were added from left to right. *)
Example sum_of_squares_overflows :
  let diff := [0x1.fffffffffffffp+511; 0x1p+485; 0x1p+485; 0x1p+485;
               0x1p+485; 0x1p+485; 0x1p+485; 0x1p+485]%float in
  Pandas.sum (Pandas.pow2 diff) = infinity /\
  (fold_left PrimFloat.add (Pandas.pow2 diff) 0 <? infinity)%float = true.
Proof. vm_compute. auto. Qed.

(* ================================================================== *)
(** * Facts about dictionaries *)

Module PyDictFacts.

Import PyDict.

Lemma get_set_same {V} (d : dict V) k v : get (set d k v) k = Some v.
Proof.
  induction d as [|[k' v'] d IH]; simpl.
  - now rewrite String.eqb_refl.
  - destruct (String.eqb k' k) eqn:E; simpl; rewrite E; auto.
Qed.

Lemma get_set_other {V} (d : dict V) k v k' :
  k <> k' -> get (set d k v) k' = get d k'.
Proof.
  intros Hne. induction d as [|[k0 v0] d IH]; simpl.
  - destruct (String.eqb_spec k k'); congruence.
  - destruct (String.eqb_spec k0 k); simpl.
    + subst. destruct (String.eqb_spec k k'); congruence.
    + now rewrite IH.
Qed.

Lemma in_keys_set {V} (d : dict V) k v k' :
  In k' (keys (set d k v)) <-> k' = k \/ In k' (keys d).
Proof.
  unfold keys. induction d as [|[k0 v0] d IH]; simpl.
  - intuition.
  - destruct (String.eqb_spec k0 k); simpl.
    + subst. intuition.
    + rewrite IH. intuition.
Qed.

Lemma NoDup_keys_set {V} (d : dict V) k v :
  NoDup (keys d) -> NoDup (keys (set d k v)).
Proof.
  unfold keys. induction d as [|[k0 v0] d IH]; simpl; intros H.
  - constructor; [intros []|constructor].
  - inversion H as [|? ? Hnotin Hnd]; subst.
    destruct (String.eqb_spec k0 k); simpl.
    + now constructor.
    + constructor; [|now apply IH].
      intros Hin. apply (in_keys_set d k v k0) in Hin.
      destruct Hin; [congruence|contradiction].
Qed.

Lemma get_None {V} (d : dict V) k : get d k = None <-> ~ In k (keys d).
Proof.
  unfold keys. induction d as [|[k0 v0] d IH]; simpl.
  - intuition.
  - destruct (String.eqb_spec k0 k).
    + split; [discriminate|]. intros H. exfalso. apply H. now left.
    + rewrite IH. intuition.
Qed.

Lemma get_store_all_out {V} (f : string -> V) cols d t :
  ~ In t cols -> get (store_all f cols d) t = get d t.
Proof.
  unfold store_all. revert d.
  induction cols as [|c cols IH]; simpl; intros d Hin; [reflexivity|].
  rewrite IH by tauto. apply get_set_other. intros ->. apply Hin. now left.
Qed.

Lemma get_store_all_in {V} (f : string -> V) cols d t :
  In t cols -> get (store_all f cols d) t = Some (f t).
Proof.
  revert d.
  induction cols as [|c cols IH]; simpl; intros d Hin; [contradiction|].
  destruct (in_dec string_dec t cols) as [Hl|Hl]; [now apply IH|].
  destruct Hin as [->|Hin]; [|contradiction].
  change (get (store_all f cols (set d t (f t))) t = Some (f t)).
  rewrite get_store_all_out by assumption. apply get_set_same.
Qed.

Lemma in_keys_store_all {V} (f : string -> V) cols d t :
  In t (keys (store_all f cols d)) <-> In t cols \/ In t (keys d).
Proof.
  unfold store_all. revert d.
  induction cols as [|c cols IH]; simpl; intros d; [tauto|].
  rewrite IH, in_keys_set. intuition.
Qed.

Lemma NoDup_keys_store_all {V} (f : string -> V) cols d :
  NoDup (keys d) -> NoDup (keys (store_all f cols d)).
Proof.
  unfold store_all. revert d.
  induction cols as [|c cols IH]; simpl; intros d H; [assumption|].
  apply IH. now apply NoDup_keys_set.
Qed.

Lemma store_all_ext {V} (f g : string -> V) cols d :
  (forall c, In c cols -> f c = g c) ->
  store_all f cols d = store_all g cols d.
Proof.
  unfold store_all. revert d.
  induction cols as [|c cols IH]; intros d H; simpl; [reflexivity|].
  rewrite (H c) by now left. apply IH. intros c' Hc'. apply H. now right.
Qed.

Lemma set_not_empty {V} (d : dict V) k v : set d k v <> [].
Proof.
  destruct d as [|[k' v'] d]; simpl; [discriminate|].
  destruct (String.eqb k' k); discriminate.
Qed.

End PyDictFacts.

(* ================================================================== *)
(** * The selection loop *)

Section SelectionFacts.

Variable reg : Regressor.
Variables train ideal : DataFrame.
Variable x_values : Series.

Local Open Scope float_scope.

Local Ltac conj_all := repeat match goal with |- _ /\ _ => split end.

(** The loop over the ideal columns either leaves its variables as they
    were, and then no column is below the minimum it started with, or
    ends on the first column whose sum is minimal. *)
Lemma consider_fold_cases t cols b :
  let dev := deviation reg train ideal x_values t in
  let r := fold_left (consider reg train ideal x_values t) cols b in
  (r = b /\
   forall j d, In j cols -> dev j = Some d ->
               (d <? min_sum_squared_deviation b) = false)
  \/
  (exists pre i post d,
     cols = pre ++ i :: post /\ dev i = Some d /\
     (d <? min_sum_squared_deviation b) = true /\
     r = {| min_sum_squared_deviation := d;
            best_ideal_func_name := Some i;
            best_ideal_func_data := getitem ideal i |} /\
     (forall j d', In j pre -> dev j = Some d' -> (d' <=? d) = false) /\
     (forall j d', In j post -> dev j = Some d' -> (d' <? d) = false)).
Proof.
  intros dev. revert b.
  induction cols as [|c cols IH]; intros b; simpl.
  - left. split; [reflexivity|]. intros j d Hin. contradiction.
  - assert (Hstep : consider reg train ideal x_values t b c
                    = match dev c with
                      | None => b
                      | Some dc =>
                          if dc <? min_sum_squared_deviation b
                          then {| min_sum_squared_deviation := dc;
                                  best_ideal_func_name := Some c;
                                  best_ideal_func_data := getitem ideal c |}
                          else b
                      end) by reflexivity.
    rewrite Hstep. clear Hstep.
    destruct (dev c) as [dc|] eqn:Ec.
    + destruct (dc <? min_sum_squared_deviation b) eqn:Elt.
      * (* the column becomes the best one *)
        right.
        destruct (IH {| min_sum_squared_deviation := dc;
                        best_ideal_func_name := Some c;
                        best_ideal_func_data := getitem ideal c |})
          as [[Hr Hall]|(pre & i & post & d & Hc & Hd & Hlt & Hr & Hpre & Hpost)];
          simpl in *.
        -- exists [], c, cols, dc. conj_all; auto.
           intros j d' Hin. contradiction.
        -- exists (c :: pre), i, post, d.
           split; [simpl; now f_equal|]. conj_all; auto.
           ++ eapply ltb_trans; eassumption.
           ++ intros j d' [<-|Hin] Hj.
              ** rewrite Ec in Hj. injection Hj as <-. now apply ltb_not_leb.
              ** eapply Hpre; eassumption.
      * (* the column is not below the minimum *)
        destruct (IH b)
          as [[Hr Hall]|(pre & i & post & d & Hc & Hd & Hlt & Hr & Hpre & Hpost)].
        -- left. split; [assumption|].
           intros j d [<-|Hin] Hj; [|eapply Hall; eassumption].
           rewrite Ec in Hj. now injection Hj as <-.
        -- right. exists (c :: pre), i, post, d.
           split; [simpl; now f_equal|]. conj_all; auto.
           intros j d' [<-|Hin] Hj; [|eapply Hpre; eassumption].
           rewrite Ec in Hj. injection Hj as <-.
           destruct (dc <=? d) eqn:Ele; [|reflexivity].
           rewrite (leb_ltb_trans _ _ _ Ele Hlt) in Elt. discriminate.
    + (* the pair is skipped *)
      destruct (IH b)
        as [[Hr Hall]|(pre & i & post & d & Hc & Hd & Hlt & Hr & Hpre & Hpost)].
      * left. split; [assumption|].
        intros j d [<-|Hin] Hj; [congruence|eapply Hall; eassumption].
      * right. exists (c :: pre), i, post, d.
           split; [simpl; now f_equal|]. conj_all; auto.
        intros j d' [<-|Hin] Hj; [congruence|eapply Hpre; eassumption].
Qed.

(** The choice made for a training column. *)
Lemma best_match_spec t :
  let dev := deviation reg train ideal x_values t in
  match best_ideal_func_name (best_match reg train ideal x_values t) with
  | None =>
      forall j d, In j (columns_from_1 ideal) -> dev j = Some d ->
                  (d <? infinity) = false
  | Some i =>
      exists pre post d,
        columns_from_1 ideal = pre ++ i :: post /\
        dev i = Some d /\ (d <? infinity) = true /\
        best_match reg train ideal x_values t
          = {| min_sum_squared_deviation := d;
               best_ideal_func_name := Some i;
               best_ideal_func_data := getitem ideal i |} /\
        (forall j d', In j pre -> dev j = Some d' -> (d' <=? d) = false) /\
        (forall j d', In j post -> dev j = Some d' -> (d' <? d) = false)
  end.
Proof.
  intros dev. unfold best_match.
  destruct (consider_fold_cases t (columns_from_1 ideal) no_best)
    as [[Hr Hall]|(pre & i & post & d & Hc & Hd & Hlt & Hr & Hpre & Hpost)].
  - rewrite Hr. simpl. exact Hall.
  - rewrite Hr. simpl. exists pre, post, d. rewrite <- Hr. auto 10.
Qed.

Lemma select_columns_selection cols s :
  best_ideal_functions_selection
    (fold_left (select_column reg train ideal x_values) cols s)
  = PyDict.store_all (choice_of reg train ideal x_values) cols
      (best_ideal_functions_selection s).
Proof.
  revert s. induction cols as [|c cols IH]; intros s; simpl; [reflexivity|].
  now rewrite IH.
Qed.

Lemma select_columns_max_deviations cols s :
  max_deviations (fold_left (select_column reg train ideal x_values) cols s)
  = PyDict.store_all (bound_of reg train ideal x_values) cols (max_deviations s).
Proof.
  revert s. induction cols as [|c cols IH]; intros s; simpl; [reflexivity|].
  now rewrite IH.
Qed.

End SelectionFacts.

(* ================================================================== *)
(** * get_ideal_functions: the state after a call *)

Section SelectionOperation.

Variable reg : Regressor.

Local Open Scope float_scope.

(** After a call that loaded both tables, whether it returned or raised at
    line 168: the selection is built from an empty dictionary, the maximal
    deviations are stored into the dictionary the manager already had. *)
Lemma get_ideal_functions_state w self train ideal :
  _load_data empty (train_csv w) = Some train ->
  _load_data empty (ideal_csv w) = Some ideal ->
  let self' := fst (get_ideal_functions reg w self) in
  ideal_functions_selection self'
    = PyDict.store_all (choice_of reg train ideal (df_x train))
        (columns_from_1 train) []
  /\ training_data_max_deviations self'
     = PyDict.store_all (bound_of reg train ideal (df_x train))
         (columns_from_1 train) (training_data_max_deviations self)
  /\ results_db self' = results_db self.
Proof.
  intros Ht Hi. unfold get_ideal_functions. rewrite Ht, Hi.
  unfold select_columns.
  destruct (of_dict _); simpl;
    rewrite select_columns_selection, select_columns_max_deviations;
    auto.
Qed.

(** A call that fails to load a table changes nothing. *)
Lemma get_ideal_functions_not_loaded w self :
  _load_data empty (train_csv w) = None \/ _load_data empty (ideal_csv w) = None ->
  get_ideal_functions reg w self = (self, Returned).
Proof.
  unfold get_ideal_functions.
  intros [H|H]; rewrite H; [reflexivity|].
  now destruct (_load_data empty (train_csv w)).
Qed.

(** When no fit succeeds for a training column, no ideal column is chosen
    and the body of the second [try] fails. *)
Lemma choice_of_no_fit train ideal x_values t :
  (forall i, In i (columns_from_1 ideal) ->
             deviation reg train ideal x_values t i = None) ->
  choice_of reg train ideal x_values t = None.
Proof.
  intros Hnone. unfold choice_of.
  pose proof (best_match_spec reg train ideal x_values t) as H.
  destruct (best_ideal_func_name (best_match reg train ideal x_values t))
    as [i|]; [|reflexivity].
  destruct H as (pre & post & d & Hc & Hd & _).
  rewrite Hnone in Hd; [discriminate|].
  rewrite Hc. apply in_or_app. right. now left.
Qed.

Lemma bound_of_no_choice train ideal x_values t :
  choice_of reg train ideal x_values t = None ->
  bound_of reg train ideal x_values t = nan.
Proof. unfold bound_of. now intros ->. Qed.

End SelectionOperation.

(* ================================================================== *)
(** * More on the second [try] and on line 168 *)

Section Refit.

Variable reg : Regressor.


(** The sum of squared deviations, spelled out. *)
Lemma deviation_spelled_out train ideal x_values t i d :
  deviation reg train ideal x_values t i = Some d
  <->
  exists train_y ideal_y m predicted diff,
    getitem train t = Some train_y /\
    getitem ideal i = Some ideal_y /\
    fit reg x_values ideal_y = Some m /\
    predict reg m x_values = Some predicted /\
    sub train_y predicted = Some diff /\
    d = sum (pow2 diff).
Proof.
  unfold deviation, _calculate_squared_deviation. split.
  - destruct (getitem train t) as [train_y|] eqn:E1; [|discriminate].
    destruct (getitem ideal i) as [ideal_y|] eqn:E2; [|discriminate].
    destruct (fit reg x_values ideal_y) as [m|] eqn:E3; [|discriminate].
    destruct (predict reg m x_values) as [p|] eqn:E4; [|discriminate].
    destruct (sub train_y p) as [diff|] eqn:E5; [|discriminate].
    intros [= <-]. exists train_y, ideal_y, m, p, diff. auto 10.
  - intros (train_y & ideal_y & m & p & diff & -> & -> & -> & -> & -> & ->).
    reflexivity.
Qed.

(** A sum of squared deviations is a number. *)
Lemma deviation_is_number train ideal x_values t i d :
  deviation reg train ideal x_values t i = Some d -> is_nan d = false.
Proof.
  intros H. apply deviation_spelled_out in H.
  destruct H as (ty & yi & m & p & diff & _ & _ & _ & _ & _ & ->).
  exact (leb_is_nan_r _ _ (sum_of_squares_nonneg diff)).
Qed.


Lemma no_choice_no_data train ideal x_values t :
  choice_of reg train ideal x_values t = None ->
  best_ideal_func_data (best_match reg train ideal x_values t) = None.
Proof.
  unfold choice_of, best_match. intros H.
  destruct (consider_fold_cases reg train ideal x_values t
              (columns_from_1 ideal) no_best)
    as [[Hr _]|(pre & i & post & d & _ & _ & _ & Hr & _)];
    rewrite Hr in *; [reflexivity|discriminate].
Qed.

Lemma select_columns_temp train ideal x_values cols s :
  ideal_functions_data_temp
    (fold_left (select_column reg train ideal x_values) cols s)
  = ideal_functions_data_temp s
    ++ map (fun t => best_ideal_func_data (best_match reg train ideal x_values t))
           cols.
Proof.
  revert s. induction cols as [|c cols IH]; intros s; simpl.
  - now rewrite app_nil_r.
  - rewrite IH. simpl. now rewrite <- app_assoc.
Qed.

Lemma of_zip_without_series ks (vs : list (option Series)) :
  ks <> [] -> vs <> [] ->
  Forall (fun v => v = None) vs ->
  of_dict (PyDict.of_zip ks vs) = None.
Proof.
  intros Hks Hvs Hall. unfold PyDict.of_zip.
  assert (Hgen : forall l d,
            Forall (fun kv : string * option Series => snd kv = None) l ->
            forallb (fun kv => match snd kv with None => true | Some _ => false end) d
              = true ->
            (l <> [] \/ d <> []) ->
            of_dict (fold_left (fun d kv => PyDict.set d (fst kv) (snd kv)) l d)
              = None).
  { induction l as [|[k v] l IH]; intros d Hl Hd Hne; simpl.
    - destruct Hne as [Hne|Hne]; [contradiction|].
      destruct d; [contradiction|]. unfold of_dict. now rewrite Hd.
    - inversion Hl as [|? ? Hv Hl']; subst. simpl in Hv. subst v.
      apply IH; [assumption| |right; apply PyDictFacts.set_not_empty].
      clear - Hd. induction d as [|[k' v'] d IHd]; simpl in *; [reflexivity|].
      apply andb_true_iff in Hd. destruct Hd as [H1 H2].
      destruct (String.eqb k' k); simpl; [now rewrite H2|].
      rewrite H1. now apply IHd. }
  apply Hgen; [|reflexivity|].
  - clear Hks Hvs. revert ks. induction Hall as [|v vs Hv Hall IH]; intros ks.
    + destruct ks; constructor.
    + destruct ks as [|k ks]; simpl; constructor; [assumption|apply IH].
  - left. destruct ks, vs; simpl; congruence.
Qed.

(** When no ideal column is chosen for any training column, and there is a
    training column, the call raises at line 168. *)
Lemma get_ideal_functions_raises_without_choice w self train ideal :
  _load_data empty (train_csv w) = Some train ->
  _load_data empty (ideal_csv w) = Some ideal ->
  columns_from_1 train <> [] ->
  (forall t, In t (columns_from_1 train) ->
             choice_of reg train ideal (df_x train) t = None) ->
  snd (get_ideal_functions reg w self) = Raised ValueError.
Proof.
  intros Ht Hi Hne Hnone. unfold get_ideal_functions. rewrite Ht, Hi.
  rewrite of_zip_without_series; [reflexivity| | |].
  - unfold select_columns. rewrite select_columns_selection.
    cbn [best_ideal_functions_selection].
    destruct (columns_from_1 train) as [|c cols] eqn:Ec; [contradiction|].
    intros Hk.
    assert (Hin : In c (PyDict.keys
                          (PyDict.store_all (choice_of reg train ideal (df_x train))
                             (c :: cols) [])))
      by (apply PyDictFacts.in_keys_store_all; left; now left).
    rewrite Hk in Hin. contradiction.
  - unfold select_columns. rewrite select_columns_temp. simpl.
    destruct (columns_from_1 train); [contradiction|discriminate].
  - unfold select_columns. rewrite select_columns_temp. simpl.
    apply Forall_forall. intros v Hv. apply in_map_iff in Hv.
    destruct Hv as (t & <- & Hin). apply no_choice_no_data. now apply Hnone.
Qed.

(** What holds of the loop whenever the second [try] fails for a training
    column: its maximal deviation is NaN after the call, and every training
    column has been given its entries. *)
Lemma failed_refit_gives_nan w self train ideal t :
  _load_data empty (train_csv w) = Some train ->
  _load_data empty (ideal_csv w) = Some ideal ->
  In t (columns_from_1 train) ->
  max_deviation_train reg train ideal (df_x train) t
    (choice_of reg train ideal (df_x train) t) = None ->
  PyDict.get (training_data_max_deviations (fst (get_ideal_functions reg w self))) t
    = Some nan.
Proof.
  intros Ht Hi Hin Hfail.
  destruct (get_ideal_functions_state reg w self train ideal Ht Hi)
    as (_ & Hdev & _).
  rewrite Hdev, PyDictFacts.get_store_all_in by assumption.
  unfold bound_of. now rewrite Hfail.
Qed.

(** The maximal deviations are never cleared: a key of the dictionary
    before a call is a key after it, and keeps its value unless the call
    has a training column of that name. *)
Lemma max_deviations_are_merged w self k b :
  PyDict.get (training_data_max_deviations self) k = Some b ->
  exists b',
    PyDict.get (training_data_max_deviations (fst (get_ideal_functions reg w self))) k
      = Some b' /\
    (forall train, _load_data empty (train_csv w) = Some train ->
                   ~ In k (columns_from_1 train) -> b' = b).
Proof.
  intros Hk.
  destruct (_load_data empty (train_csv w)) as [train|] eqn:Ht;
    [destruct (_load_data empty (ideal_csv w)) as [ideal|] eqn:Hi|].
  - destruct (get_ideal_functions_state reg w self train ideal Ht Hi)
      as (_ & Hdev & _).
    rewrite Hdev.
    destruct (in_dec string_dec k (columns_from_1 train)) as [Hin|Hout].
    + rewrite PyDictFacts.get_store_all_in by assumption.
      eexists. split; [reflexivity|].
      intros train' [= <-] Hn. contradiction.
    + rewrite PyDictFacts.get_store_all_out by assumption.
      exists b. auto.
  - rewrite get_ideal_functions_not_loaded by auto.
    exists b. auto.
  - rewrite get_ideal_functions_not_loaded by auto.
    exists b. auto.
Qed.

End Refit.

(* ================================================================== *)
(** * Shuffling the columns of the ideal table *)

Section Shuffle.

Variable reg : Regressor.

Local Open Scope float_scope.

Lemma get_Permutation {V} (l l' : PyDict.dict V) k :
  NoDup (PyDict.keys l) -> Permutation l l' -> PyDict.get l k = PyDict.get l' k.
Proof.
  unfold PyDict.keys. intros Hnd Hp. induction Hp as [|[k0 v0] l l' Hp IH
    |[k1 v1] [k2 v2] l|l l' l'' Hp1 IH1 Hp2 IH2]; simpl in *.
  - reflexivity.
  - inversion Hnd; subst. destruct (String.eqb k0 k); auto.
  - inversion Hnd as [|? ? Hn1 Hnd']; subst.
    destruct (String.eqb_spec k1 k), (String.eqb_spec k2 k); subst; auto.
    exfalso. apply Hn1. now left.
  - rewrite IH1 by assumption. apply IH2.
    eapply Permutation_NoDup; [|exact Hnd]. now apply Permutation_map.
Qed.

Lemma getitem_Permutation ideal ideal' label :
  df_x ideal' = df_x ideal ->
  NoDup (columns_from_1 ideal) ->
  Permutation (df_cols ideal) (df_cols ideal') ->
  getitem ideal' label = getitem ideal label.
Proof.
  intros Hx Hnd Hp. unfold getitem. rewrite Hx.
  destruct (String.eqb label "x"); [reflexivity|].
  symmetry. now apply get_Permutation.
Qed.

Lemma fold_consider_ext train ideal ideal' x_values t cols b :
  (forall label, getitem ideal' label = getitem ideal label) ->
  fold_left (consider reg train ideal' x_values t) cols b
  = fold_left (consider reg train ideal x_values t) cols b.
Proof.
  intros Hg. revert b. induction cols as [|c cols IH]; intros b; simpl;
    [reflexivity|].
  rewrite IH. f_equal. unfold consider, deviation. now rewrite !Hg.
Qed.

(** Two runs of the loop over the same columns in two orders end on sums
    of which none is below the other; they end on the same column when the
    column chosen in the first order is strictly below every other one. *)
Lemma best_match_Permutation train ideal x_values t cols cols' :
  Permutation cols cols' ->
  let dev := deviation reg train ideal x_values t in
  let r := fold_left (consider reg train ideal x_values t) cols no_best in
  let r' := fold_left (consider reg train ideal x_values t) cols' no_best in
  match best_ideal_func_name r, best_ideal_func_name r' with
  | None, None => True
  | Some i, Some i' =>
      (min_sum_squared_deviation r <? min_sum_squared_deviation r') = false /\
      (min_sum_squared_deviation r' <? min_sum_squared_deviation r) = false /\
      dev i = Some (min_sum_squared_deviation r) /\
      dev i' = Some (min_sum_squared_deviation r') /\
      ((forall j d', In j cols -> j <> i -> dev j = Some d' ->
                     (min_sum_squared_deviation r <? d') = true) ->
       r' = r)
  | _, _ => False
  end.
Proof.
  intros Hp dev r r'.
  assert (Hmin : forall cs i d pre post j dj,
            cs = pre ++ i :: post -> dev i = Some d ->
            (forall j d', In j pre -> dev j = Some d' -> (d' <=? d) = false) ->
            (forall j d', In j post -> dev j = Some d' -> (d' <? d) = false) ->
            In j cs -> dev j = Some dj -> (dj <? d) = false).
  { intros cs i d pre post j dj -> Hd Hpre Hpost Hin Hj.
    apply in_app_or in Hin. destruct Hin as [Hin|[<-|Hin]].
    - destruct (dj <? d) eqn:E; [|reflexivity].
      apply ltb_leb in E. rewrite (Hpre _ _ Hin Hj) in E. discriminate.
    - rewrite Hd in Hj. injection Hj as <-. apply ltb_irrefl.
    - eapply Hpost; eassumption. }
  destruct (consider_fold_cases reg train ideal x_values t cols no_best)
    as [[Hr Hall]|(pre & i & post & d & Hc & Hd & Hlt & Hr & Hpre & Hpost)];
  destruct (consider_fold_cases reg train ideal x_values t cols' no_best)
    as [[Hr' Hall']|(pre' & i' & post' & d' & Hc' & Hd' & Hlt' & Hr' & Hpre' & Hpost')];
  fold r in Hr; fold r' in Hr'; rewrite Hr, Hr'; simpl in *.
  - exact I.
  - assert (Hin : In i' cols).
    { eapply Permutation_in; [apply Permutation_sym; exact Hp|].
      rewrite Hc'. apply in_or_app. right. now left. }
    rewrite (Hall _ _ Hin Hd') in Hlt'. discriminate.
  - assert (Hin : In i cols').
    { eapply Permutation_in; [exact Hp|].
      rewrite Hc. apply in_or_app. right. now left. }
    rewrite (Hall' _ _ Hin Hd) in Hlt. discriminate.
  - assert (Hin : In i cols').
    { eapply Permutation_in; [exact Hp|].
      rewrite Hc. apply in_or_app. right. now left. }
    assert (Hin' : In i' cols).
    { eapply Permutation_in; [apply Permutation_sym; exact Hp|].
      rewrite Hc'. apply in_or_app. right. now left. }
    pose proof (Hmin cols' i' d' pre' post' i d Hc' Hd' Hpre' Hpost' Hin Hd) as H1.
    pose proof (Hmin cols i d pre post i' d' Hc Hd Hpre Hpost Hin' Hd') as H2.
    repeat apply conj; auto.
    intros Huniq.
    destruct (string_dec i' i) as [->|Hne].
    + rewrite Hd in Hd'. now injection Hd' as <-.
    + rewrite (Huniq i' d' Hin' Hne Hd') in H1. discriminate.
Qed.

Lemma best_match_shuffled train ideal ideal' x_values t :
  df_x ideal' = df_x ideal ->
  NoDup (columns_from_1 ideal) ->
  Permutation (df_cols ideal) (df_cols ideal') ->
  best_match reg train ideal' x_values t
  = fold_left (consider reg train ideal x_values t) (columns_from_1 ideal') no_best.
Proof.
  intros Hx Hnd Hp. unfold best_match. apply fold_consider_ext.
  intros label. now apply getitem_Permutation.
Qed.

End Shuffle.

(* ================================================================== *)
(** * The mapping loop *)

Section MappingFacts.

Variable reg : Regressor.
Variable self : Manager.
Variable ideal_data : DataFrame.

Local Open Scope float_scope.

(** The test of line 237, read off [evaluate_pair]. *)
Lemma evaluate_pair_accepted x_test y_test train_col yi d :
  evaluate_pair reg self ideal_data x_test y_test train_col yi = Accepted d
  <->
  exists m y_hat rest bound,
    fit reg (df_x ideal_data) yi = Some m /\
    predict reg m [x_test] = Some (y_hat :: rest) /\
    PyDict.get (training_data_max_deviations self) train_col = Some bound /\
    d = PrimFloat.abs (y_test - y_hat) /\
    (d <=? bound * SQRT2) = true.
Proof.
  unfold evaluate_pair. split.
  - destruct (fit reg (df_x ideal_data) yi) as [m|] eqn:Ef; [|discriminate].
    destruct (predict reg m [x_test]) as [[|y_hat rest]|] eqn:Ep;
      try discriminate.
    destruct (PyDict.get (training_data_max_deviations self) train_col)
      as [bound|] eqn:Eb; [|discriminate].
    destruct (PrimFloat.abs (y_test - y_hat) <=? bound * SQRT2) eqn:E;
      [|discriminate].
    intros [= <-]. exists m, y_hat, rest, bound. auto 10.
  - intros (m & y_hat & rest & bound & -> & -> & -> & -> & ->). reflexivity.
Qed.


(** No accepted pair: the variables of the loop are left as they were. *)
Lemma map_point_nothing_accepted x_test y_test items b b' :
  (forall t oi yi d, In (t, oi) items ->
     getitem_opt ideal_data oi = Some yi ->
     evaluate_pair reg self ideal_data x_test y_test t yi <> Accepted d) ->
  map_point reg self ideal_data x_test y_test items b = Some b' ->
  b' = b.
Proof.
  revert b. induction items as [|[t oi] items IH]; intros b Hno; simpl.
  - now intros [= <-].
  - destruct oi as [name|]; [|discriminate].
    simpl. destruct (getitem ideal_data name) as [yi|] eqn:Eg; [|discriminate].
    destruct (evaluate_pair reg self ideal_data x_test y_test t yi)
      as [| |d] eqn:Ee.
    + apply IH. intros t' oi' yi' d' Hin. apply Hno. now right.
    + apply IH. intros t' oi' yi' d' Hin. apply Hno. now right.
    + exfalso. apply (Hno t (Some name) yi d); auto. now left.
Qed.

Lemma classify_app pre post :
  classify reg self ideal_data (pre ++ post)
  = match classify reg self ideal_data pre,
          classify reg self ideal_data post with
    | Some r1, Some r2 => Some (r1 ++ r2)
    | _, _ => None
    end.
Proof.
  induction pre as [|[x y] pre IH]; simpl.
  - now destruct (classify reg self ideal_data post).
  - destruct (map_point reg self ideal_data x y
                (ideal_functions_selection self) no_point) as [b|];
      [|reflexivity].
    rewrite IH.
    destruct (classify reg self ideal_data pre) as [r1|]; [|reflexivity].
    destruct (classify reg self ideal_data post) as [r2|]; [|reflexivity].
    now rewrite app_assoc.
Qed.


(** With no selected pair nothing is mapped, whatever the test rows. *)
Lemma classify_empty_selection test_data :
  ideal_functions_selection self = [] ->
  classify reg self ideal_data test_data = Some [].
Proof.
  intros Hsel. induction test_data as [|[x y] rest IH]; simpl; [reflexivity|].
  rewrite Hsel. simpl. now rewrite IH.
Qed.

End MappingFacts.

(** The map operation itself never hands a test table without rows to the
    loop: [_load_data] refuses it and the call reports the failure. *)
Lemma map_refuses_empty_test_table (reg : Regressor) (w : World) (self : Manager) :
  test_csv w = Some [] ->
  map_test_data_to_ideal_functions reg w self
  = {| manager_after := self; how := Returned; mapped := [];
       log := [(ERROR, "Data loading failed in map_test_data_to_ideal_functions")] |}.
Proof.
  intros H. unfold map_test_data_to_ideal_functions. now rewrite H.
Qed.

(* ================================================================== *)
(** * The maximal deviations *)

Section MoreFloatFacts.

Local Open Scope float_scope.

Lemma abs_not_below_zero v : (PrimFloat.abs v <? 0) = false.
Proof.
  rewrite ltb_spec, abs_spec. unfold SFltb.
  now destruct (Prim2SF v) as [s|s| |s m e].
Qed.

Lemma ltb_is_nan_l a b : (a <? b) = true -> is_nan a = false.
Proof. intros H. apply ltb_leb in H. eapply leb_is_nan_l; eassumption. Qed.

(** The builtin [max] returns an element of its argument, and no element
    is above it. *)
Lemma max_in s m : max s = Some m -> In m s.
Proof.
  destruct s as [|v rest]; simpl; [discriminate|]. intros [= <-].
  revert v. induction rest as [|u rest IH]; intros v; simpl; [now left|].
  destruct (IH (if v <? u then u else v)) as [H|H]; [|now right; right].
  rewrite <- H. destruct (v <? u); [right; now left|now left].
Qed.

Lemma max_upper s m v : max s = Some m -> In v s -> (m <? v) = false.
Proof.
  destruct s as [|v0 rest]; simpl; [discriminate|]. intros [= <-].
  assert (Hgen : forall rest m0 seen,
            (forall u, In u seen -> (m0 <? u) = false) ->
            forall u, In u (seen ++ rest) ->
              (fold_left (fun m u => if m <? u then u else m) rest m0 <? u) = false).
  { clear. induction rest as [|w rest IH]; intros m0 seen Hseen u Hu; simpl.
    - rewrite app_nil_r in Hu. now apply Hseen.
    - apply (IH _ (seen ++ [w])); [|now rewrite <- app_assoc].
      intros u' Hu'. apply in_app_or in Hu'.
      destruct (m0 <? w) eqn:E.
      + destruct Hu' as [Hu'|[<-|[]]]; [|apply ltb_irrefl].
        destruct (w <? u') eqn:E'; [|reflexivity].
        pose proof (ltb_trans _ _ _ E E') as Ht.
        rewrite (Hseen _ Hu') in Ht. discriminate.
      + destruct Hu' as [Hu'|[<-|[]]]; [now apply Hseen|assumption]. }
  intros Hin. apply (Hgen rest v0 [v0]); [|exact Hin].
  intros u [<-|[]]. apply ltb_irrefl.
Qed.

End MoreFloatFacts.

Section MoreSelectionFacts.

Variable reg : Regressor.

Local Open Scope float_scope.

(** The second [try], spelled out. *)
Lemma max_deviation_train_spelled_out train ideal x_values t o d :
  max_deviation_train reg train ideal x_values t o = Some d
  <->
  exists i ideal_y m predicted train_y diff,
    o = Some i /\
    getitem ideal i = Some ideal_y /\
    fit reg x_values ideal_y = Some m /\
    predict reg m x_values = Some predicted /\
    getitem train t = Some train_y /\
    sub train_y predicted = Some diff /\
    max (abs diff) = Some d.
Proof.
  unfold max_deviation_train. split.
  - destruct o as [i|]; [|discriminate]. simpl.
    destruct (getitem ideal i) as [yi|] eqn:E1; [|discriminate].
    destruct (fit reg x_values yi) as [m|] eqn:E2; [|discriminate].
    destruct (predict reg m x_values) as [p|] eqn:E3; [|discriminate].
    destruct (getitem train t) as [ty|] eqn:E4; [|discriminate].
    destruct (sub ty p) as [diff|] eqn:E5; [|discriminate].
    intros H. exists i, yi, m, p, ty, diff. auto 10.
  - intros (i & yi & m & p & ty & diff & -> & H1 & H2 & H3 & H4 & H5 & H6).
    simpl. now rewrite H1, H2, H3, H4, H5.
Qed.

(** What is stored as the maximal deviation of a training column. *)
Lemma bound_of_cases train ideal x_values t :
  (max_deviation_train reg train ideal x_values t
     (choice_of reg train ideal x_values t) = None /\
   bound_of reg train ideal x_values t = nan)
  \/
  (exists i ideal_y m predicted train_y diff,
     choice_of reg train ideal x_values t = Some i /\
     getitem ideal i = Some ideal_y /\
     fit reg x_values ideal_y = Some m /\
     predict reg m x_values = Some predicted /\
     getitem train t = Some train_y /\
     sub train_y predicted = Some diff /\
     In (bound_of reg train ideal x_values t) (abs diff) /\
     forall v, In v (abs diff) -> (bound_of reg train ideal x_values t <? v) = false).
Proof.
  unfold bound_of.
  destruct (max_deviation_train reg train ideal x_values t
              (choice_of reg train ideal x_values t)) as [d|] eqn:E.
  - right. apply max_deviation_train_spelled_out in E.
    destruct E as (i & yi & m & p & ty & diff & H0 & H1 & H2 & H3 & H4 & H5 & H6).
    exists i, yi, m, p, ty, diff. repeat (split; [assumption|]). split.
    + now apply max_in.
    + intros v Hv. eapply max_upper; eassumption.
  - left. auto.
Qed.

Lemma stored_bound w self train ideal t b :
  _load_data empty (train_csv w) = Some train ->
  _load_data empty (ideal_csv w) = Some ideal ->
  In t (columns_from_1 train) ->
  PyDict.get (training_data_max_deviations (fst (get_ideal_functions reg w self))) t
    = Some b ->
  b = bound_of reg train ideal (df_x train) t.
Proof.
  intros Ht Hi Hin Hb.
  destruct (get_ideal_functions_state reg w self train ideal Ht Hi)
    as (_ & Hdev & _).
  rewrite Hdev, PyDictFacts.get_store_all_in in Hb by assumption.
  now injection Hb as <-.
Qed.

Lemma stored_choice w self train ideal t c :
  _load_data empty (train_csv w) = Some train ->
  _load_data empty (ideal_csv w) = Some ideal ->
  PyDict.get (ideal_functions_selection (fst (get_ideal_functions reg w self))) t
    = Some c ->
  In t (columns_from_1 train) /\ c = choice_of reg train ideal (df_x train) t.
Proof.
  intros Ht Hi Hc.
  destruct (get_ideal_functions_state reg w self train ideal Ht Hi)
    as (Hsel & _ & _).
  rewrite Hsel in Hc.
  destruct (in_dec string_dec t (columns_from_1 train)) as [Hin|Hout].
  - rewrite PyDictFacts.get_store_all_in in Hc by assumption.
    split; [assumption|]. now injection Hc as <-.
  - rewrite PyDictFacts.get_store_all_out in Hc by assumption. discriminate.
Qed.

End MoreSelectionFacts.

(* ================================================================== *)
(** * The frame of the selected functions *)

(** X1.  A maximal deviation stored by a selection for one of its training
    columns is never below zero: it is NaN or the absolute value of a
    residual. *)
Theorem X1_max_deviation_never_negative
    (reg : Regressor) (w : World) (self : Manager)
    (train ideal : DataFrame) (t : string) (b : float) :
  _load_data empty (train_csv w) = Some train ->
  _load_data empty (ideal_csv w) = Some ideal ->
  In t (columns_from_1 train) ->
  PyDict.get (training_data_max_deviations (fst (get_ideal_functions reg w self))) t
    = Some b ->
  (b <? 0)%float = false.
Proof.
  intros Ht Hi Hin Hb.
  rewrite (stored_bound reg w self train ideal t b Ht Hi Hin Hb).
  destruct (bound_of_cases reg train ideal (df_x train) t)
    as [[_ ->]|(i & yi & m & p & ty & diff & _ & _ & _ & _ & _ & _ & Hmem & _)].
  - reflexivity.
  - unfold abs in Hmem. apply in_map_iff in Hmem.
    destruct Hmem as (v & <- & _). apply abs_not_below_zero.
Qed.

Lemma X1_max_deviation_never_negative_witness :
  PyDict.get (training_data_max_deviations Examples.selected) "train_y2"
    = Some 0.5%float /\
  (0.5 <? 0)%float = false.
Proof.
  split; [vm_compute; reflexivity|].
  apply (X1_max_deviation_never_negative Reference.ols
           (Examples.world Examples.train_two Examples.ideal_pool
              (Some Examples.test_points)) init
           Examples.train_two Examples.ideal_pool "train_y2" 0.5%float).
  - reflexivity.
  - reflexivity.
  - simpl. auto.
  - vm_compute. reflexivity.
Defined.

(** X2.  When an ideal column was chosen for a training column, the
    maximal deviation stored for it is the greatest absolute residual of
    the training column against the line fitted to the chosen column over
    the training grid: it is one of these absolute residuals and none of
    them is above it.  Otherwise NaN is stored. *)
Theorem X2_max_deviation_is_greatest_residual
    (reg : Regressor) (w : World) (self : Manager)
    (train ideal : DataFrame) (t : string) (b : float) :
  _load_data empty (train_csv w) = Some train ->
  _load_data empty (ideal_csv w) = Some ideal ->
  In t (columns_from_1 train) ->
  PyDict.get (training_data_max_deviations (fst (get_ideal_functions reg w self))) t
    = Some b ->
  match PyDict.get (ideal_functions_selection (fst (get_ideal_functions reg w self))) t with
  | Some (Some i) =>
      (b = nan /\
       max_deviation_train reg train ideal (df_x train) t (Some i) = None)
      \/
      exists ideal_y m predicted train_y diff,
        getitem ideal i = Some ideal_y /\
        fit reg (df_x train) ideal_y = Some m /\
        predict reg m (df_x train) = Some predicted /\
        getitem train t = Some train_y /\
        sub train_y predicted = Some diff /\
        In b (abs diff) /\
        forall v, In v (abs diff) -> (b <? v)%float = false
  | Some None => b = nan
  | None => False
  end.
Proof.
  intros Ht Hi Hin Hb.
  rewrite (stored_bound reg w self train ideal t b Ht Hi Hin Hb).
  destruct (get_ideal_functions_state reg w self train ideal Ht Hi)
    as (Hsel & _ & _).
  rewrite Hsel, PyDictFacts.get_store_all_in by assumption.
  destruct (bound_of_cases reg train ideal (df_x train) t)
    as [[Hnone Hnan]|(i & yi & m & p & ty & diff & Hc & H)].
  - destruct (choice_of reg train ideal (df_x train) t) as [i|]; auto.
  - rewrite Hc. right. exists yi, m, p, ty, diff. exact H.
Qed.

Lemma X2_max_deviation_is_greatest_residual_witness :
  match PyDict.get (ideal_functions_selection Examples.selected) "train_y2" with
  | Some (Some i) =>
      (0.5%float = nan /\
       max_deviation_train Reference.ols Examples.train_two Examples.ideal_pool
         (df_x Examples.train_two) "train_y2" (Some i) = None)
      \/
      exists ideal_y m predicted train_y diff,
        getitem Examples.ideal_pool i = Some ideal_y /\
        fit Reference.ols (df_x Examples.train_two) ideal_y = Some m /\
        predict Reference.ols m (df_x Examples.train_two) = Some predicted /\
        getitem Examples.train_two "train_y2" = Some train_y /\
        sub train_y predicted = Some diff /\
        In 0.5%float (abs diff) /\
        forall v, In v (abs diff) -> (0.5 <? v)%float = false
  | Some None => 0.5%float = nan
  | None => False
  end.
Proof.
  apply (X2_max_deviation_is_greatest_residual Reference.ols
           (Examples.world Examples.train_two Examples.ideal_pool
              (Some Examples.test_points)) init
           Examples.train_two Examples.ideal_pool "train_y2" 0.5%float).
  - reflexivity.
  - reflexivity.
  - simpl. auto.
  - vm_compute. reflexivity.
Defined.

Section FrameOfSelectedFunctions.

Variable reg : Regressor.

Lemma set_fresh {V} (d : PyDict.dict V) k v :
  ~ In k (PyDict.keys d) -> PyDict.set d k v = d ++ [(k, v)].
Proof.
  unfold PyDict.keys. induction d as [|[k' v'] d IH]; simpl; intros H;
    [reflexivity|].
  destruct (String.eqb_spec k' k); [exfalso; apply H; now left|].
  rewrite IH; [reflexivity|]. intros Hin. apply H. now right.
Qed.

Lemma store_all_fresh {V} (f : string -> V) cols d :
  NoDup (PyDict.keys d ++ cols) ->
  PyDict.store_all f cols d = d ++ map (fun c => (c, f c)) cols.
Proof.
  unfold PyDict.store_all. revert d.
  induction cols as [|c cols IH]; intros d Hnd; simpl.
  - now rewrite app_nil_r.
  - assert (Hc : ~ In c (PyDict.keys d)).
    { intros Hin. apply NoDup_remove_2 in Hnd. apply Hnd.
      apply in_or_app. now left. }
    rewrite set_fresh by assumption. rewrite IH.
    + now rewrite <- app_assoc.
    + unfold PyDict.keys in *. rewrite map_app. simpl.
      rewrite <- app_assoc. exact Hnd.
Qed.

Lemma of_zip_map {V} (g : string -> V) cols :
  NoDup cols ->
  PyDict.of_zip cols (map g cols) = map (fun c => (c, g c)) cols.
Proof.
  intros Hnd. unfold PyDict.of_zip.
  assert (Hc : combine cols (map g cols) = map (fun c => (c, g c)) cols).
  { clear. induction cols as [|c cols IH]; simpl; [reflexivity|]. now rewrite IH. }
  rewrite Hc.
  assert (Hf : forall l d,
            fold_left (fun d kv => PyDict.set d (fst kv) (snd kv))
              (map (fun c => (c, g c)) l) d
            = PyDict.store_all g l d).
  { clear. unfold PyDict.store_all.
    induction l as [|c l IH]; intros d; simpl; [reflexivity|]. apply IH. }
  rewrite Hf. now rewrite store_all_fresh.
Qed.

(** The values kept beside a chosen name are those of the column of that
    name. *)
Lemma best_data_of_choice train ideal x_values t :
  best_ideal_func_data (best_match reg train ideal x_values t)
  = getitem_opt ideal (choice_of reg train ideal x_values t).
Proof.
  unfold choice_of, best_match.
  destruct (consider_fold_cases reg train ideal x_values t
              (columns_from_1 ideal) no_best)
    as [[Hr _]|(pre & i & post & d & _ & _ & _ & Hr & _)];
    rewrite Hr; reflexivity.
Qed.

Lemma chosen_column_exists train ideal x_values t i :
  choice_of reg train ideal x_values t = Some i ->
  In i (columns_from_1 ideal) /\ exists ideal_y, getitem ideal i = Some ideal_y.
Proof.
  intros Hc. unfold choice_of in Hc.
  pose proof (best_match_spec reg train ideal x_values t) as H.
  rewrite Hc in H. destruct H as (pre & post & d & Hcols & Hd & _).
  split.
  - rewrite Hcols. apply in_or_app. right. now left.
  - apply deviation_spelled_out in Hd.
    destruct Hd as (ty & yi & _ & _ & _ & _ & Hyi & _). eauto.
Qed.

Lemma of_dict_None d :
  of_dict d = None
  <-> d <> [] /\
      forallb (fun kv => match snd kv with None => true | Some _ => false end) d
        = true.
Proof.
  destruct d as [|kv d].
  - simpl. split; [discriminate|]. intros [H _]. now contradiction H.
  - unfold of_dict.
    destruct (forallb _ (kv :: d)).
    + split; [|reflexivity]. intros _. split; [discriminate|reflexivity].
    + split; [discriminate|]. intros [_ H]. discriminate.
Qed.

Lemma of_dict_map_None (g : string -> option Series) cols :
  of_dict (map (fun c => (c, g c)) cols) = None
  <-> cols <> [] /\ forall c, In c cols -> g c = None.
Proof.
  rewrite of_dict_None.
  assert (Hall : forall l,
            forallb (fun kv : string * option Series =>
                       match snd kv with None => true | Some _ => false end)
                    (map (fun c => (c, g c)) l) = true
            <-> forall c, In c l -> g c = None).
  { induction l as [|c l IH]; simpl.
    - split; [intros _ c []|reflexivity].
    - rewrite andb_true_iff, IH. split.
      + intros [H1 H2] c' [<-|Hin]; [now destruct (g c)|now apply H2].
      + intros H. split.
        * rewrite (H c); [reflexivity|now left].
        * intros c' Hin. apply H. now right. }
  rewrite Hall. split; intros [H1 H2]; (split; [|assumption]).
  - intros ->. now apply H1.
  - destruct cols; [now contradiction H1|discriminate].
Qed.

(** Line 168, for training columns with distinct labels. *)
Lemma frame_of_selected_functions w self train ideal :
  _load_data empty (train_csv w) = Some train ->
  _load_data empty (ideal_csv w) = Some ideal ->
  NoDup (columns_from_1 train) ->
  get_ideal_functions reg w self
  = let selection := map (fun t => (t, choice_of reg train ideal (df_x train) t))
                         (columns_from_1 train) in
    let bounds := PyDict.store_all (bound_of reg train ideal (df_x train))
                    (columns_from_1 train) (training_data_max_deviations self) in
    match of_dict (map (fun t => (t, getitem_opt ideal
                                       (choice_of reg train ideal (df_x train) t)))
                       (columns_from_1 train)) with
    | None =>
        ({| ideal_functions_selection := selection;
            ideal_functions_data := ideal_functions_data self;
            training_data_max_deviations := bounds;
            results_db := results_db self |}, Raised ValueError)
    | Some frame =>
        ({| ideal_functions_selection := selection;
            ideal_functions_data := frame;
            training_data_max_deviations := bounds;
            results_db := results_db self |}, Returned)
    end.
Proof.
  intros Ht Hi Hnd. unfold get_ideal_functions. rewrite Ht, Hi.
  unfold select_columns.
  rewrite select_columns_selection, select_columns_max_deviations,
          select_columns_temp.
  cbn [best_ideal_functions_selection ideal_functions_data_temp max_deviations app].
  rewrite store_all_fresh by exact Hnd. cbn [app].
  unfold PyDict.keys. rewrite map_map. cbn [fst]. rewrite map_id.
  rewrite (map_ext _ _ (fun t => best_data_of_choice train ideal (df_x train) t)).
  rewrite (of_zip_map (fun t => getitem_opt ideal
                                  (choice_of reg train ideal (df_x train) t)))
    by exact Hnd.
  reflexivity.
Qed.

End FrameOfSelectedFunctions.

Lemma set_same_value {V} (d : PyDict.dict V) k v :
  PyDict.get d k = Some v -> PyDict.set d k v = d.
Proof.
  induction d as [|[k' v'] d IH]; simpl; [discriminate|].
  destruct (String.eqb_spec k' k).
  - now intros [= ->].
  - intros H. now rewrite IH.
Qed.

Lemma store_all_idem {V} (f : string -> V) cols d :
  PyDict.store_all f cols (PyDict.store_all f cols d) = PyDict.store_all f cols d.
Proof.
  assert (Hgen : forall cols' D,
            (forall c, In c cols' -> PyDict.get D c = Some (f c)) ->
            PyDict.store_all f cols' D = D).
  { unfold PyDict.store_all. induction cols' as [|c cols' IH]; intros D H; simpl;
      [reflexivity|].
    rewrite set_same_value by (apply H; now left).
    apply IH. intros c' Hc'. apply H. now right. }
  apply Hgen. intros c Hc. now apply PyDictFacts.get_store_all_in.
Qed.

(** X3.  For a training table whose columns have distinct labels, a
    selection raises (at line 168) exactly when the table has a training
    column and no ideal column was chosen for any of them.  The call that
    raises has already replaced the selection and stored the maximal
    deviations, but leaves the frame of the selected functions as it was
    before the call. *)
Theorem X3_selection_raises_iff_nothing_chosen
    (reg : Regressor) (w : World) (self : Manager) (train ideal : DataFrame) :
  _load_data empty (train_csv w) = Some train ->
  _load_data empty (ideal_csv w) = Some ideal ->
  NoDup (columns_from_1 train) ->
  let self' := fst (get_ideal_functions reg w self) in
  (snd (get_ideal_functions reg w self) = Raised ValueError
   <-> columns_from_1 train <> [] /\
       forall t, In t (columns_from_1 train) ->
                 PyDict.get (ideal_functions_selection self') t = Some None) /\
  (snd (get_ideal_functions reg w self) = Raised ValueError ->
   PyDict.keys (ideal_functions_selection self') = columns_from_1 train /\
   ideal_functions_data self' = ideal_functions_data self).
Proof.
  intros Ht Hi Hnd self'.
  assert (Hsel : forall t, In t (columns_from_1 train) ->
            PyDict.get (ideal_functions_selection self') t
            = Some (choice_of reg train ideal (df_x train) t)).
  { intros t Hin. unfold self'.
    destruct (get_ideal_functions_state reg w self train ideal Ht Hi)
      as (Hs & _ & _).
    rewrite Hs. now apply PyDictFacts.get_store_all_in. }
  assert (Hnone : forall t,
            getitem_opt ideal (choice_of reg train ideal (df_x train) t) = None
            <-> choice_of reg train ideal (df_x train) t = None).
  { intros t. split; [|now intros ->].
    destruct (choice_of reg train ideal (df_x train) t) as [i|] eqn:E;
      [|reflexivity].
    destruct (chosen_column_exists reg train ideal (df_x train) t i E)
      as (_ & yi & Hyi).
    simpl. rewrite Hyi. discriminate. }
  unfold self' in *. clear self'.
  rewrite (frame_of_selected_functions reg w self train ideal Ht Hi Hnd) in *.
  cbv zeta in *.
  destruct (of_dict _) as [frame|] eqn:E; cbn [fst snd] in *.
  - split; [|discriminate]. split; [discriminate|].
    intros [Hne Hall].
    assert (Hn : of_dict
              (map (fun t => (t, getitem_opt ideal
                                   (choice_of reg train ideal (df_x train) t)))
                   (columns_from_1 train)) = None).
    { apply of_dict_map_None. split; [assumption|].
      intros t Hin. apply Hnone.
      specialize (Hall t Hin). rewrite (Hsel t Hin) in Hall. congruence. }
    congruence.
  - apply of_dict_map_None in E. destruct E as [Hne Hall]. split.
    + split; [|reflexivity]. intros _. split; [assumption|].
      intros t Hin. rewrite (Hsel t Hin). f_equal. apply Hnone. now apply Hall.
    + intros _. split; [|reflexivity].
      cbn [ideal_functions_selection]. unfold PyDict.keys.
      rewrite map_map. cbn [fst]. apply map_id.
Qed.

(** The theorem at a table whose only training column has no fit. *)
Lemma X3_selection_raises_iff_nothing_chosen_witness :
  let w := Examples.world Examples.train_one Examples.ideal_missing_cells None in
  let self' := fst (get_ideal_functions Reference.ols w init) in
  (snd (get_ideal_functions Reference.ols w init) = Raised ValueError
   <-> columns_from_1 Examples.train_one <> [] /\
       forall t, In t (columns_from_1 Examples.train_one) ->
                 PyDict.get (ideal_functions_selection self') t = Some None) /\
  (snd (get_ideal_functions Reference.ols w init) = Raised ValueError ->
   PyDict.keys (ideal_functions_selection self') = columns_from_1 Examples.train_one /\
   ideal_functions_data self' = ideal_functions_data init).
Proof.
  apply (X3_selection_raises_iff_nothing_chosen Reference.ols
           (Examples.world Examples.train_one Examples.ideal_missing_cells None)
           init Examples.train_one Examples.ideal_missing_cells).
  - reflexivity.
  - reflexivity.
  - simpl. repeat constructor; simpl; intuition discriminate.
Defined.

(** X4.  After a selection that returned, over training columns with
    distinct labels, the frame of the selected functions has one column per
    training column, in the order of the training table, and the column
    under the label of a training column holds the values of the ideal
    column selected for it (no values when none was selected). *)
Theorem X4_frame_holds_the_selected_columns
    (reg : Regressor) (w : World) (self : Manager) (train ideal : DataFrame) :
  _load_data empty (train_csv w) = Some train ->
  _load_data empty (ideal_csv w) = Some ideal ->
  NoDup (columns_from_1 train) ->
  snd (get_ideal_functions reg w self) = Returned ->
  let self' := fst (get_ideal_functions reg w self) in
  PyDict.keys (ideal_functions_data self') = columns_from_1 train /\
  PyDict.keys (ideal_functions_selection self') = columns_from_1 train /\
  forall t, In t (columns_from_1 train) ->
    exists choice,
      PyDict.get (ideal_functions_selection self') t = Some choice /\
      PyDict.get (ideal_functions_data self') t = Some (getitem_opt ideal choice).
Proof.
  intros Ht Hi Hnd.
  rewrite (frame_of_selected_functions reg w self train ideal Ht Hi Hnd).
  cbv zeta.
  destruct (of_dict _) as [frame|] eqn:E; cbn [fst snd]; [|discriminate].
  intros _.
  assert (Hframe : frame
            = map (fun t => (t, getitem_opt ideal
                                  (choice_of reg train ideal (df_x train) t)))
                  (columns_from_1 train)).
  { unfold of_dict in E.
    destruct (map _ (columns_from_1 train)) as [|kv l] eqn:Em.
    - now injection E as <-.
    - destruct (forallb _ (kv :: l)); [discriminate|]. now injection E as <-. }
  cbn [ideal_functions_data ideal_functions_selection]. rewrite Hframe.
  assert (Hget : forall {V} (g : string -> V) cols t,
            In t cols ->
            PyDict.get (map (fun c => (c, g c)) cols) t = Some (g t)).
  { clear. intros V g cols t. induction cols as [|c cols IH]; simpl; [intros []|].
    destruct (String.eqb_spec c t); [now subst|].
    intros [H|H]; [contradiction|now apply IH]. }
  unfold PyDict.keys. rewrite !map_map. cbn [fst]. rewrite map_id.
  repeat apply conj; try reflexivity.
  intros t Hin. exists (choice_of reg train ideal (df_x train) t).
  split; now apply Hget.
Qed.

(** The theorem at the tables of [Examples]. *)
Lemma X4_frame_holds_the_selected_columns_witness :
  PyDict.keys (ideal_functions_data Examples.selected)
    = columns_from_1 Examples.train_two /\
  PyDict.keys (ideal_functions_selection Examples.selected)
    = columns_from_1 Examples.train_two /\
  forall t, In t (columns_from_1 Examples.train_two) ->
    exists choice,
      PyDict.get (ideal_functions_selection Examples.selected) t = Some choice /\
      PyDict.get (ideal_functions_data Examples.selected) t
        = Some (getitem_opt Examples.ideal_pool choice).
Proof.
  apply (X4_frame_holds_the_selected_columns Reference.ols
           (Examples.world Examples.train_two Examples.ideal_pool
              (Some Examples.test_points)) init
           Examples.train_two Examples.ideal_pool).
  - reflexivity.
  - reflexivity.
  - simpl. repeat constructor; simpl; intuition discriminate.
  - vm_compute. reflexivity.
Defined.

(** X5.  Selecting twice in a row from the same files gives what selecting
    once gives: the second call ends as the first did and leaves the
    manager as the first left it. *)
Theorem X5_selection_is_idempotent
    (reg : Regressor) (w : World) (self : Manager) :
  get_ideal_functions reg w (fst (get_ideal_functions reg w self))
  = get_ideal_functions reg w self.
Proof.
  unfold get_ideal_functions.
  destruct (_load_data empty (train_csv w)) as [train|] eqn:Ht; [|reflexivity].
  destruct (_load_data empty (ideal_csv w)) as [ideal|] eqn:Hi; [|reflexivity].
  unfold select_columns.
  rewrite !select_columns_selection, !select_columns_max_deviations,
          !select_columns_temp.
  cbn [best_ideal_functions_selection ideal_functions_data_temp max_deviations].
  destruct (of_dict _) as [frame|];
    cbn [fst training_data_max_deviations ideal_functions_data results_db];
    rewrite store_all_idem; reflexivity.
Qed.

(* ================================================================== *)
(** * The records of the mapping *)

Section MoreMappingFacts.

Variable reg : Regressor.
Variable self : Manager.
Variable ideal_data : DataFrame.

Local Open Scope float_scope.

(** The loop over the selected pairs either leaves its variables as they
    were, and then no accepted pair is below the minimum it started with,
    or ends on the first accepted pair whose deviation is minimal. *)
Lemma map_point_cases x y items b b' :
  map_point reg self ideal_data x y items b = Some b' ->
  (b' = b /\
   forall t o yi d, In (t, o) items -> getitem_opt ideal_data o = Some yi ->
     evaluate_pair reg self ideal_data x y t yi = Accepted d ->
     (d <? min_deviation_test_point b) = false)
  \/
  (exists pre t n post yi d,
     items = pre ++ (t, Some n) :: post /\
     getitem ideal_data n = Some yi /\
     evaluate_pair reg self ideal_data x y t yi = Accepted d /\
     (d <? min_deviation_test_point b) = true /\
     b' = {| min_deviation_test_point := d;
             best_for_test_point := Some (n, t) |} /\
     (forall t' o' yi' d', In (t', o') pre ->
        getitem_opt ideal_data o' = Some yi' ->
        evaluate_pair reg self ideal_data x y t' yi' = Accepted d' ->
        (d' <=? d) = false) /\
     (forall t' o' yi' d', In (t', o') post ->
        getitem_opt ideal_data o' = Some yi' ->
        evaluate_pair reg self ideal_data x y t' yi' = Accepted d' ->
        (d' <? d) = false)).
Proof.
  revert b. induction items as [|[t o] items IH]; intros b; simpl.
  - intros [= <-]. left. split; [reflexivity|]. intros t o yi d Hin. contradiction.
  - destruct o as [n|]; [|discriminate]. simpl.
    destruct (getitem ideal_data n) as [yi|] eqn:Eg; [|discriminate].
    destruct (evaluate_pair reg self ideal_data x y t yi) as [| |d] eqn:Ee.
    1, 2: intros Hm; destruct (IH b Hm)
        as [[Hb Hall]|(pre & t1 & n1 & post & yi1 & d1 & Hi & Hg & He & Hlt & Hb & Hpre & Hpost)];
      [ left; split; [assumption|];
        intros t' o' yi' d' [[= <- <-]|Hin] Hg' He';
        [ simpl in Hg'; rewrite Eg in Hg'; injection Hg' as <-; congruence
        | eapply Hall; eassumption ]
      | right; exists ((t, Some n) :: pre), t1, n1, post, yi1, d1;
        split; [simpl; now f_equal|];
        repeat (split; [assumption|]); split; [|assumption];
        intros t' o' yi' d' [[= <- <-]|Hin] Hg' He';
        [ simpl in Hg'; rewrite Eg in Hg'; injection Hg' as <-; congruence
        | eapply Hpre; eassumption ] ].
    destruct (d <? min_deviation_test_point b) eqn:Elt; intros Hm.
    + right.
      destruct (IH _ Hm)
        as [[Hb Hall]|(pre & t1 & n1 & post & yi1 & d1 & Hi & Hg & He & Hlt & Hb & Hpre & Hpost)];
        simpl in *.
      * exists [], t, n, items, yi, d. repeat (split; [auto; fail|]).
        split; [intros t' o' yi' d' Hin; contradiction|exact Hall].
      * exists ((t, Some n) :: pre), t1, n1, post, yi1, d1.
        split; [simpl; now f_equal|].
        repeat (split; [assumption|]).
        split; [eapply ltb_trans; eassumption|].
        repeat (split; [assumption|]). split; [|assumption].
        intros t' o' yi' d' [[= <- <-]|Hin] Hg' He'.
        -- simpl in Hg'. rewrite Eg in Hg'. injection Hg' as <-.
           rewrite Ee in He'. injection He' as <-. now apply ltb_not_leb.
        -- eapply Hpre; eassumption.
    + destruct (IH _ Hm)
        as [[Hb Hall]|(pre & t1 & n1 & post & yi1 & d1 & Hi & Hg & He & Hlt & Hb & Hpre & Hpost)].
      * left. split; [assumption|].
        intros t' o' yi' d' [[= <- <-]|Hin] Hg' He'; [|eapply Hall; eassumption].
        simpl in Hg'. rewrite Eg in Hg'. injection Hg' as <-.
        rewrite Ee in He'. now injection He' as <-.
      * right. exists ((t, Some n) :: pre), t1, n1, post, yi1, d1.
        split; [simpl; now f_equal|].
        repeat (split; [assumption|]). split; [|assumption].
        intros t' o' yi' d' [[= <- <-]|Hin] Hg' He'; [|eapply Hpre; eassumption].
        simpl in Hg'. rewrite Eg in Hg'. injection Hg' as <-.
        rewrite Ee in He'. injection He' as <-.
        destruct (d <=? d1) eqn:Ele; [|reflexivity].
        rewrite (leb_ltb_trans _ _ _ Ele Hlt) in Elt. discriminate.
Qed.

(** A record of the results and the run of the loop it comes from. *)
Lemma record_origin test_data results r :
  classify reg self ideal_data test_data = Some results ->
  In r results ->
  In (rec_x r, rec_y r) test_data /\
  map_point reg self ideal_data (rec_x r) (rec_y r)
    (ideal_functions_selection self) no_point
  = Some {| min_deviation_test_point := rec_delta_y r;
            best_for_test_point :=
              Some (rec_ideal_func r, rec_training_data_column r) |}.
Proof.
  revert results. induction test_data as [|[x y] rest IH]; intros results; simpl.
  - intros [= <-] [].
  - destruct (map_point reg self ideal_data x y
                (ideal_functions_selection self) no_point) as [b|] eqn:Eb;
      [|discriminate].
    destruct (classify reg self ideal_data rest) as [rs|]; [|discriminate].
    intros [= <-] Hin. apply in_app_or in Hin. destruct Hin as [Hin|Hin].
    + unfold emit in Hin. destruct b as [m [[n t]|]]; simpl in Hin; [|destruct Hin].
      destruct (String.eqb n EmptyString); [destruct Hin|].
      destruct Hin as [<-|[]]. simpl. split; [now left|exact Eb].
    + destruct (IH rs eq_refl Hin) as [H1 H2]. split; [now right|assumption].
Qed.

(** Line 228 raises exactly when the selection holds an entry that names
    no column of the ideal table. *)
Lemma map_point_raises x y items b :
  map_point reg self ideal_data x y items b = None
  <-> exists t o, In (t, o) items /\ getitem_opt ideal_data o = None.
Proof.
  revert b. induction items as [|[t o] items IH]; intros b; simpl.
  - split; [discriminate|]. intros (t & o & [] & _).
  - destruct o as [n|].
    + simpl. destruct (getitem ideal_data n) as [yi|] eqn:Eg.
      * rewrite IH. split.
        -- intros (t' & o' & Hin & Hg). exists t', o'. auto.
        -- intros (t' & o' & [[= <- <-]|Hin] & Hg).
           ++ simpl in Hg. congruence.
           ++ exists t', o'. auto.
      * split; [|reflexivity]. intros _. exists t, (Some n). simpl. auto.
    + split; [|reflexivity]. intros _. exists t, None. auto.
Qed.

Lemma classify_raises test_data :
  classify reg self ideal_data test_data = None
  <-> test_data <> [] /\
      exists t o, In (t, o) (ideal_functions_selection self) /\
                  getitem_opt ideal_data o = None.
Proof.
  induction test_data as [|[x y] rest IH]; simpl.
  - split; [discriminate|]. intros [H _]. now contradiction H.
  - destruct (map_point reg self ideal_data x y
                (ideal_functions_selection self) no_point) as [b|] eqn:Eb.
    + assert (Hok : ~ exists t o, In (t, o) (ideal_functions_selection self) /\
                                  getitem_opt ideal_data o = None).
      { intros H. apply (map_point_raises x y _ no_point) in H. congruence. }
      destruct (classify reg self ideal_data rest) as [rs|].
      * split; [discriminate|]. intros [_ H]. contradiction.
      * split; [|reflexivity]. intros _.
        destruct (proj1 IH eq_refl) as [_ H]. contradiction.
    + apply map_point_raises in Eb. split; [|reflexivity].
      intros _. split; [discriminate|assumption].
Qed.

End MoreMappingFacts.

(** X6.  A record of the results names the first pair of the selection,
    in the order of the selection, whose deviation at the observation is
    minimal among the pairs that pass the test of line 237: no accepted
    pair has a smaller deviation, and every accepted pair met before it has
    a strictly greater one.  The record holds that deviation. *)
Theorem X6_record_names_first_minimal_accepted_pair
    (reg : Regressor) (self : Manager) (ideal_data : DataFrame)
    (test_data : TestFrame) (results : list MappingRecord) (r : MappingRecord) :
  classify reg self ideal_data test_data = Some results ->
  In r results ->
  exists pre post yi,
    ideal_functions_selection self
      = pre ++ (rec_training_data_column r, Some (rec_ideal_func r)) :: post /\
    getitem ideal_data (rec_ideal_func r) = Some yi /\
    evaluate_pair reg self ideal_data (rec_x r) (rec_y r)
      (rec_training_data_column r) yi = Accepted (rec_delta_y r) /\
    (forall t o yi' d, In (t, o) pre ->
       getitem_opt ideal_data o = Some yi' ->
       evaluate_pair reg self ideal_data (rec_x r) (rec_y r) t yi' = Accepted d ->
       (d <=? rec_delta_y r)%float = false) /\
    (forall t o yi' d, In (t, o) post ->
       getitem_opt ideal_data o = Some yi' ->
       evaluate_pair reg self ideal_data (rec_x r) (rec_y r) t yi' = Accepted d ->
       (d <? rec_delta_y r)%float = false).
Proof.
  intros Hc Hin.
  destruct (record_origin reg self ideal_data test_data results r Hc Hin)
    as [_ Hm].
  destruct (map_point_cases reg self ideal_data _ _ _ _ _ Hm)
    as [[Hb _]|(pre & t & n & post & yi & d & Hi & Hg & He & _ & Hb & Hpre & Hpost)].
  - discriminate.
  - injection Hb as Hd Hn Ht. subst d n t.
    exists pre, post, yi. auto.
Qed.

(** The theorem at the first record of the example. *)
Lemma X6_record_names_first_minimal_accepted_pair_witness :
  let r := {| rec_x := 1.5; rec_y := 3; rec_delta_y := 0;
              rec_ideal_func := "ideal_y2";
              rec_training_data_column := "train_y1" |}%float in
  exists pre post yi,
    ideal_functions_selection Examples.selected
      = pre ++ (rec_training_data_column r, Some (rec_ideal_func r)) :: post /\
    getitem Examples.ideal_pool (rec_ideal_func r) = Some yi /\
    evaluate_pair Reference.ols Examples.selected Examples.ideal_pool
      (rec_x r) (rec_y r) (rec_training_data_column r) yi
      = Accepted (rec_delta_y r) /\
    (forall t o yi' d, In (t, o) pre ->
       getitem_opt Examples.ideal_pool o = Some yi' ->
       evaluate_pair Reference.ols Examples.selected Examples.ideal_pool
         (rec_x r) (rec_y r) t yi' = Accepted d ->
       (d <=? rec_delta_y r)%float = false) /\
    (forall t o yi' d, In (t, o) post ->
       getitem_opt Examples.ideal_pool o = Some yi' ->
       evaluate_pair Reference.ols Examples.selected Examples.ideal_pool
         (rec_x r) (rec_y r) t yi' = Accepted d ->
       (d <? rec_delta_y r)%float = false).
Proof.
  intros r.
  apply (X6_record_names_first_minimal_accepted_pair Reference.ols
           Examples.selected Examples.ideal_pool Examples.test_points
           [ r; {| rec_x := 2; rec_y := 1.25; rec_delta_y := 0.25;
                   rec_ideal_func := "ideal_y1";
                   rec_training_data_column := "train_y2" |}%float ] r).
  - vm_compute. reflexivity.
  - now left.
Defined.

(** X7.  The rows of the test table are classified independently: the
    records of a table are those of its first rows followed by those of
    its last rows, a single row gives no record or one record that holds
    the row's [x] and [y], and there are never more records than rows. *)
Theorem X7_rows_are_classified_independently
    (reg : Regressor) (self : Manager) (ideal_data : DataFrame) :
  (forall pre post,
     classify reg self ideal_data (pre ++ post)
     = match classify reg self ideal_data pre,
             classify reg self ideal_data post with
       | Some r1, Some r2 => Some (r1 ++ r2)
       | _, _ => None
       end) /\
  (forall x y results,
     classify reg self ideal_data [(x, y)] = Some results ->
     results = [] \/ exists r, results = [r] /\ rec_x r = x /\ rec_y r = y) /\
  (forall test_data results,
     classify reg self ideal_data test_data = Some results ->
     (List.length results <= List.length test_data)%nat).
Proof.
  assert (Hemit : forall x y b,
            emit x y b = [] \/
            exists r, emit x y b = [r] /\ rec_x r = x /\ rec_y r = y).
  { intros x y b. unfold emit.
    destruct (best_for_test_point b) as [[n t]|]; [|now left].
    destruct (String.eqb n EmptyString); [now left|].
    right. eexists. split; [reflexivity|]. simpl. auto. }
  split; [apply classify_app|]. split.
  - intros x y results. simpl.
    destruct (map_point reg self ideal_data x y
                (ideal_functions_selection self) no_point) as [b|]; [|discriminate].
    rewrite app_nil_r. intros [= <-]. apply Hemit.
  - induction test_data as [|[x y] rest IH]; intros results; simpl.
    + now intros [= <-].
    + destruct (map_point reg self ideal_data x y
                  (ideal_functions_selection self) no_point) as [b|];
        [|discriminate].
      destruct (classify reg self ideal_data rest) as [rs|]; [|discriminate].
      intros [= <-]. rewrite length_app. specialize (IH rs eq_refl).
      destruct (Hemit x y b) as [->|(r & -> & _)]; simpl; lia.
Qed.

(** X8.  The deviation held by a record ('Delta Y') is a number, not
    below zero and below infinity. *)
Theorem X8_record_deviation_is_finite
    (reg : Regressor) (self : Manager) (ideal_data : DataFrame)
    (test_data : TestFrame) (results : list MappingRecord) (r : MappingRecord) :
  classify reg self ideal_data test_data = Some results ->
  In r results ->
  is_nan (rec_delta_y r) = false /\
  (rec_delta_y r <? 0)%float = false /\
  (rec_delta_y r <? infinity)%float = true.
Proof.
  intros Hc Hin.
  destruct (record_origin reg self ideal_data test_data results r Hc Hin)
    as [_ Hm].
  destruct (map_point_cases reg self ideal_data _ _ _ _ _ Hm)
    as [[Hb _]|(pre & t & n & post & yi & d & _ & _ & He & Hlt & Hb & _)].
  - discriminate.
  - injection Hb as Hd _ _. subst d. simpl in Hlt.
    repeat apply conj.
    + eapply ltb_is_nan_l; eassumption.
    + apply evaluate_pair_accepted in He.
      destruct He as (m & y_hat & rest & bound & _ & _ & _ & -> & _).
      apply abs_not_below_zero.
    + assumption.
Qed.

(** The theorem at the second record of the example. *)
Lemma X8_record_deviation_is_finite_witness :
  is_nan 0.25%float = false /\
  (0.25 <? 0)%float = false /\
  (0.25 <? infinity)%float = true.
Proof.
  apply (X8_record_deviation_is_finite Reference.ols
           Examples.selected Examples.ideal_pool Examples.test_points
           [ {| rec_x := 1.5; rec_y := 3; rec_delta_y := 0;
                rec_ideal_func := "ideal_y2";
                rec_training_data_column := "train_y1" |};
             {| rec_x := 2; rec_y := 1.25; rec_delta_y := 0.25;
                rec_ideal_func := "ideal_y1";
                rec_training_data_column := "train_y2" |} ]%float
           {| rec_x := 2; rec_y := 1.25; rec_delta_y := 0.25;
              rec_ideal_func := "ideal_y1";
              rec_training_data_column := "train_y2" |}%float).
  - vm_compute. reflexivity.
  - right. now left.
Defined.

(** X9.  The map operation raises nothing but [KeyError], and raises it
    exactly when both tables load and the selection holds an entry whose
    name is [None] or is no column label of the ideal table. *)
Theorem X9_map_raises_iff_selected_name_unknown
    (reg : Regressor) (w : World) (self : Manager) :
  (how (map_test_data_to_ideal_functions reg w self) = Returned \/
   how (map_test_data_to_ideal_functions reg w self) = Raised KeyError) /\
  (how (map_test_data_to_ideal_functions reg w self) = Raised KeyError
   <->
   exists test_data ideal_data,
     _load_data test_empty (test_csv w) = Some test_data /\
     _load_data empty (ideal_csv w) = Some ideal_data /\
     exists t o, In (t, o) (ideal_functions_selection self) /\
                 getitem_opt ideal_data o = None).
Proof.
  unfold map_test_data_to_ideal_functions.
  destruct (_load_data test_empty (test_csv w)) as [test_data|] eqn:Et.
  2: { simpl. split; [now left|]. split; [discriminate|].
       intros (? & ? & [=] & _). }
  destruct (_load_data empty (ideal_csv w)) as [ideal_data|] eqn:Ei.
  2: { simpl. split; [now left|]. split; [discriminate|].
       intros (? & ? & _ & [=] & _). }
  assert (Hne : test_data <> []).
  { unfold _load_data in Et. destruct (test_csv w) as [td|]; [|discriminate].
    destruct td; simpl in Et; [discriminate|]. injection Et as <-. discriminate. }
  destruct (classify reg self ideal_data test_data) as [results|] eqn:Ec.
  - destruct (persist w self results) as [self' store_log]. simpl.
    split; [now left|]. split; [discriminate|].
    intros (td & idl & [= <-] & [= <-] & Hbad).
    assert (Hn : classify reg self ideal_data test_data = None)
      by (apply classify_raises; auto).
    congruence.
  - simpl. split; [now right|]. split; [|reflexivity].
    intros _. exists test_data, ideal_data.
    apply classify_raises in Ec. destruct Ec as [_ Hbad]. auto.
Qed.

Section MapTwice.

Variable reg : Regressor.

Lemma evaluate_pair_ext self self' ideal_data x y t yi :
  training_data_max_deviations self' = training_data_max_deviations self ->
  evaluate_pair reg self' ideal_data x y t yi
  = evaluate_pair reg self ideal_data x y t yi.
Proof. intros H. unfold evaluate_pair. now rewrite H. Qed.

Lemma map_point_ext self self' ideal_data x y items b :
  training_data_max_deviations self' = training_data_max_deviations self ->
  map_point reg self' ideal_data x y items b
  = map_point reg self ideal_data x y items b.
Proof.
  intros H. revert b. induction items as [|[t o] items IH]; intros b; simpl;
    [reflexivity|].
  destruct o as [n|]; [|reflexivity]. simpl.
  destruct (getitem ideal_data n) as [yi|]; [|reflexivity].
  rewrite (evaluate_pair_ext self self' ideal_data x y t yi H). apply IH.
Qed.

(** The loop reads the selection and the maximal deviations only. *)
Lemma classify_ext self self' ideal_data test_data :
  ideal_functions_selection self' = ideal_functions_selection self ->
  training_data_max_deviations self' = training_data_max_deviations self ->
  classify reg self' ideal_data test_data = classify reg self ideal_data test_data.
Proof.
  intros Hs Hb. induction test_data as [|[x y] rest IH]; simpl; [reflexivity|].
  rewrite Hs, (map_point_ext self self' ideal_data x y _ no_point Hb), IH.
  reflexivity.
Qed.

End MapTwice.

(** X10.  The map operation changes nothing of the manager but the stored
    table: the selection, the frame of the selected functions and the
    maximal deviations are as before the call.  Calling it a second time
    with the same files gives the same records, the same log and the same
    stored table as the first call. *)
Theorem X10_map_keeps_selection_and_repeats
    (reg : Regressor) (w : World) (self : Manager) :
  let run := map_test_data_to_ideal_functions reg w self in
  ideal_functions_selection (manager_after run) = ideal_functions_selection self /\
  ideal_functions_data (manager_after run) = ideal_functions_data self /\
  training_data_max_deviations (manager_after run)
    = training_data_max_deviations self /\
  map_test_data_to_ideal_functions reg w (manager_after run) = run.
Proof.
  intros run.
  assert (Hframe :
    ideal_functions_selection (manager_after run) = ideal_functions_selection self /\
    ideal_functions_data (manager_after run) = ideal_functions_data self /\
    training_data_max_deviations (manager_after run)
      = training_data_max_deviations self).
  { unfold run, map_test_data_to_ideal_functions.
    destruct (_load_data test_empty (test_csv w)) as [td|]; [|simpl; auto].
    destruct (_load_data empty (ideal_csv w)) as [idl|]; [|simpl; auto].
    destruct (classify reg self idl td) as [[|r rs]|]; simpl; auto.
    unfold _store_results, save_data.
    destruct (results_writable w); simpl; auto. }
  destruct Hframe as (Hs & Hd & Hb). repeat (split; [assumption|]).
  unfold map_test_data_to_ideal_functions at 1.
  destruct (_load_data test_empty (test_csv w)) as [td|] eqn:Et.
  2: { unfold run, map_test_data_to_ideal_functions. now rewrite Et. }
  destruct (_load_data empty (ideal_csv w)) as [idl|] eqn:Ei.
  2: { unfold run, map_test_data_to_ideal_functions. now rewrite Et, Ei. }
  rewrite (classify_ext reg self (manager_after run) idl td Hs Hb).
  revert Hs Hd Hb. unfold run, map_test_data_to_ideal_functions.
  rewrite Et, Ei.
  destruct (classify reg self idl td) as [[|r rs]|]; simpl; try reflexivity.
  unfold _store_results, save_data.
  destruct (results_writable w); simpl; reflexivity.
Qed.

Lemma in_get {V} (d : PyDict.dict V) k v :
  NoDup (PyDict.keys d) -> In (k, v) d -> PyDict.get d k = Some v.
Proof.
  unfold PyDict.keys. induction d as [|[k' v'] d IH]; simpl; [intros _ []|].
  intros Hnd [[= -> ->]|Hin].
  - now rewrite String.eqb_refl.
  - inversion Hnd as [|? ? Hnot Hnd']; subst.
    destruct (String.eqb_spec k' k) as [->|Hne]; [|now apply IH].
    exfalso. apply Hnot. apply in_map_iff. exists (k, v). auto.
Qed.

(** What the map operation does to the manager. *)
Lemma map_frame (reg : Regressor) (w : World) (self : Manager) :
  let self' := manager_after (map_test_data_to_ideal_functions reg w self) in
  ideal_functions_selection self' = ideal_functions_selection self /\
  ideal_functions_data self' = ideal_functions_data self /\
  training_data_max_deviations self' = training_data_max_deviations self /\
  (results_db self' = results_db self \/
   exists r rs, results_db self' = Some (r :: rs)).
Proof.
  unfold map_test_data_to_ideal_functions.
  destruct (_load_data test_empty (test_csv w)) as [td|]; [|simpl; auto].
  destruct (_load_data empty (ideal_csv w)) as [idl|]; [|simpl; auto].
  destruct (classify reg self idl td) as [[|r rs]|]; simpl; auto.
  unfold _store_results, save_data.
  destruct (results_writable w); simpl; auto.
  repeat (split; [reflexivity|]). right. eauto.
Qed.

(** X11.  Whatever sequence of selections and mappings a manager has gone
    through since it was built, the stored table of results, when there is
    one, has at least one row; the selection has one entry per key, and
    every training column of the selection has a maximal deviation, so that
    the lookup of line 235 finds its key. *)
Theorem X11_invariants_of_the_manager (self : Manager) :
  Reachable self ->
  results_db self <> Some [] /\
  NoDup (PyDict.keys (ideal_functions_selection self)) /\
  NoDup (PyDict.keys (training_data_max_deviations self)) /\
  forall t o, In (t, o) (ideal_functions_selection self) ->
    exists b, PyDict.get (training_data_max_deviations self) t = Some b.
Proof.
  intros Hr.
  assert (Hinv : results_db self <> Some [] /\
                 NoDup (PyDict.keys (ideal_functions_selection self)) /\
                 NoDup (PyDict.keys (training_data_max_deviations self)) /\
                 forall t, In t (PyDict.keys (ideal_functions_selection self)) ->
                           In t (PyDict.keys (training_data_max_deviations self))).
  { induction Hr as [|reg w self Hr IH|reg w self Hr IH].
    - simpl. repeat split; try constructor; [discriminate|intros t []].
    - destruct IH as (Hdb & Hn1 & Hn2 & Hsub).
      destruct (_load_data empty (train_csv w)) as [train|] eqn:Ht;
        [destruct (_load_data empty (ideal_csv w)) as [ideal|] eqn:Hi|].
      + destruct (get_ideal_functions_state reg w self train ideal Ht Hi)
          as (Hs & Hb & Hd).
        rewrite Hs, Hb, Hd. repeat split.
        * assumption.
        * apply PyDictFacts.NoDup_keys_store_all. constructor.
        * now apply PyDictFacts.NoDup_keys_store_all.
        * intros t Hin. apply PyDictFacts.in_keys_store_all in Hin.
          apply PyDictFacts.in_keys_store_all.
          destruct Hin as [Hin|[]]. now left.
      + rewrite get_ideal_functions_not_loaded by auto. simpl. auto.
      + rewrite get_ideal_functions_not_loaded by auto. simpl. auto.
    - destruct IH as (Hdb & Hn1 & Hn2 & Hsub).
      destruct (map_frame reg w self) as (Hs & _ & Hb & Hres).
      cbv zeta in Hs, Hb, Hres. rewrite Hs, Hb. repeat split; try assumption.
      destruct Hres as [->|(r & rs & ->)]; [assumption|discriminate]. }
  destruct Hinv as (Hdb & Hn1 & Hn2 & Hsub). repeat (split; [assumption|]).
  intros t o Hin.
  assert (Hk : In t (PyDict.keys (training_data_max_deviations self))).
  { apply Hsub. unfold PyDict.keys. apply in_map_iff. exists (t, o). auto. }
  destruct (PyDict.get (training_data_max_deviations self) t) as [b|] eqn:E;
    [eauto|].
  apply PyDictFacts.get_None in E. contradiction.
Qed.

(** The theorem at a manager that has selected once. *)
Lemma X11_invariants_of_the_manager_witness :
  results_db Examples.selected <> Some [] /\
  NoDup (PyDict.keys (ideal_functions_selection Examples.selected)) /\
  NoDup (PyDict.keys (training_data_max_deviations Examples.selected)) /\
  forall t o, In (t, o) (ideal_functions_selection Examples.selected) ->
    exists b, PyDict.get (training_data_max_deviations Examples.selected) t = Some b.
Proof.
  apply (X11_invariants_of_the_manager Examples.selected).
  exact (reach_select Reference.ols
           (Examples.world Examples.train_two Examples.ideal_pool
              (Some Examples.test_points)) init reach_init).
Defined.

(** X12.  When a selection loaded its tables and, for every training
    column, some ideal column has a fit with a sum of squared deviations
    below infinity, a map operation that follows it with the same ideal
    file does not raise, with whatever test file. *)
Theorem X12_map_after_selection_returns
    (reg reg' : Regressor) (w w' : World) (self : Manager)
    (train ideal : DataFrame) :
  _load_data empty (train_csv w) = Some train ->
  _load_data empty (ideal_csv w) = Some ideal ->
  ideal_csv w' = ideal_csv w ->
  (forall t, In t (columns_from_1 train) ->
     exists i d, In i (columns_from_1 ideal) /\
                 deviation reg train ideal (df_x train) t i = Some d /\
                 (d <? infinity)%float = true) ->
  how (map_test_data_to_ideal_functions reg' w'
         (fst (get_ideal_functions reg w self))) = Returned.
Proof.
  intros Ht Hi Hsame Hfit.
  unfold map_test_data_to_ideal_functions.
  destruct (_load_data test_empty (test_csv w')) as [td|]; [|reflexivity].
  rewrite Hsame, Hi.
  destruct (classify reg' (fst (get_ideal_functions reg w self)) ideal td)
    as [results|] eqn:Ec.
  - now destruct (persist w' _ results).
  - exfalso. apply classify_raises in Ec.
    destruct Ec as (_ & t & o & Hin & Hbad).
    assert (Hnd : NoDup (PyDict.keys (ideal_functions_selection
                                        (fst (get_ideal_functions reg w self))))).
    { destruct (get_ideal_functions_state reg w self train ideal Ht Hi)
        as (Hs & _ & _).
      rewrite Hs. apply PyDictFacts.NoDup_keys_store_all. constructor. }
    apply (in_get _ _ _ Hnd) in Hin.
    destruct (stored_choice reg w self train ideal t o Ht Hi Hin) as [Hcol ->].
    destruct (choice_of reg train ideal (df_x train) t) as [i|] eqn:Ech.
    + destruct (chosen_column_exists reg train ideal (df_x train) t i Ech)
        as (_ & yi & Hyi).
      simpl in Hbad. congruence.
    + destruct (Hfit t Hcol) as (i & d & Hi' & Hd & Hlt).
      pose proof (best_match_spec reg train ideal (df_x train) t) as Hspec.
      unfold choice_of in Ech. rewrite Ech in Hspec.
      rewrite (Hspec i d Hi' Hd) in Hlt. discriminate.
Qed.

(** The theorem at the tables of [Examples]. *)
Lemma X12_map_after_selection_returns_witness :
  how (map_test_data_to_ideal_functions Reference.ols
         (Examples.world Examples.train_two Examples.ideal_pool
            (Some Examples.test_points))
         Examples.selected) = Returned.
Proof.
  apply (X12_map_after_selection_returns Reference.ols Reference.ols
           (Examples.world Examples.train_two Examples.ideal_pool
              (Some Examples.test_points))
           (Examples.world Examples.train_two Examples.ideal_pool
              (Some Examples.test_points))
           init Examples.train_two Examples.ideal_pool).
  - reflexivity.
  - reflexivity.
  - reflexivity.
  - intros t [<-|[<-|[]]].
    + exists "ideal_y2", 0%float. vm_compute. auto.
    + exists "ideal_y1", 0.25%float. vm_compute. auto.
Defined.

(* ================================================================== *)
(** * Properties of the plots *)

Module VisualizerFacts.

Import Visualizer.

(** What the loop over the columns of one frame adds. *)
Lemma add_glyphs_spec df_name cols st :
  add_glyphs df_name cols st
  = (fst st ++ map (fun k => {| glyph_label := df_name ++ " - " ++ nth k cols "";
                                glyph_y := nth k cols "";
                                glyph_color := (snd st + k) mod palette_size |})
                   (seq 0 (List.length cols)),
     snd st + List.length cols).
Proof.
  unfold add_glyphs. revert st.
  induction cols as [|c cols IH]; intros [items ci];
    cbn [fold_left fst snd List.length seq map].
  - now rewrite app_nil_r, Nat.add_0_r.
  - rewrite IH. cbn [fst snd nth]. rewrite <- app_assoc. cbn [app].
    rewrite Nat.add_0_r, <- seq_shift, map_map.
    f_equal; [|lia]. f_equal. f_equal.
    apply map_ext. intros k. cbn [nth]. now rewrite Nat.add_succ_comm.
Qed.

Lemma map_nth_seq (cols : list string) (f : string -> string) :
  map (fun k => f (nth k cols "")) (seq 0 (List.length cols)) = map f cols.
Proof.
  induction cols as [|c cols IH]; simpl; [reflexivity|].
  now rewrite <- seq_shift, map_map, IH.
Qed.

Lemma add_glyphs_labels df_name cols st :
  map glyph_label (fst (add_glyphs df_name cols st))
  = map glyph_label (fst st) ++ map (fun c => (df_name ++ " - " ++ c)%string) cols.
Proof.
  rewrite add_glyphs_spec. cbn [fst]. rewrite map_app, map_map.
  cbn [glyph_label].
  now rewrite (map_nth_seq cols (fun c => (df_name ++ " - " ++ c)%string)).
Qed.

Lemma add_glyphs_columns df_name cols st :
  map glyph_y (fst (add_glyphs df_name cols st)) = map glyph_y (fst st) ++ cols.
Proof.
  rewrite add_glyphs_spec. cbn [fst]. rewrite map_app, map_map.
  cbn [glyph_y].
  now rewrite (map_nth_seq cols (fun c => c)), map_id.
Qed.

Lemma seq_from n len : seq n len = map (fun k => n + k) (seq 0 len).
Proof.
  revert n. induction len as [|len IH]; intros n; cbn [seq map]; [reflexivity|].
  rewrite Nat.add_0_r. f_equal.
  rewrite (IH (S n)), <- seq_shift, map_map.
  apply map_ext. intros k. lia.
Qed.

Lemma add_glyphs_colors df_name cols st :
  snd st = List.length (fst st) ->
  map glyph_color (fst st)
    = map (fun k => k mod palette_size) (seq 0 (List.length (fst st))) ->
  let st' := add_glyphs df_name cols st in
  snd st' = List.length (fst st') /\
  map glyph_color (fst st')
    = map (fun k => k mod palette_size) (seq 0 (List.length (fst st'))).
Proof.
  intros Hn Hc. rewrite add_glyphs_spec. cbn [fst snd]. split.
  - rewrite length_app, length_map, length_seq. lia.
  - rewrite map_app, map_map, length_app, length_map, length_seq.
    cbn [glyph_color].
    rewrite seq_app, map_app, Hc. f_equal. cbn [Nat.add].
    rewrite Hn.
    now rewrite (seq_from (List.length (fst st))), map_map.
Qed.

Lemma plot_frames_raises names y_cols i frames st :
  (i <= List.length names)%nat ->
  plot_frames names y_cols i frames st = None
  <-> (List.length names < i + List.length frames)%nat.
Proof.
  revert i st. induction frames as [|df frames IH]; intros i st Hi; simpl.
  - split; [discriminate|lia].
  - destruct (nth_error names i) as [name|] eqn:E.
    + assert (i < List.length names)%nat by (apply nth_error_Some; congruence).
      rewrite IH by lia. lia.
    + apply nth_error_None in E. split; [lia|reflexivity].
Qed.

Lemma plot_frames_labels names y_cols frames st st' :
  plot_frames names y_cols 0 frames st = Some st' ->
  map glyph_label (fst st')
  = map glyph_label (fst st)
    ++ flat_map (fun nf => map (fun c => (fst nf ++ " - " ++ c)%string)
                               (y_cols_for_df (snd nf) y_cols))
                (combine names frames) /\
  map glyph_y (fst st')
  = map glyph_y (fst st)
    ++ flat_map (fun df => y_cols_for_df df y_cols) frames.
Proof.
  assert (Hgen : forall frames i st st',
            plot_frames names y_cols i frames st = Some st' ->
            map glyph_label (fst st')
            = map glyph_label (fst st)
              ++ flat_map (fun nf => map (fun c => (fst nf ++ " - " ++ c)%string)
                                         (y_cols_for_df (snd nf) y_cols))
                          (combine (skipn i names) frames) /\
            map glyph_y (fst st')
            = map glyph_y (fst st)
              ++ flat_map (fun df => y_cols_for_df df y_cols) frames).
  { clear. induction frames as [|df frames IH]; intros i st st'; simpl.
    - intros [= <-]. rewrite combine_nil, !app_nil_r. auto.
    - destruct (nth_error names i) as [name|] eqn:E; [|discriminate].
      intros H. destruct (IH _ _ _ H) as [H1 H2].
      rewrite H1, H2, add_glyphs_labels, add_glyphs_columns, <- !app_assoc.
      assert (Hs : skipn i names = name :: skipn (S i) names).
      { clear - E. revert i E. induction names as [|n names IHn]; intros [|i] E;
          simpl in *; try discriminate.
        - now injection E as ->.
        - now apply IHn. }
      rewrite Hs. simpl. auto. }
  intros H. apply (Hgen frames 0 st st' H).
Qed.

Lemma plot_frames_colors names y_cols frames i st st' :
  plot_frames names y_cols i frames st = Some st' ->
  snd st = List.length (fst st) ->
  map glyph_color (fst st)
    = map (fun k => k mod palette_size) (seq 0 (List.length (fst st))) ->
  map glyph_color (fst st')
    = map (fun k => k mod palette_size) (seq 0 (List.length (fst st'))).
Proof.
  revert i st. induction frames as [|df frames IH]; intros i st; simpl.
  - now intros [= <-].
  - destruct (nth_error names i) as [name|]; [|discriminate].
    intros H Hn Hc.
    destruct (add_glyphs_colors name (y_cols_for_df df y_cols) st Hn Hc)
      as [Hn' Hc'].
    eapply IH; eassumption.
Qed.

Lemma in_y_cols_for_df columns y_cols c :
  In c (y_cols_for_df columns y_cols) <-> In c (tl columns) /\ In c y_cols.
Proof.
  unfold y_cols_for_df. rewrite filter_In, existsb_exists. split.
  - intros (H1 & c' & H2 & H3). apply String.eqb_eq in H3. subst. auto.
  - intros (H1 & H2). split; [assumption|]. exists c.
    split; [assumption|apply String.eqb_refl].
Qed.

End VisualizerFacts.

(** X13.  [create_combined_plot] raises ([IndexError], at line 85) exactly
    when it is given fewer names than frames; which columns are asked for
    plays no part. *)
Theorem X13_plot_raises_iff_fewer_names_than_frames
    (dataframes : list (list string)) (dataframe_names y_cols : list string) :
  Visualizer.create_combined_plot dataframes dataframe_names y_cols = None
  <-> (List.length dataframe_names < List.length dataframes)%nat.
Proof.
  unfold Visualizer.create_combined_plot.
  destruct (Visualizer.plot_frames dataframe_names y_cols 0 dataframes ([], 0))
    as [st|] eqn:E.
  - split; [discriminate|]. intros H.
    apply (VisualizerFacts.plot_frames_raises dataframe_names y_cols 0
             dataframes ([], 0)) in H; [congruence|lia].
  - split; [|reflexivity]. intros _.
    apply VisualizerFacts.plot_frames_raises in E; lia.
Qed.

(** X14.  The legend of a plot lists, frame after frame in the order of
    the frames and column after column in the order of the frame's
    columns, the columns of the frame other than its first that are among
    [y_cols], each under the label "<name of the frame> - <column>".  So
    the first column of a frame is never drawn, and a label of [y_cols]
    that no frame has is ignored. *)
Theorem X14_plot_draws_the_listed_columns
    (dataframes : list (list string)) (dataframe_names y_cols : list string)
    (items : list Visualizer.Glyph) :
  Visualizer.create_combined_plot dataframes dataframe_names y_cols = Some items ->
  map Visualizer.glyph_label items
  = flat_map (fun nf => map (fun c => (fst nf ++ " - " ++ c)%string)
                            (Visualizer.y_cols_for_df (snd nf) y_cols))
             (combine dataframe_names dataframes) /\
  map Visualizer.glyph_y items
  = flat_map (fun df => Visualizer.y_cols_for_df df y_cols) dataframes /\
  forall df c, In c (Visualizer.y_cols_for_df df y_cols)
               <-> In c (tl df) /\ In c y_cols.
Proof.
  unfold Visualizer.create_combined_plot.
  destruct (Visualizer.plot_frames dataframe_names y_cols 0 dataframes ([], 0))
    as [st|] eqn:E; [|discriminate].
  intros [= <-].
  destruct (VisualizerFacts.plot_frames_labels _ _ _ _ _ E) as [H1 H2].
  split; [exact H1|]. split; [exact H2|].
  intros df c. apply VisualizerFacts.in_y_cols_for_df.
Qed.

(** The theorem at two frames, with a label that no frame has. *)
Lemma X14_plot_draws_the_listed_columns_witness :
  exists items,
    Visualizer.create_combined_plot [["x"; "y1"; "y2"]; ["x"; "y1"]]
      ["Data1"; "Data2"] ["y1"; "y_missing"] = Some items /\
    map Visualizer.glyph_label items = ["Data1 - y1"; "Data2 - y1"].
Proof.
  eexists. split; [vm_compute; reflexivity|].
  apply (X14_plot_draws_the_listed_columns [["x"; "y1"; "y2"]; ["x"; "y1"]]
           ["Data1"; "Data2"] ["y1"; "y_missing"]).
  vm_compute. reflexivity.
Defined.

(** X15.  The glyphs of a plot take the colours of the palette in turn,
    across the frames: the glyph of position [k] in the legend has the
    colour of index [k] modulo 20.  With at most 20 glyphs no two have the
    same colour. *)
Theorem X15_plot_colours_cycle
    (dataframes : list (list string)) (dataframe_names y_cols : list string)
    (items : list Visualizer.Glyph) :
  Visualizer.create_combined_plot dataframes dataframe_names y_cols = Some items ->
  map Visualizer.glyph_color items
  = map (fun k => k mod 20) (seq 0 (List.length items)) /\
  ((List.length items <= 20)%nat -> NoDup (map Visualizer.glyph_color items)).
Proof.
  unfold Visualizer.create_combined_plot.
  destruct (Visualizer.plot_frames dataframe_names y_cols 0 dataframes ([], 0))
    as [st|] eqn:E; [|discriminate].
  intros [= <-].
  assert (Hc : map Visualizer.glyph_color (fst st)
               = map (fun k => k mod 20) (seq 0 (List.length (fst st))))
    by (eapply VisualizerFacts.plot_frames_colors; [exact E| |]; reflexivity).
  split; [exact Hc|].
  intros Hlen. rewrite Hc.
  rewrite (map_ext_in (fun k => k mod 20) (fun k => k)).
  - rewrite map_id. apply seq_NoDup.
  - intros k Hk. apply in_seq in Hk. apply Nat.mod_small. lia.
Qed.

(** The theorem at the same two frames. *)
Lemma X15_plot_colours_cycle_witness :
  exists items,
    Visualizer.create_combined_plot [["x"; "y1"; "y2"]; ["x"; "y1"]]
      ["Data1"; "Data2"] ["y1"; "y2"] = Some items /\
    map Visualizer.glyph_color items = [0; 1; 2]%nat.
Proof.
  eexists. split; [vm_compute; reflexivity|].
  apply (X15_plot_colours_cycle [["x"; "y1"; "y2"]; ["x"; "y1"]]
           ["Data1"; "Data2"] ["y1"; "y2"]).
  vm_compute. reflexivity.
Defined.

Lemma filter_all {A} (f : A -> bool) l :
  (forall a, In a l -> f a = true) -> filter f l = l.
Proof.
  induction l as [|a l IH]; simpl; intros H; [reflexivity|].
  rewrite (H a) by now left. f_equal. apply IH. intros b Hb. apply H. now right.
Qed.

Lemma y_cols_for_df_all df_columns y_cols :
  incl (tl df_columns) y_cols ->
  Visualizer.y_cols_for_df df_columns y_cols = tl df_columns.
Proof.
  intros H. unfold Visualizer.y_cols_for_df. apply filter_all.
  intros c Hc. apply existsb_exists. exists c.
  split; [now apply H|apply String.eqb_refl].
Qed.

(** X16.  When the three tables load, the plot of the initial data is
    drawn without an exception and has one glyph for every column of the
    three tables other than [x]: the training columns, the column [y] of
    the test table and the ideal columns, in this order, each labelled with
    the name of its table. *)
Theorem X16_initial_plot_draws_every_column
    (w : World) (train_data ideal_data : DataFrame) (test_data : TestFrame) :
  _load_data empty (train_csv w) = Some train_data ->
  _load_data test_empty (test_csv w) = Some test_data ->
  _load_data empty (ideal_csv w) = Some ideal_data ->
  exists items,
    get_all_functions_visualized w = Some (Some items) /\
    map Visualizer.glyph_label items
    = map (fun c => ("Training Data - " ++ c)%string) (columns_from_1 train_data)
      ++ ["Test Data - y"]
      ++ map (fun c => ("Ideal Functions - " ++ c)%string)
             (columns_from_1 ideal_data).
Proof.
  intros Ht Hte Hi. unfold get_all_functions_visualized. rewrite Ht, Hte, Hi.
  set (y_cols := columns_from_1 train_data ++ ["y"] ++ columns_from_1 ideal_data).
  destruct (Visualizer.create_combined_plot
              [columns train_data; ["x"; "y"]; columns ideal_data]
              ["Training Data"; "Test Data"; "Ideal Functions"] y_cols)
    as [items|] eqn:E.
  - exists items. split; [reflexivity|].
    unfold Visualizer.create_combined_plot in E.
    destruct (Visualizer.plot_frames _ _ 0 _ _) as [st|] eqn:Ep; [|discriminate].
    injection E as <-.
    destruct (VisualizerFacts.plot_frames_labels _ _ _ _ _ Ep) as [H1 _].
    rewrite H1. cbn [map fst app combine flat_map snd].
    rewrite !y_cols_for_df_all.
    + cbn [tl columns map app]. now rewrite app_nil_r.
    + cbn [tl columns]. unfold y_cols. intros c Hc.
      apply in_or_app. right. apply in_or_app. now right.
    + cbn [tl]. unfold y_cols. intros c [<-|[]].
      apply in_or_app. right. now left.
    + cbn [tl columns]. unfold y_cols. intros c Hc. apply in_or_app. now left.
  - exfalso.
    unfold Visualizer.create_combined_plot in E.
    destruct (Visualizer.plot_frames _ _ 0 _ _) as [st|] eqn:Ep; [discriminate|].
    apply VisualizerFacts.plot_frames_raises in Ep; simpl in *; lia.
Qed.

(** The theorem at the tables of [Examples]. *)
Lemma X16_initial_plot_draws_every_column_witness :
  exists items,
    get_all_functions_visualized
      (Examples.world Examples.train_two Examples.ideal_pool
         (Some Examples.test_points)) = Some (Some items) /\
    map Visualizer.glyph_label items
    = map (fun c => ("Training Data - " ++ c)%string)
          (columns_from_1 Examples.train_two)
      ++ ["Test Data - y"]
      ++ map (fun c => ("Ideal Functions - " ++ c)%string)
             (columns_from_1 Examples.ideal_pool).
Proof.
  apply (X16_initial_plot_draws_every_column
           (Examples.world Examples.train_two Examples.ideal_pool
              (Some Examples.test_points))
           Examples.train_two Examples.ideal_pool Examples.test_points);
    reflexivity.
Defined.

(* ================================================================== *)
(** * Properties of the tables of a DataManager *)

Section DataManagerFacts.

Import DataManager.

Variable Frame : Type.

Lemma table_name_of_inj t t' : table_name_of t = table_name_of t' -> t = t'.
Proof. destruct t, t'; simpl; intros H; try reflexivity; discriminate. Qed.

(** X17.  [load_data] stores the frame it parsed in the table of its
    dataset type, where [read_data_from_table] finds it again, whether or
    not the frame has rows; the tables of the two other dataset types are
    left as they were; a call that raises leaves the whole database as it
    was. *)
Theorem X17_load_data_fills_its_own_table
    (file : DatasetType -> csv Frame) (writable : bool)
    (db : Database Frame) (t : DatasetType) :
  (forall df, snd (load_data file writable db t) = Ok df ->
     file t = Parsed df /\
     read_data_from_table (fst (load_data file writable db t)) (table_name_of t)
       = Ok df) /\
  (forall e, snd (load_data file writable db t) = Err e ->
     fst (load_data file writable db t) = db) /\
  (forall t', t' <> t ->
     read_data_from_table (fst (load_data file writable db t)) (table_name_of t')
     = read_data_from_table db (table_name_of t')).
Proof.
  unfold load_data, read_data_from_table.
  destruct (file t) as [| |df]; simpl.
  1, 2: repeat split; try discriminate; reflexivity.
  destruct writable; simpl.
  - repeat split.
    + now injection H as <-.
    + injection H as <-. now rewrite PyDictFacts.get_set_same.
    + discriminate.
    + intros t' Hne. rewrite PyDictFacts.get_set_other; [reflexivity|].
      intros Heq. apply Hne. symmetry. now apply table_name_of_inj.
  - repeat split; try discriminate; reflexivity.
Qed.


(** X19.  The manager's [_load_data] returns a frame exactly when
    [load_data] returns one that has a row.  It raises [FileNotFoundError]
    exactly when the file is missing, and a plain [Exception] in every
    other case of failure.  For a file without rows the exception comes
    after [load_data] has replaced the table by the empty frame. *)
Theorem X19_load_data_of_the_manager
    (is_empty : Frame -> bool) (file : DatasetType -> csv Frame)
    (writable : bool) (db : Database Frame) (t : DatasetType) :
  let loaded := match snd (load_data file writable db t) with
                | Ok df => Some df
                | Err _ => None
                end in
  let r := snd (_load_data_raising is_empty file writable db t) in
  let db' := fst (_load_data_raising is_empty file writable db t) in
  (forall df, r = Ok df <-> _load_data is_empty loaded = Some df) /\
  (r = Err FileNotFoundError <-> file t = Missing) /\
  (forall e, r = Err e -> e = FileNotFoundError \/ e = PlainException) /\
  (forall df, file t = Parsed df -> writable = true -> is_empty df = true ->
     r = Err PlainException /\
     read_data_from_table db' (table_name_of t) = Ok df).
Proof.
  unfold _load_data_raising, load_data, _load_data, read_data_from_table.
  destruct (file t) as [| |df] eqn:Ef; simpl.
  - split; [intros df; split; discriminate|].
    split; [split; reflexivity|].
    split; [intros e H; injection H as <-; now left|].
    intros df H; discriminate.
  - split; [intros df; split; discriminate|].
    split; [split; discriminate|].
    split; [intros e H; injection H as <-; now right|].
    intros df H; discriminate.
  - destruct writable; simpl.
    + destruct (is_empty df) eqn:Ee; simpl.
      * split; [intros df0; split; discriminate|].
        split; [split; discriminate|].
        split; [intros e H; injection H as <-; now right|].
        intros df0 H _ _. injection H as <-.
        split; [reflexivity|].
        rewrite PyDictFacts.get_set_same. reflexivity.
      * split.
        { intros df0; split; intros H; injection H as <-; reflexivity. }
        split; [split; discriminate|].
        split; [intros e H; discriminate|].
        intros df0 H _ H'. injection H as <-. congruence.
    + split; [intros df0; split; discriminate|].
      split; [split; discriminate|].
      split; [intros e H; injection H as <-; now right|].
      intros df0 _ H; discriminate.
Qed.

End DataManagerFacts.

(* ================================================================== *)
(** * The endpoints *)

(** No sequence of operations stores a table without rows. *)
Lemma stored_table_not_empty (self : Manager) :
  Reachable self -> results_db self <> Some [].
Proof.
  induction 1 as [|reg w self Hr IH|reg w self Hr IH].
  - discriminate.
  - destruct (_load_data empty (train_csv w)) as [train|] eqn:Ht;
      [destruct (_load_data empty (ideal_csv w)) as [ideal|] eqn:Hi|].
    + destruct (get_ideal_functions_state reg w self train ideal Ht Hi)
        as (_ & _ & Hd).
      rewrite Hd. exact IH.
    + rewrite get_ideal_functions_not_loaded by auto. exact IH.
    + rewrite get_ideal_functions_not_loaded by auto. exact IH.
  - destruct (map_frame reg w self) as (_ & _ & _ & Hres).
    cbv zeta in Hres.
    destruct Hres as [->|(r & rs & ->)]; [assumption|discriminate].
Qed.

(** The column of the ideal table under the chosen name is missing only
    when no name was chosen. *)
Lemma chosen_column_missing (reg : Regressor) (train ideal : DataFrame)
    (t : string) :
  getitem_opt ideal (choice_of reg train ideal (df_x train) t) = None
  <-> choice_of reg train ideal (df_x train) t = None.
Proof.
  split; [|now intros ->].
  destruct (choice_of reg train ideal (df_x train) t) as [i|] eqn:E;
    [|reflexivity].
  destruct (chosen_column_exists reg train ideal (df_x train) t i E)
    as (_ & yi & Hyi).
  simpl. rewrite Hyi. discriminate.
Qed.

(** X20.  The endpoint [POST /v1/ideal-functions/select].  When a table
    fails to load it answers 200 with the selection the manager held before
    the request and leaves the manager as it was.  When both tables load
    (training columns with distinct labels) the manager holds, whatever the
    answer, one entry per training column with the chosen ideal column;
    the answer is 500 exactly when the table has a training column and no
    ideal column was chosen for any of them, and 200 with that selection
    otherwise. *)
Theorem X20_select_endpoint
    (reg : Regressor) (w : World) (manager : Manager) :
  let r := API.select_ideal_functions reg w manager in
  (_load_data empty (train_csv w) = None \/
   _load_data empty (ideal_csv w) = None ->
   r = (manager, API.OK_200 (ideal_functions_selection manager))) /\
  (forall train ideal,
     _load_data empty (train_csv w) = Some train ->
     _load_data empty (ideal_csv w) = Some ideal ->
     NoDup (columns_from_1 train) ->
     let selection :=
       map (fun t => (t, choice_of reg train ideal (df_x train) t))
           (columns_from_1 train) in
     ideal_functions_selection (fst r) = selection /\
     (snd r = API.Error_500
      <-> columns_from_1 train <> [] /\
          forall t, In t (columns_from_1 train) ->
                    choice_of reg train ideal (df_x train) t = None) /\
     (snd r = API.Error_500 \/ snd r = API.OK_200 selection)).
Proof.
  intros r. unfold r, API.select_ideal_functions. split.
  - intros Hload. rewrite get_ideal_functions_not_loaded by assumption.
    reflexivity.
  - intros train ideal Ht Hi Hnd.
    rewrite (frame_of_selected_functions reg w manager train ideal Ht Hi Hnd).
    cbv zeta.
    destruct (of_dict _) as [frame|] eqn:E; cbn [fst snd ideal_functions_selection].
    + split; [reflexivity|]. split; [|now right].
      split; [discriminate|]. intros [Hne Hall].
      assert (Hn : of_dict
                (map (fun t => (t, getitem_opt ideal
                                     (choice_of reg train ideal (df_x train) t)))
                     (columns_from_1 train)) = None).
      { apply of_dict_map_None. split; [assumption|].
        intros t Hin. apply chosen_column_missing. now apply Hall. }
      congruence.
    + split; [reflexivity|]. split; [|now left].
      split; [|reflexivity]. intros _.
      apply of_dict_map_None in E. destruct E as [Hne Hall].
      split; [assumption|].
      intros t Hin. apply chosen_column_missing. now apply Hall.
Qed.

(** X21.  The endpoint [POST /v1/test-data/map], for a manager that went
    through any sequence of operations.  A 200 answer counts the rows of
    the table the database holds after the call, and that count is at
    least one.  When the call maps an observation and the write succeeds,
    the count is the number of observations mapped by this call.  When it
    maps none, or the write fails, the manager is left as it was and the
    answer is 200 with the count of the table stored earlier, if there is
    one and the call did not raise, and 500 otherwise. *)
Theorem X21_map_endpoint_counts_the_stored_table
    (reg : Regressor) (w : World) (manager : Manager) :
  Reachable manager ->
  let run := map_test_data_to_ideal_functions reg w manager in
  let r := API.map_test_data reg w manager in
  (forall n, snd r = API.OK_200 n ->
     (1 <= n)%nat /\ how run = Returned /\
     exists table, results_db (fst r) = Some table /\ n = List.length table) /\
  (mapped run <> [] -> results_writable w = true ->
   snd r = API.OK_200 (List.length (mapped run))) /\
  (mapped run = [] \/ results_writable w = false ->
   fst r = manager /\
   snd r = match how run, results_db manager with
           | Returned, Some old => API.OK_200 (List.length old)
           | _, _ => API.Error_500
           end) /\
  (snd r = API.Error_500
   <-> how run = Raised KeyError \/ results_db (fst r) = None).
Proof.
  intros Hr run r.
  pose proof (stored_table_not_empty manager Hr) as Hne.
  assert (Hpos : forall (old : list StoredRow) n,
            results_db manager = Some old -> n = List.length old -> (1 <= n)%nat).
  { intros [|row old] n Hold ->; [contradiction|simpl; lia]. }
  unfold r, run, API.map_test_data, map_test_data_to_ideal_functions.
  destruct (_load_data test_empty (test_csv w)) as [td|];
    [destruct (_load_data empty (ideal_csv w)) as [idl|];
     [destruct (classify reg manager idl td) as [[|m ms]|]|]|];
    cbn [manager_after how mapped persist fst snd].
  - (* nothing mapped *)
    destruct (results_db manager) as [old|] eqn:Eold; cbn [fst snd].
    + split.
      { intros n [= <-]. split; [now apply (Hpos old)|].
        split; [reflexivity|]. exists old. rewrite Eold. auto. }
      split; [intros H; now contradiction H|].
      split; [auto|].
      split; [discriminate|]. intros [H|H]; [discriminate|congruence].
    + split; [discriminate|].
      split; [intros H; now contradiction H|].
      split; [auto|].
      split; [|reflexivity]. intros _. right. assumption.
  - (* at least one observation mapped *)
    unfold _store_results, save_data.
    destruct (results_writable w); cbn [manager_after how mapped fst snd results_db].
    + split.
      { intros n [= <-]. split; [simpl; lia|]. split; [reflexivity|].
        eexists. split; reflexivity. }
      split; [intros _ _; now rewrite length_map|].
      split; [intros [H|H]; discriminate|].
      split; [discriminate|]. intros [H|H]; discriminate.
    + destruct (results_db manager) as [old|] eqn:Eold; cbn [fst snd].
      * split.
        { intros n [= <-]. split; [now apply (Hpos old)|].
          split; [reflexivity|]. exists old. rewrite Eold. auto. }
        split; [discriminate|].
        split; [auto|].
        split; [discriminate|]. intros [H|H]; [discriminate|congruence].
      * split; [discriminate|].
        split; [discriminate|].
        split; [auto|].
        split; [|reflexivity]. intros _. right. assumption.
  - (* KeyError *)
    split; [discriminate|].
    split; [intros H; now contradiction H|].
    split; [auto|].
    split; [|reflexivity]. intros _. now left.
  - destruct (results_db manager) as [old|] eqn:Eold; cbn [fst snd].
    + split.
      { intros n [= <-]. split; [now apply (Hpos old)|].
        split; [reflexivity|]. exists old. rewrite Eold. auto. }
      split; [intros H; now contradiction H|].
      split; [auto|].
      split; [discriminate|]. intros [H|H]; [discriminate|congruence].
    + split; [discriminate|].
      split; [intros H; now contradiction H|].
      split; [auto|].
      split; [|reflexivity]. intros _. right. assumption.
  - destruct (results_db manager) as [old|] eqn:Eold; cbn [fst snd].
    + split.
      { intros n [= <-]. split; [now apply (Hpos old)|].
        split; [reflexivity|]. exists old. rewrite Eold. auto. }
      split; [intros H; now contradiction H|].
      split; [auto|].
      split; [discriminate|]. intros [H|H]; [discriminate|congruence].
    + split; [discriminate|].
      split; [intros H; now contradiction H|].
      split; [auto|].
      split; [|reflexivity]. intros _. right. assumption.
Qed.

(** The theorem of the map endpoint at a manager that has selected once. *)
Lemma X21_map_endpoint_counts_the_stored_table_witness :
  let w := Examples.world Examples.train_two Examples.ideal_pool
             (Some Examples.test_points) in
  let run := map_test_data_to_ideal_functions Reference.ols w Examples.selected in
  let r := API.map_test_data Reference.ols w Examples.selected in
  (forall n, snd r = API.OK_200 n ->
     (1 <= n)%nat /\ how run = Returned /\
     exists table, results_db (fst r) = Some table /\ n = List.length table) /\
  (mapped run <> [] -> results_writable w = true ->
   snd r = API.OK_200 (List.length (mapped run))) /\
  (mapped run = [] \/ results_writable w = false ->
   fst r = Examples.selected /\
   snd r = match how run, results_db Examples.selected with
           | Returned, Some old => API.OK_200 (List.length old)
           | _, _ => API.Error_500
           end) /\
  (snd r = API.Error_500
   <-> how run = Raised KeyError \/ results_db (fst r) = None).
Proof.
  apply (X21_map_endpoint_counts_the_stored_table Reference.ols
           (Examples.world Examples.train_two Examples.ideal_pool
              (Some Examples.test_points))
           Examples.selected).
  exact (reach_select Reference.ols
           (Examples.world Examples.train_two Examples.ideal_pool
              (Some Examples.test_points)) init reach_init).
Defined.

(* ================================================================== *)
(** * The sum of squared deviations *)

(** X22.  The sum of squared deviations that [_calculate_squared_deviation]
    returns is a number and is not below zero, for every regressor and
    every column: a training value or a prediction that is NaN or infinite
    does not make it negative or NaN. *)
Theorem X22_sum_of_squared_deviations_not_negative
    (reg : Regressor) (train_y ideal_func_y x : Series) (d : float) :
  _calculate_squared_deviation reg train_y ideal_func_y x = Some d ->
  (0 <=? d)%float = true /\ is_nan d = false.
Proof.
  unfold _calculate_squared_deviation.
  destruct (fit reg x ideal_func_y) as [m|]; [|discriminate].
  destruct (predict reg m x) as [p|]; [|discriminate].
  destruct (sub train_y p) as [diff|]; [|discriminate].
  intros [= <-].
  pose proof (sum_of_squares_nonneg diff) as H.
  split; [exact H|]. exact (leb_is_nan_r _ _ H).
Qed.

(** The theorem at a grid of eight points, a training column whose first
    value is 1e8 and an ideal column that is zero everywhere: the squares
    1e16, 1, ..., 1 add up to 1e16 + 6. *)
Lemma X22_sum_of_squared_deviations_not_negative_witness :
  (0 <=? 10000000000000006)%float = true /\
  is_nan 10000000000000006%float = false.
Proof.
  apply (X22_sum_of_squared_deviations_not_negative Reference.ols
           [1e8; 1; 1; 1; 1; 1; 1; 1]%float
           [0; 0; 0; 0; 0; 0; 0; 0]%float
           [1; 2; 3; 4; 5; 6; 7; 8]%float
           10000000000000006%float).
  vm_compute. reflexivity.
Defined.

(* ================================================================== *)
(** * The claims of the specification *)

(** C1 (as amended).  The quantity compared for a training column and an
    ideal column is the sum, as [Series.sum] adds it, of the squares of the
    differences between the training column and the values predicted, at
    the [x] column of the training table, by the line fitted to the ideal
    column over that [x] column.  For every training column, the name
    stored in the selection is that of the first ideal column, in the order
    of the table's columns, whose sum is minimal among the ideal columns
    whose fit succeeded, when that minimum is below infinity: no column has
    a smaller sum, and every column met before it has a strictly greater
    one.  No name is stored when every sum of a successful fit is
    [+inf]. *)
Theorem C1_selection_is_first_minimum
    (reg : Regressor) (w : World) (self : Manager)
    (train ideal : DataFrame) (t : string) :
  _load_data empty (train_csv w) = Some train ->
  _load_data empty (ideal_csv w) = Some ideal ->
  In t (columns_from_1 train) ->
  (forall j d,
     deviation reg train ideal (df_x train) t j = Some d
     <->
     exists train_y ideal_y m predicted diff,
       getitem train t = Some train_y /\
       getitem ideal j = Some ideal_y /\
       fit reg (df_x train) ideal_y = Some m /\
       predict reg m (df_x train) = Some predicted /\
       sub train_y predicted = Some diff /\
       d = Pandas.sum (pow2 diff)) /\
  exists choice,
    PyDict.get (ideal_functions_selection (fst (get_ideal_functions reg w self))) t
      = Some choice /\
    match choice with
    | Some i =>
        exists pre post d,
          columns_from_1 ideal = pre ++ i :: post /\
          deviation reg train ideal (df_x train) t i = Some d /\
          (d <? infinity)%float = true /\
          (forall j d', In j pre ->
             deviation reg train ideal (df_x train) t j = Some d' ->
             (d <? d')%float = true) /\
          (forall j d', In j post ->
             deviation reg train ideal (df_x train) t j = Some d' ->
             (d <=? d')%float = true)
    | None =>
        forall j d, In j (columns_from_1 ideal) ->
          deviation reg train ideal (df_x train) t j = Some d ->
          d = infinity
    end.
Proof.
  intros Ht Hi Hin. split.
  - intros j d. apply deviation_spelled_out.
  - destruct (get_ideal_functions_state reg w self train ideal Ht Hi)
      as (Hsel & _ & _).
    exists (choice_of reg train ideal (df_x train) t). split.
    + rewrite Hsel. now apply PyDictFacts.get_store_all_in.
    + unfold choice_of.
      pose proof (best_match_spec reg train ideal (df_x train) t) as H.
      destruct (best_ideal_func_name (best_match reg train ideal (df_x train) t))
        as [i|].
      * destruct H as (pre & post & d & Hc & Hd & Hlt & _ & Hpre & Hpost).
        pose proof (deviation_is_number reg train ideal (df_x train) t i d Hd)
          as Hnum.
        exists pre, post, d.
        split; [exact Hc|]. split; [exact Hd|]. split; [exact Hlt|]. split.
        -- intros j d' Hj Hd'. apply leb_false_ltb; [|exact Hnum|eauto].
           eapply deviation_is_number; eassumption.
        -- intros j d' Hj Hd'. apply ltb_false_leb; [|exact Hnum|eauto].
           eapply deviation_is_number; eassumption.
      * intros j d Hj Hd. apply not_below_infinity; [|eauto].
        eapply deviation_is_number; eassumption.
Qed.

(** The theorem at the tables of [Examples], for the column [train_y1]. *)
Lemma C1_selection_is_first_minimum_witness :
  (forall j d,
     deviation Reference.ols Examples.train_two Examples.ideal_pool
       (df_x Examples.train_two) "train_y1" j = Some d
     <->
     exists train_y ideal_y m predicted diff,
       getitem Examples.train_two "train_y1" = Some train_y /\
       getitem Examples.ideal_pool j = Some ideal_y /\
       fit Reference.ols (df_x Examples.train_two) ideal_y = Some m /\
       predict Reference.ols m (df_x Examples.train_two) = Some predicted /\
       sub train_y predicted = Some diff /\
       d = Pandas.sum (pow2 diff)) /\
  exists choice,
    PyDict.get (ideal_functions_selection Examples.selected) "train_y1"
      = Some choice /\
    match choice with
    | Some i =>
        exists pre post d,
          columns_from_1 Examples.ideal_pool = pre ++ i :: post /\
          deviation Reference.ols Examples.train_two Examples.ideal_pool
            (df_x Examples.train_two) "train_y1" i = Some d /\
          (d <? infinity)%float = true /\
          (forall j d', In j pre ->
             deviation Reference.ols Examples.train_two Examples.ideal_pool
               (df_x Examples.train_two) "train_y1" j = Some d' ->
             (d <? d')%float = true) /\
          (forall j d', In j post ->
             deviation Reference.ols Examples.train_two Examples.ideal_pool
               (df_x Examples.train_two) "train_y1" j = Some d' ->
             (d <=? d')%float = true)
    | None =>
        forall j d, In j (columns_from_1 Examples.ideal_pool) ->
          deviation Reference.ols Examples.train_two Examples.ideal_pool
            (df_x Examples.train_two) "train_y1" j = Some d ->
          d = infinity
    end.
Proof.
  apply (C1_selection_is_first_minimum Reference.ols
           (Examples.world Examples.train_two Examples.ideal_pool
              (Some Examples.test_points))
           init Examples.train_two Examples.ideal_pool "train_y1").
  - reflexivity.
  - reflexivity.
  - simpl. auto.
Defined.

(** Every fit against [train_y2] of [train_overflow] succeeds, with a sum
    of squared deviations of [+inf]; the minimum over the columns whose
    fit succeeded is [+inf], and no column is chosen. *)
Lemma C1_infinite_sums_choose_nothing :
  (forall i, In i (columns_from_1 Examples.ideal_pool) ->
     deviation Reference.ols Examples.train_overflow Examples.ideal_pool
       (df_x Examples.train_overflow) "train_y2" i = Some infinity) /\
  PyDict.get
    (ideal_functions_selection
       (fst (get_ideal_functions Reference.ols
               (Examples.world Examples.train_overflow Examples.ideal_pool None)
               init)))
    "train_y2" = Some None.
Proof.
  split.
  - intros i [<-|[<-|[<-|[]]]]; vm_compute; reflexivity.
  - vm_compute. reflexivity.
Qed.

(** [ideal_y2] and [ideal_y3] fit [train_y1] equally well; the first one is
    selected. *)
Example selection_prefers_first_of_equal_columns :
  ideal_functions_selection Examples.selected
  = [("train_y1", Some "ideal_y2"); ("train_y2", Some "ideal_y1")].
Proof. vm_compute. reflexivity. Qed.


(** Scenario B: with a maximal deviation of 1, a test point at distance
    [2**0.5] from the fitted line is mapped and one at distance 1.5 is
    not. *)
Example boundary_is_accepted :
  classify Reference.ols Examples.bounded_by_one Examples.ideal_flat
    [(2, SQRT2); (2, 1.5)]%float
  = Some [ {| rec_x := 2; rec_y := SQRT2; rec_delta_y := SQRT2;
              rec_ideal_func := "ideal_y1";
              rec_training_data_column := "train_y1" |} ].
Proof. vm_compute. reflexivity. Qed.

(** C3 (as amended).  After a selection that loaded its tables, the
    selection holds exactly one entry per training column, whether or not a
    fit succeeded for it, and every training column has a maximal
    deviation.  A training column for which every fit fails is present in
    both: its entry in the selection names no ideal column and its maximal
    deviation is NaN. *)
Theorem C3_one_entry_per_training_column
    (reg : Regressor) (w : World) (self : Manager) (train ideal : DataFrame) :
  _load_data empty (train_csv w) = Some train ->
  _load_data empty (ideal_csv w) = Some ideal ->
  let self' := fst (get_ideal_functions reg w self) in
  NoDup (PyDict.keys (ideal_functions_selection self')) /\
  (forall t, In t (PyDict.keys (ideal_functions_selection self'))
             <-> In t (columns_from_1 train)) /\
  (forall t, In t (columns_from_1 train) ->
             In t (PyDict.keys (training_data_max_deviations self'))) /\
  (forall t, In t (columns_from_1 train) ->
     (forall i, In i (columns_from_1 ideal) ->
                deviation reg train ideal (df_x train) t i = None) ->
     PyDict.get (ideal_functions_selection self') t = Some None /\
     exists b, PyDict.get (training_data_max_deviations self') t = Some b /\
               is_nan b = true).
Proof.
  intros Ht Hi self'.
  destruct (get_ideal_functions_state reg w self train ideal Ht Hi)
    as (Hsel & Hdev & _).
  fold self' in Hsel, Hdev. rewrite Hsel, Hdev. repeat apply conj.
  - apply PyDictFacts.NoDup_keys_store_all. constructor.
  - intros t. rewrite PyDictFacts.in_keys_store_all. simpl. tauto.
  - intros t Hin. apply PyDictFacts.in_keys_store_all. now left.
  - intros t Hin Hnone.
    pose proof (choice_of_no_fit reg train ideal (df_x train) t Hnone) as Hc.
    rewrite !PyDictFacts.get_store_all_in by assumption.
    rewrite Hc. split; [reflexivity|].
    exists nan. split; [|reflexivity].
    now rewrite (bound_of_no_choice reg train ideal (df_x train) t Hc).
Qed.

(** The theorem at a table whose only training column has no fit. *)
Lemma C3_one_entry_per_training_column_witness :
  let self' := fst (get_ideal_functions Reference.ols
                      (Examples.world Examples.train_one
                         Examples.ideal_missing_cells None) init) in
  NoDup (PyDict.keys (ideal_functions_selection self')) /\
  (forall t, In t (PyDict.keys (ideal_functions_selection self'))
             <-> In t (columns_from_1 Examples.train_one)) /\
  (forall t, In t (columns_from_1 Examples.train_one) ->
             In t (PyDict.keys (training_data_max_deviations self'))) /\
  (forall t, In t (columns_from_1 Examples.train_one) ->
     (forall i, In i (columns_from_1 Examples.ideal_missing_cells) ->
                deviation Reference.ols Examples.train_one
                  Examples.ideal_missing_cells
                  (df_x Examples.train_one) t i = None) ->
     PyDict.get (ideal_functions_selection self') t = Some None /\
     exists b, PyDict.get (training_data_max_deviations self') t = Some b /\
               is_nan b = true).
Proof.
  apply (C3_one_entry_per_training_column Reference.ols
           (Examples.world Examples.train_one Examples.ideal_missing_cells None)
           init Examples.train_one Examples.ideal_missing_cells);
    reflexivity.
Defined.

(** Every fit fails for the only training column, and the column is present
    in the selection and among the maximal deviations. *)
Lemma C3_failed_column_is_present :
  let self' := fst (get_ideal_functions Reference.ols
                      (Examples.world Examples.train_one
                         Examples.ideal_missing_cells None) init) in
  (forall i, In i (columns_from_1 Examples.ideal_missing_cells) ->
             deviation Reference.ols Examples.train_one
               Examples.ideal_missing_cells
               (df_x Examples.train_one) "train_y1" i = None) /\
  In "train_y1" (PyDict.keys (ideal_functions_selection self')) /\
  In "train_y1" (PyDict.keys (training_data_max_deviations self')).
Proof.
  split.
  - intros i [<-|[<-|[]]]; vm_compute; reflexivity.
  - split; vm_compute; auto.
Qed.

(** The map operation called after such a selection: line 228 looks the
    name [None] up in the ideal table and [KeyError] leaves the call. *)
Example map_after_failed_selection_raises :
  how (map_test_data_to_ideal_functions Reference.ols
         (Examples.world Examples.train_one Examples.ideal_missing_cells
            (Some Examples.test_points))
         (fst (get_ideal_functions Reference.ols
                 (Examples.world Examples.train_one
                    Examples.ideal_missing_cells None) init)))
  = Raised KeyError.
Proof. vm_compute. reflexivity. Qed.




(** At that table the call returns, with NaN for [train_y2] and the
    maximal deviation of [train_y1] stored as usual. *)
Example selection_goes_on_after_failed_refit :
  let w := Examples.world Examples.train_overflow Examples.ideal_pool None in
  snd (get_ideal_functions Reference.ols w init) = Returned /\
  ideal_functions_selection (fst (get_ideal_functions Reference.ols w init))
  = [("train_y1", Some "ideal_y2"); ("train_y2", None)] /\
  PyDict.get (training_data_max_deviations
                (fst (get_ideal_functions Reference.ols w init))) "train_y1"
  = Some 0%float.
Proof. vm_compute. auto. Qed.

(** The map operation has no test on the selection.  Called while the
    selection is empty, it loads its tables, visits every test row, maps
    nothing and ends as any call that maps nothing does: the write fails on
    the frame without columns, and the last record logged is
    "No test points could be mapped to ideal functions.".  The outcome is
    the same with every regressor. *)
Lemma map_with_empty_selection
    (reg : Regressor) (w : World) (self : Manager) :
  ideal_functions_selection self = [] ->
  let run := map_test_data_to_ideal_functions reg w self in
  how run = Returned /\
  mapped run = [] /\
  manager_after run = self /\
  (forall reg', map_test_data_to_ideal_functions reg' w self = run) /\
  (forall test_data ideal_data,
     _load_data test_empty (test_csv w) = Some test_data ->
     _load_data empty (ideal_csv w) = Some ideal_data ->
     log run = [(WARNING, "Error saving test data mapping results");
                (INFO, "test points mapped to ideal functions.");
                (ERROR, "No test points could be mapped to ideal functions.")]).
Proof.
  intros Hsel.
  assert (Hrun : forall r,
            map_test_data_to_ideal_functions r w self
            = match _load_data test_empty (test_csv w),
                    _load_data empty (ideal_csv w) with
              | Some _, Some _ =>
                  {| manager_after := self; how := Returned; mapped := [];
                     log := [(WARNING, "Error saving test data mapping results");
                             (INFO, "test points mapped to ideal functions.");
                             (ERROR, "No test points could be mapped to ideal functions.")] |}
              | _, _ =>
                  {| manager_after := self; how := Returned; mapped := [];
                     log := [(ERROR, "Data loading failed in map_test_data_to_ideal_functions")] |}
              end).
  { intros r. unfold map_test_data_to_ideal_functions.
    destruct (_load_data test_empty (test_csv w)) as [test_data|]; [|reflexivity].
    destruct (_load_data empty (ideal_csv w)) as [ideal_data|]; [|reflexivity].
    now rewrite classify_empty_selection. }
  intros run. unfold run. rewrite Hrun.
  repeat apply conj.
  - now destruct (_load_data test_empty (test_csv w)), (_load_data empty (ideal_csv w)).
  - now destruct (_load_data test_empty (test_csv w)), (_load_data empty (ideal_csv w)).
  - now destruct (_load_data test_empty (test_csv w)), (_load_data empty (ideal_csv w)).
  - intros reg'. apply Hrun.
  - intros test_data ideal_data -> ->. reflexivity.
Qed.


(** C6, at two consecutive selections, the first over the training columns
    [train_y1] and [train_y2], the second over [train_y1] alone: after the
    second call the selection has no entry for [train_y2], but the maximal
    deviation that the first call stored for [train_y2] is still there. *)
Theorem C6_stale_max_deviation_survives :
  let first := fst (get_ideal_functions Reference.ols
                      (Examples.world Examples.train_two Examples.ideal_pool None)
                      init) in
  let second := fst (get_ideal_functions Reference.ols
                       (Examples.world Examples.train_one Examples.ideal_pool None)
                       first) in
  PyDict.get (training_data_max_deviations first) "train_y2" = Some 0.5%float /\
  PyDict.get (ideal_functions_selection second) "train_y2" = None /\
  PyDict.get (training_data_max_deviations second) "train_y2" = Some 0.5%float.
Proof. vm_compute. auto. Qed.

(** C7 (as amended).  Presenting the columns of the ideal table in another
    order changes no sum of squared deviations and leaves, for every
    training column, the minimal sum as it was: the columns selected in the
    two orders have equal sums, and no column is selected in one order
    exactly when none is in the other.  In the presented order the column
    selected is the first one whose sum is minimal: every column before it
    has a strictly greater sum, no column after it a smaller one.  The
    selection itself is the same whenever, for every training column, the
    selected column is strictly below every other column of the table. *)
Theorem C7_shuffle_keeps_minimum
    (reg : Regressor) (w w' : World) (self : Manager)
    (train ideal ideal' : DataFrame) :
  _load_data empty (train_csv w) = Some train ->
  _load_data empty (train_csv w') = Some train ->
  _load_data empty (ideal_csv w) = Some ideal ->
  _load_data empty (ideal_csv w') = Some ideal' ->
  df_x ideal' = df_x ideal ->
  NoDup (columns_from_1 ideal) ->
  Permutation (df_cols ideal) (df_cols ideal') ->
  let sel := ideal_functions_selection (fst (get_ideal_functions reg w self)) in
  let sel' := ideal_functions_selection (fst (get_ideal_functions reg w' self)) in
  (forall t j,
     deviation reg train ideal' (df_x train) t j
     = deviation reg train ideal (df_x train) t j) /\
  (forall t, In t (columns_from_1 train) ->
     match PyDict.get sel t, PyDict.get sel' t with
     | Some (Some i), Some (Some i') =>
         exists d d' pre' post',
           deviation reg train ideal (df_x train) t i = Some d /\
           deviation reg train ideal (df_x train) t i' = Some d' /\
           (d =? d')%float = true /\
           columns_from_1 ideal' = pre' ++ i' :: post' /\
           (forall j dj, In j pre' ->
              deviation reg train ideal (df_x train) t j = Some dj ->
              (d' <? dj)%float = true) /\
           (forall j dj, In j post' ->
              deviation reg train ideal (df_x train) t j = Some dj ->
              (d' <=? dj)%float = true)
     | Some None, Some None => True
     | _, _ => False
     end) /\
  ((forall t i d, In t (columns_from_1 train) ->
      PyDict.get sel t = Some (Some i) ->
      deviation reg train ideal (df_x train) t i = Some d ->
      forall j d', In j (columns_from_1 ideal) -> j <> i ->
        deviation reg train ideal (df_x train) t j = Some d' ->
        (d <? d')%float = true) ->
   sel' = sel).
Proof.
  intros Ht Ht' Hi Hi' Hx Hnd Hp sel sel'.
  destruct (get_ideal_functions_state reg w self train ideal Ht Hi)
    as (Hsel & _ & _).
  destruct (get_ideal_functions_state reg w' self train ideal' Ht' Hi')
    as (Hsel' & _ & _).
  fold sel in Hsel. fold sel' in Hsel'.
  assert (Hnames : Permutation (columns_from_1 ideal) (columns_from_1 ideal'))
    by (unfold columns_from_1; now apply Permutation_map).
  assert (Hboth : forall t,
            match choice_of reg train ideal (df_x train) t,
                  choice_of reg train ideal' (df_x train) t with
            | None, None => True
            | Some i, Some i' =>
              (exists d d' pre' post',
                 deviation reg train ideal (df_x train) t i = Some d /\
                 deviation reg train ideal (df_x train) t i' = Some d' /\
                 (d =? d')%float = true /\
                 columns_from_1 ideal' = pre' ++ i' :: post' /\
                 (forall j dj, In j pre' ->
                    deviation reg train ideal (df_x train) t j = Some dj ->
                    (d' <? dj)%float = true) /\
                 (forall j dj, In j post' ->
                    deviation reg train ideal (df_x train) t j = Some dj ->
                    (d' <=? dj)%float = true)) /\
              ((forall d, deviation reg train ideal (df_x train) t i = Some d ->
                  forall j d', In j (columns_from_1 ideal) -> j <> i ->
                  deviation reg train ideal (df_x train) t j = Some d' ->
                  (d <? d')%float = true) -> i' = i)
            | _, _ => False
            end).
  { intros t. unfold choice_of.
    rewrite (best_match_shuffled reg train ideal ideal' (df_x train) t Hx Hnd Hp).
    pose proof (best_match_Permutation reg train ideal (df_x train) t
                  (columns_from_1 ideal) (columns_from_1 ideal') Hnames) as H.
    pose proof (consider_fold_cases reg train ideal (df_x train) t
                  (columns_from_1 ideal') no_best) as Hc'.
    cbv zeta in H, Hc'. unfold best_match.
    destruct (best_ideal_func_name
                (fold_left (consider reg train ideal (df_x train) t)
                   (columns_from_1 ideal) no_best)) as [i|] eqn:E;
    destruct (best_ideal_func_name
                (fold_left (consider reg train ideal (df_x train) t)
                   (columns_from_1 ideal') no_best)) as [i'|] eqn:E'; auto.
    destruct H as (H1 & H2 & H3 & H4 & H5). split.
    - destruct Hc' as [[Hr _]
                      |(pre' & i0 & post' & d0 & Hcols & Hd0 & _ & Hr & Hpre & Hpost)];
        rewrite Hr in E'; [discriminate|].
      cbn [best_ideal_func_name] in E'. injection E' as ->.
      rewrite Hr in H1, H2. cbn [min_sum_squared_deviation] in H1, H2.
      pose proof (deviation_is_number reg train ideal (df_x train) t _ _ H3) as N.
      pose proof (deviation_is_number reg train ideal (df_x train) t _ _ Hd0) as N0.
      eexists _, d0, pre', post'.
      split; [exact H3|]. split; [exact Hd0|].
      split; [now apply not_ltb_eqb|]. split; [exact Hcols|]. split.
      + intros j dj Hj Hdj. apply leb_false_ltb; [|exact N0|eauto].
        eapply deviation_is_number; eassumption.
      + intros j dj Hj Hdj. apply ltb_false_leb; [|exact N0|eauto].
        eapply deviation_is_number; eassumption.
    - intros Huniq.
      assert (Hr : fold_left (consider reg train ideal (df_x train) t)
                     (columns_from_1 ideal') no_best
                   = fold_left (consider reg train ideal (df_x train) t)
                       (columns_from_1 ideal) no_best).
      { apply H5. intros j d' Hj Hne Hd'.
        eapply (Huniq _ H3); eassumption. }
      rewrite Hr, E in E'. now injection E'. }
  split.
  { intros t j. unfold deviation.
    now rewrite (getitem_Permutation ideal ideal' j Hx Hnd Hp). }
  split.
  - intros t Hin. rewrite Hsel, Hsel'.
    rewrite !PyDictFacts.get_store_all_in by assumption.
    specialize (Hboth t).
    destruct (choice_of reg train ideal (df_x train) t) as [i|],
             (choice_of reg train ideal' (df_x train) t) as [i'|]; auto.
    now destruct Hboth.
  - intros Huniq. rewrite Hsel, Hsel'. apply PyDictFacts.store_all_ext.
    intros t Hin. specialize (Hboth t).
    assert (Hget : PyDict.get sel t
                   = Some (choice_of reg train ideal (df_x train) t))
      by (rewrite Hsel; now apply PyDictFacts.get_store_all_in).
    destruct (choice_of reg train ideal (df_x train) t) as [i|],
             (choice_of reg train ideal' (df_x train) t) as [i'|];
      try contradiction; auto.
    destruct Hboth as [_ Hsame]. f_equal. apply Hsame.
    intros d Hd j d' Hj Hne Hd'. eapply (Huniq t i d); eassumption.
Qed.

(** The theorem at [ideal_pool] and the same columns in another order. *)
Lemma C7_shuffle_keeps_minimum_witness :
  let reg := Reference.ols in
  let train := Examples.train_two in
  let ideal := Examples.ideal_pool in
  let ideal' := Examples.ideal_pool_shuffled in
  let w := Examples.world train ideal None in
  let w' := Examples.world train ideal' None in
  let sel := ideal_functions_selection (fst (get_ideal_functions reg w init)) in
  let sel' := ideal_functions_selection (fst (get_ideal_functions reg w' init)) in
  (forall t j,
     deviation reg train ideal' (df_x train) t j
     = deviation reg train ideal (df_x train) t j) /\
  (forall t, In t (columns_from_1 train) ->
     match PyDict.get sel t, PyDict.get sel' t with
     | Some (Some i), Some (Some i') =>
         exists d d' pre' post',
           deviation reg train ideal (df_x train) t i = Some d /\
           deviation reg train ideal (df_x train) t i' = Some d' /\
           (d =? d')%float = true /\
           columns_from_1 ideal' = pre' ++ i' :: post' /\
           (forall j dj, In j pre' ->
              deviation reg train ideal (df_x train) t j = Some dj ->
              (d' <? dj)%float = true) /\
           (forall j dj, In j post' ->
              deviation reg train ideal (df_x train) t j = Some dj ->
              (d' <=? dj)%float = true)
     | Some None, Some None => True
     | _, _ => False
     end) /\
  ((forall t i d, In t (columns_from_1 train) ->
      PyDict.get sel t = Some (Some i) ->
      deviation reg train ideal (df_x train) t i = Some d ->
      forall j d', In j (columns_from_1 ideal) -> j <> i ->
        deviation reg train ideal (df_x train) t j = Some d' ->
        (d <? d')%float = true) ->
   sel' = sel).
Proof.
  apply (C7_shuffle_keeps_minimum Reference.ols
           (Examples.world Examples.train_two Examples.ideal_pool None)
           (Examples.world Examples.train_two Examples.ideal_pool_shuffled None)
           init Examples.train_two Examples.ideal_pool
           Examples.ideal_pool_shuffled).
  - reflexivity.
  - reflexivity.
  - reflexivity.
  - reflexivity.
  - reflexivity.
  - simpl. repeat constructor; simpl; intuition discriminate.
  - simpl. apply perm_skip. apply perm_swap.
Defined.

(** Two ideal columns hold the same values: in one order of the columns
    the first training column is given [ideal_y2], in the other
    [ideal_y3]. *)
Lemma C7_shuffled_ties_change_selection :
  df_x Examples.ideal_pool_shuffled = df_x Examples.ideal_pool /\
  Permutation (df_cols Examples.ideal_pool) (df_cols Examples.ideal_pool_shuffled) /\
  PyDict.get
    (ideal_functions_selection
       (fst (get_ideal_functions Reference.ols
               (Examples.world Examples.train_two Examples.ideal_pool None) init)))
    "train_y1" = Some (Some "ideal_y2") /\
  PyDict.get
    (ideal_functions_selection
       (fst (get_ideal_functions Reference.ols
               (Examples.world Examples.train_two Examples.ideal_pool_shuffled None)
               init)))
    "train_y1" = Some (Some "ideal_y3").
Proof.
  split; [reflexivity|]. split; [apply perm_skip, perm_swap|].
  split; vm_compute; reflexivity.
Qed.

(** C8 (as amended).  A test observation at which no pair of the selection
    passes the test of line 237 adds no record: the loop yields the records
    it yields for the test table without that observation, and so does the
    map operation.  A test table without rows never reaches the loop: the
    map operation logs the failure to load it and returns, with no record,
    raising nothing and leaving the manager as it was. *)
Theorem C8_unmatched_observation_is_dropped
    (reg : Regressor) (self : Manager) (ideal_data : DataFrame) :
  (forall x y pre post results,
     (forall t oi yi d, In (t, oi) (ideal_functions_selection self) ->
        getitem_opt ideal_data oi = Some yi ->
        evaluate_pair reg self ideal_data x y t yi <> Accepted d) ->
     classify reg self ideal_data (pre ++ (x, y) :: post) = Some results ->
     classify reg self ideal_data (pre ++ post) = Some results) /\
  (forall (w w' : World) x y pre post,
     _load_data empty (ideal_csv w) = Some ideal_data ->
     ideal_csv w' = ideal_csv w ->
     test_csv w = Some (pre ++ (x, y) :: post) ->
     test_csv w' = Some (pre ++ post) ->
     (forall t oi yi d, In (t, oi) (ideal_functions_selection self) ->
        getitem_opt ideal_data oi = Some yi ->
        evaluate_pair reg self ideal_data x y t yi <> Accepted d) ->
     mapped (map_test_data_to_ideal_functions reg w' self)
     = mapped (map_test_data_to_ideal_functions reg w self)) /\
  (forall w : World,
     test_csv w = Some [] ->
     map_test_data_to_ideal_functions reg w self
     = {| manager_after := self; how := Returned; mapped := [];
          log := [(ERROR, "Data loading failed in map_test_data_to_ideal_functions")] |}).
Proof.
  assert (Hdrop : forall x y pre post results,
            (forall t oi yi d, In (t, oi) (ideal_functions_selection self) ->
               getitem_opt ideal_data oi = Some yi ->
               evaluate_pair reg self ideal_data x y t yi <> Accepted d) ->
            classify reg self ideal_data (pre ++ (x, y) :: post) = Some results ->
            classify reg self ideal_data (pre ++ post) = Some results).
  { intros x y pre post results Hno.
    rewrite !classify_app. simpl.
    destruct (classify reg self ideal_data pre) as [r1|]; [|discriminate].
    destruct (map_point reg self ideal_data x y
                (ideal_functions_selection self) no_point) as [b|] eqn:Eb;
      [|discriminate].
    apply map_point_nothing_accepted in Eb; [|exact Hno]. subst b.
    now destruct (classify reg self ideal_data post). }
  split; [exact Hdrop|]. split.
  - intros w w' x y pre post Hi Hsame Hw Hw' Hno.
    unfold map_test_data_to_ideal_functions.
    rewrite Hw, Hw', Hsame, Hi.
    assert (Hload : _load_data test_empty (Some (pre ++ (x, y) :: post))
                    = Some (pre ++ (x, y) :: post))
      by (now destruct pre).
    rewrite Hload.
    destruct (classify reg self ideal_data (pre ++ (x, y) :: post))
      as [results|] eqn:Ec.
    + pose proof (Hdrop x y pre post results Hno Ec) as Ec'.
      destruct (pre ++ post) as [|row rest] eqn:Erows.
      * simpl in Ec'. injection Ec' as <-. reflexivity.
      * cbn [_load_data test_empty]. rewrite Ec'.
        now destruct (persist w' self results), (persist w self results).
    + apply classify_raises in Ec. destruct Ec as [_ Hbad].
      destruct (pre ++ post) as [|row rest] eqn:Erows; [reflexivity|].
      cbn [_load_data test_empty].
      assert (Ec' : classify reg self ideal_data (row :: rest) = None)
        by (apply classify_raises; split; [discriminate|exact Hbad]).
      now rewrite Ec'.
  - intros w Hw. now apply map_refuses_empty_test_table.
Qed.

(** The map operation on a test table without rows, after a selection: an
    error is logged and nothing is classified. *)
Lemma C8_empty_test_table_is_an_error :
  map_test_data_to_ideal_functions Reference.ols
    (Examples.world Examples.train_two Examples.ideal_pool (Some []))
    Examples.selected
  = {| manager_after := Examples.selected; how := Returned; mapped := [];
       log := [(ERROR, "Data loading failed in map_test_data_to_ideal_functions")] |}.
Proof. reflexivity. Qed.

(** The observation [(2, 9)] is far from both selected functions. *)
Example far_observation_is_dropped :
  classify Reference.ols Examples.selected Examples.ideal_pool Examples.test_points
  = classify Reference.ols Examples.selected Examples.ideal_pool
      [(1.5, 3); (2, 1.25)]%float.
Proof. vm_compute. reflexivity. Qed.

(** C10 (as amended).  A successful [save_data] leaves the table equal to
    the data it was given, whatever the table held.  Of two consecutive
    calls of the map operation, when the second one maps at least one
    observation and its write succeeds, the stored table holds the records
    of the second call and nothing else; when the second one fails to load
    a table, or its write fails, the stored table is as the first call
    left it. *)
Theorem C10_successful_persistence_replaces
    (reg : Regressor) (w1 w2 : World) (self : Manager) :
  let run1 := map_test_data_to_ideal_functions reg w1 self in
  let run2 := map_test_data_to_ideal_functions reg w2 (manager_after run1) in
  (forall writable table data table',
     save_data writable table data = Some table' -> table' = Some data) /\
  (mapped run2 <> [] -> results_writable w2 = true ->
   results_db (manager_after run2)
   = Some (map drop_training_data_column (mapped run2))) /\
  (_load_data test_empty (test_csv w2) = None \/
   _load_data empty (ideal_csv w2) = None ->
   results_db (manager_after run2) = results_db (manager_after run1)) /\
  (results_writable w2 = false ->
   results_db (manager_after run2) = results_db (manager_after run1)).
Proof.
  intros run1 run2. repeat apply conj.
  - intros writable table data table'. unfold save_data.
    destruct writable; [|discriminate]. now intros [= <-].
  - unfold run2, map_test_data_to_ideal_functions.
    destruct (_load_data test_empty (test_csv w2)) as [test_data|];
      [|simpl; congruence].
    destruct (_load_data empty (ideal_csv w2)) as [ideal_data|];
      [|simpl; congruence].
    destruct (classify reg (manager_after run1) ideal_data test_data)
      as [[|r rs]|]; simpl; try congruence.
    intros _ Hw. unfold _store_results, save_data. now rewrite Hw.
  - unfold run2, map_test_data_to_ideal_functions.
    intros [H|H]; rewrite H; [reflexivity|].
    now destruct (_load_data test_empty (test_csv w2)).
  - intros Hw. unfold run2, map_test_data_to_ideal_functions.
    destruct (_load_data test_empty (test_csv w2)) as [test_data|];
      [|reflexivity].
    destruct (_load_data empty (ideal_csv w2)) as [ideal_data|];
      [|reflexivity].
    destruct (classify reg (manager_after run1) ideal_data test_data)
      as [[|r rs]|]; simpl; try reflexivity.
    unfold _store_results, save_data. now rewrite Hw.
Qed.

(** Two consecutive calls of the map operation, the second one without a
    test file: the second call maps nothing and returns, and the stored
    table still holds the two records of the first call. *)
Lemma C10_aborted_call_keeps_old_records :
  let run1 := map_test_data_to_ideal_functions Reference.ols
                (Examples.world Examples.train_two Examples.ideal_pool
                   (Some Examples.test_points)) Examples.selected in
  let run2 := map_test_data_to_ideal_functions Reference.ols
                (Examples.world Examples.train_two Examples.ideal_pool None)
                (manager_after run1) in
  how run2 = Returned /\
  mapped run2 = [] /\
  List.length (mapped run1) = 2%nat /\
  results_db (manager_after run2)
  = Some (map drop_training_data_column (mapped run1)).
Proof. vm_compute. auto. Qed.

(** The same happens when the second call runs to its end but maps no
    observation: the frame built from no record has no column to drop, the
    write is never attempted, and the records of the first call stay. *)
Example map_without_match_keeps_old_table :
  let run1 := map_test_data_to_ideal_functions Reference.ols
                (Examples.world Examples.train_two Examples.ideal_pool
                   (Some Examples.test_points)) Examples.selected in
  let run2 := map_test_data_to_ideal_functions Reference.ols
                (Examples.world Examples.train_two Examples.ideal_pool
                   (Some [(2, 9)]%float))
                (manager_after run1) in
  mapped run2 = [] /\
  results_db (manager_after run2)
  = Some (map drop_training_data_column (mapped run1)).
Proof. vm_compute. auto. Qed.

(** Two consecutive calls that both map an observation: the table holds
    the one record of the second call, not the two of the first. *)
Example second_call_replaces_table :
  let run1 := map_test_data_to_ideal_functions Reference.ols
                (Examples.world Examples.train_two Examples.ideal_pool
                   (Some Examples.test_points)) Examples.selected in
  let run2 := map_test_data_to_ideal_functions Reference.ols
                (Examples.world Examples.train_two Examples.ideal_pool
                   (Some [(1.5, 3)]%float))
                (manager_after run1) in
  List.length (mapped run1) = 2%nat /\
  results_db (manager_after run2)
  = Some [ {| row_x := 1.5; row_y := 3; row_delta_y := 0;
              row_ideal_func := "ideal_y2" |} ]%float.
Proof. vm_compute. auto. Qed.
